(** * I2C master driver (I2C.cpp): a shallow embedding and its properties

    The driver is a polled, blocking TWI master.  Its five primitives
    ([_start], [_sendAddress], [_sendByte], [_receiveByte], [_stop]) each
    trigger one bus phase and spin on a completion flag; the public
    [write]/[read]/[write16]/[read16] overloads sequence those primitives.

    The peripheral and the millisecond clock are external.  They are
    modelled by a script of responses (one per bus phase) that the driver
    consumes, and by a clock that advances one millisecond per polling
    iteration.  A ghost trace records the bus phases the driver issues. *)

From Stdlib Require Import ZArith Lia Bool List.
From stdpp Require Import base list.
Import ListNotations.

#[local] Open Scope Z_scope.

(** ** Fixed-width integers *)

Definition u8 (x : Z) : Z := x mod 256.
Definition u16 (x : Z) : Z := x mod 65536.
Definition u32 (x : Z) : Z := x mod 4294967296.

(** C truthiness of an integer: [if (x)] . *)
Definition truthy (x : Z) : bool := negb (x =? 0).

(** ** Constants of I2C.h

    The header is not part of the sources: the status codes and the buffer
    capacity are taken as parameters.  [atmega] further down gives the
    values of the ATmega data sheet, for running the model. *)

Class Header := {
  START : Z;
  REPEATED_START : Z;
  MT_SLA_ACK : Z;
  MT_SLA_NACK : Z;
  MT_DATA_ACK : Z;
  MT_DATA_NACK : Z;
  MR_SLA_ACK : Z;
  MR_SLA_NACK : Z;
  MR_DATA_ACK : Z;
  MR_DATA_NACK : Z;
  LOST_ARBTRTN : Z;
  MAX_BUFFER_SIZE : Z;
}.

(** The mode arguments of the error handlers; the values are those of the
    comments above [start_error_handler] and [send_addr_error_handler]. *)
Definition START_MODE : Z := 0.
Definition REPEATED_START_MODE : Z := 1.
Definition TRANSMIT_MODE : Z := 0.
Definition RECEIVER_MODE : Z := 1.

(** Modelled from the spec: the macros [SLA_W] and [SLA_R] of the missing
    header; the 7-bit address is loaded together with the direction bit
    (0 to transmit, 1 to receive).  The result is an [int] in C; the
    primitives convert it to [uint8_t]. *)
Definition SLA_W (address : Z) : Z := Z.shiftl address 1.
Definition SLA_R (address : Z) : Z := Z.shiftl address 1 + 1.

(** ** The peripheral as seen by the driver *)

(** Bus phases issued by the driver, in the order of issue. *)
Inductive Event :=
| EvStart
| EvAddress (i2cAddress : Z)
| EvByte (i2cData : Z)
| EvReceive (ack : Z)
| EvStop
| EvLockUp.

(** What the peripheral does with one issued phase: the completion
    condition becomes true at poll number [polls], after which the status
    register reads [status] and, when [dr] is given, the data register
    holds that byte; or the condition never becomes true. *)
Inductive Response :=
| Ready (polls : nat) (status : Z) (dr : option Z)
| Stalled.

(** Lines printed by [scan] on the serial console. *)
Inductive Line :=
| LnScanning
| LnBlank
| LnBusProblem
| LnFound (s : Z)
| LnNoDevices.

Record State := mkState {
  bytesAvailable : Z;          (* uint8_t  I2C::bytesAvailable *)
  bufferIndex : Z;             (* uint8_t  I2C::bufferIndex *)
  totalBytes : Z;              (* uint8_t  I2C::totalBytes *)
  timeOutDelay : Z;            (* uint16_t I2C::timeOutDelay *)
  data : list Z;               (* uint8_t  data[MAX_BUFFER_SIZE] *)
  TWDR : Z;                    (* data register *)
  TWSR : Z;                    (* status register *)
  clock : Z;                   (* what millis() returns *)
  pending : Response;          (* peripheral's answer to the phase in flight *)
  script : list Response;      (* answers to the phases still to be issued *)
  trace : list Event;          (* phases issued so far *)
  console : list Line;         (* Serial output so far *)
}.

Definition set_bytesAvailable (v : Z) (s : State) : State :=
  mkState v (bufferIndex s) (totalBytes s) (timeOutDelay s) (data s) (TWDR s)
          (TWSR s) (clock s) (pending s) (script s) (trace s) (console s).
Definition set_bufferIndex (v : Z) (s : State) : State :=
  mkState (bytesAvailable s) v (totalBytes s) (timeOutDelay s) (data s) (TWDR s)
          (TWSR s) (clock s) (pending s) (script s) (trace s) (console s).
Definition set_totalBytes (v : Z) (s : State) : State :=
  mkState (bytesAvailable s) (bufferIndex s) v (timeOutDelay s) (data s) (TWDR s)
          (TWSR s) (clock s) (pending s) (script s) (trace s) (console s).
Definition set_timeOutDelay (v : Z) (s : State) : State :=
  mkState (bytesAvailable s) (bufferIndex s) (totalBytes s) v (data s) (TWDR s)
          (TWSR s) (clock s) (pending s) (script s) (trace s) (console s).
Definition set_data (v : list Z) (s : State) : State :=
  mkState (bytesAvailable s) (bufferIndex s) (totalBytes s) (timeOutDelay s) v (TWDR s)
          (TWSR s) (clock s) (pending s) (script s) (trace s) (console s).
Definition set_TWDR (v : Z) (s : State) : State :=
  mkState (bytesAvailable s) (bufferIndex s) (totalBytes s) (timeOutDelay s) (data s) v
          (TWSR s) (clock s) (pending s) (script s) (trace s) (console s).
Definition set_TWSR (v : Z) (s : State) : State :=
  mkState (bytesAvailable s) (bufferIndex s) (totalBytes s) (timeOutDelay s) (data s) (TWDR s)
          v (clock s) (pending s) (script s) (trace s) (console s).
Definition set_clock (v : Z) (s : State) : State :=
  mkState (bytesAvailable s) (bufferIndex s) (totalBytes s) (timeOutDelay s) (data s) (TWDR s)
          (TWSR s) v (pending s) (script s) (trace s) (console s).
Definition emit (e : Event) (s : State) : State :=
  mkState (bytesAvailable s) (bufferIndex s) (totalBytes s) (timeOutDelay s) (data s) (TWDR s)
          (TWSR s) (clock s) (pending s) (script s) (trace s ++ [e]) (console s).
Definition println (l : Line) (s : State) : State :=
  mkState (bytesAvailable s) (bufferIndex s) (totalBytes s) (timeOutDelay s) (data s) (TWDR s)
          (TWSR s) (clock s) (pending s) (script s) (trace s) (console s ++ [l]).

(** Writing a command to TWCR puts a phase on the bus: the phase is
    recorded, and the peripheral's answer to it is the next of the script
    (an exhausted script answers nothing any more). *)
Definition issue (e : Event) (s : State) : State :=
  let s := emit e s in
  mkState (bytesAvailable s) (bufferIndex s) (totalBytes s) (timeOutDelay s) (data s) (TWDR s)
          (TWSR s) (clock s)
          (match script s with r :: _ => r | [] => Stalled end)
          (match script s with _ :: rest => rest | [] => [] end)
          (trace s) (console s).

Definition millis (s : State) : Z := clock s.

(** One trip round a polling loop takes a millisecond of [unsigned long]
    time. *)
Definition tick (s : State) : State := set_clock (u32 (clock s + 1)) s.

(** Modelled from the spec: the macro [TWI_STATUS] of the missing header,
    the status register without its prescaler bits; a raw status is 0 or
    lies in 8..255. *)
Definition TWI_STATUS (s : State) : Z := Z.land (TWSR s) 248.

(** The completion condition of the phase in flight at poll number [k]:
    TWINT set (for [_stop]: TWSTO cleared). *)
Definition flag_up (r : Response) (k : nat) : bool :=
  match r with
  | Ready polls _ _ => (polls <=? k)%nat
  | Stalled => false
  end.

(** The registers when the phase has completed. *)
Definition latch (r : Response) (s : State) : State :=
  match r with
  | Ready _ status dr =>
      let s := set_TWSR (u8 status) s in
      match dr with Some b => set_TWDR (u8 b) s | None => s end
  | Stalled => s
  end.

(** [I2C::lockUp]: TWCR = 0, then TWCR = TWEN | TWEA. *)
Definition lockUp (s : State) : State := emit EvLockUp s.

(** The polling loop shared by the five primitives:
<<
  while (!(TWCR & (1 << TWINT))) {
    if (!timeOutDelay) continue;
    if ((millis() - startingTime) >= timeOutDelay) { lockUp(); return (1); }
  }
>>
    [spin] returns [true] when the loop was left through the timeout branch
    (after [lockUp]) and [false] when its condition ended it; [None] when
    [fuel] polls did not decide. *)
Fixpoint spin (fuel k : nat) (startingTime : Z) (s : State) : option (bool * State) :=
  match fuel with
  | O => None
  | S fuel' =>
      if flag_up (pending s) k then Some (false, latch (pending s) s)
      else if timeOutDelay s =? 0 then spin fuel' (S k) startingTime (tick s)
      else if u32 (millis s - startingTime) >=? timeOutDelay s
           then Some (true, lockUp s)
           else spin fuel' (S k) startingTime (tick s)
  end.

(** Polls after which the loop has been decided whenever it is decided at
    all (see [wait_exact]). *)
Definition poll_budget (s : State) : nat :=
  match pending s with
  | Ready polls _ _ => S polls
  | Stalled => S (Z.to_nat (timeOutDelay s))
  end.

(** The loop itself; [None] stands for a loop that never ends. *)
Definition wait (startingTime : Z) (s : State) : option (bool * State) :=
  spin (poll_budget s) 0 startingTime s.

(** ** The driver monad: state passing, [None] when the call never returns *)

Definition M (A : Type) : Type := State -> option (A * State).

Definition ret {A} (a : A) : M A := fun s => Some (a, s).
Definition bind {A B} (m : M A) (k : A -> M B) : M B :=
  fun s => match m s with
           | Some (a, s') => k a s'
           | None => None
           end.
Definition modify (f : State -> State) : M unit := fun s => Some (tt, f s).
Definition gets {A} (f : State -> A) : M A := fun s => Some (f s, s).

Declare Scope drv_scope.
Delimit Scope drv_scope with drv.
Notation "x <- m ;; k" := (bind m (fun x => k))
  (at level 100, m at next level, right associativity) : drv_scope.
Notation "m ;;; k" := (bind m (fun _ => k))
  (at level 100, right associativity) : drv_scope.
#[local] Open Scope drv_scope.

(** How a loop body ends: by a [return] of the enclosing function, or by
    falling through to the next statement. *)
Inductive Flow (R : Type) :=
| Return (r : R)
| Next.
Arguments Return {R} r.
Arguments Next {R}.

Section Driver.
Context `{Header}.

(** ** Low-level methods *)

Definition _stop : M Z := fun s =>
  let startingTime := millis s in
  let s := issue EvStop s in
  match wait startingTime s with
  | None => None
  | Some (true, s) => Some (1, s)
  | Some (false, s) => Some (0, s)
  end.

Definition _start : M Z := fun s =>
  let startingTime := millis s in
  let s := issue EvStart s in
  match wait startingTime s with
  | None => None
  | Some (true, s) => Some (1, s)
  | Some (false, s) =>
      if (TWI_STATUS s =? START) || (TWI_STATUS s =? REPEATED_START)
      then Some (0, s)
      else if TWI_STATUS s =? LOST_ARBTRTN
      then let bufferedStatus := TWI_STATUS s in
           let s := lockUp s in
           Some (bufferedStatus, s)
      else Some (TWI_STATUS s, s)
  end.

Definition _sendAddress (i2cAddress : Z) : M Z := fun s =>
  let i2cAddress := u8 i2cAddress in
  let s := set_TWDR i2cAddress s in
  let startingTime := millis s in
  let s := issue (EvAddress i2cAddress) s in
  match wait startingTime s with
  | None => None
  | Some (true, s) => Some (1, s)
  | Some (false, s) =>
      if (TWI_STATUS s =? MT_SLA_ACK) || (TWI_STATUS s =? MR_SLA_ACK)
      then Some (0, s)
      else
        let bufferedStatus := TWI_STATUS s in
        if (TWI_STATUS s =? MT_SLA_NACK) || (TWI_STATUS s =? MR_SLA_NACK)
        then (_stop ;;; ret bufferedStatus) s
        else Some (bufferedStatus, lockUp s)
  end.

Definition _sendByte (i2cData : Z) : M Z := fun s =>
  let i2cData := u8 i2cData in
  let s := set_TWDR i2cData s in
  let startingTime := millis s in
  let s := issue (EvByte i2cData) s in
  match wait startingTime s with
  | None => None
  | Some (true, s) => Some (1, s)
  | Some (false, s) =>
      if TWI_STATUS s =? MT_DATA_ACK
      then Some (0, s)
      else
        let bufferedStatus := TWI_STATUS s in
        if TWI_STATUS s =? MT_DATA_NACK
        then (_stop ;;; ret bufferedStatus) s
        else Some (bufferedStatus, lockUp s)
  end.

Definition _receiveByte (ack : Z) : M Z := fun s =>
  let startingTime := millis s in
  let s := issue (EvReceive ack) s in
  match wait startingTime s with
  | None => None
  | Some (true, s) => Some (1, s)
  | Some (false, s) =>
      if TWI_STATUS s =? LOST_ARBTRTN
      then let bufferedStatus := TWI_STATUS s in
           Some (bufferedStatus, lockUp s)
      else if truthy ack
      then (if TWI_STATUS s =? MR_DATA_ACK then Some (0, s) else Some (TWI_STATUS s, s))
      else (if TWI_STATUS s =? MR_DATA_NACK then Some (0, s) else Some (TWI_STATUS s, s))
  end.

(** ** Error handlers *)

Definition start_error_handler (returnStatus mode : Z) : Z :=
  if returnStatus =? 1 then
    if mode =? START_MODE then 1
    else if mode =? REPEATED_START_MODE then 4
    else returnStatus
  else returnStatus.

Definition stop_error_handler (returnStatus : Z) : Z :=
  if returnStatus =? 1 then 7 else returnStatus.

Definition receive_error_handler (returnStatus : Z) : Z :=
  if returnStatus =? 1 then 6 else returnStatus.

Definition send_error_handler (returnStatus : Z) : Z :=
  if returnStatus =? 1 then 3 else returnStatus.

Definition send_addr_error_handler (returnStatus mode : Z) : Z :=
  if returnStatus =? 1 then
    if mode =? TRANSMIT_MODE then 2
    else if mode =? RECEIVER_MODE then 5
    else returnStatus
  else returnStatus.

(** [uint8_t I2C::_receiveByte(uint8_t ack, uint8_t *target)]: the cell
    [*target] is passed in and its content after the call is returned next
    to the status. *)
Definition _receiveByte_target (ack : Z) (target : Z) : M (Z * Z) :=
  stat <- _receiveByte ack ;;
  if truthy stat
  then
    let target := 0 in
    ret (receive_error_handler stat, target)
  else
    TWDR_ <- gets TWDR ;;
    let target := TWDR_ in
    ret (0, target).

(** ** Public methods *)

Definition timeOut (_timeOut : Z) : M unit :=
  modify (set_timeOutDelay (u16 _timeOut)).

Definition available : M Z := gets bytesAvailable.

(** [data[bufferIndex]] is read with [0] for an index beyond the array
    (where C gives no meaning to the read). *)
Definition receive : M Z :=
  tb <- gets totalBytes ;;
  ba <- gets bytesAvailable ;;
  modify (set_bufferIndex (u8 (tb - ba))) ;;;
  if negb (truthy ba)
  then
    modify (set_bufferIndex 0) ;;;
    ret 0
  else
    modify (set_bytesAvailable (u8 (ba - 1))) ;;;
    buf <- gets data ;;
    ix <- gets bufferIndex ;;
    ret (default 0 (buf !! Z.to_nat ix)).

(** The body of the [for] loop of [scan], for [todo] more addresses from
    [s] on; [Return] is the early [return] after a bus time-out, with
    [timeOutDelay] put back, and the count of devices is threaded through. *)
Fixpoint scan_loop (todo : nat) (s tempTime totalDevicesFound : Z) : M (Flow unit * Z) :=
  match todo with
  | O => ret (Next, totalDevicesFound)
  | S todo' =>
      returnStatus <- _start ;;
      returnStatus <- (if negb (truthy returnStatus)
                       then _sendAddress (SLA_W s)
                       else ret returnStatus) ;;
      if truthy returnStatus
      then
        if returnStatus =? 1
        then
          modify (println LnBusProblem) ;;;
          modify (set_timeOutDelay tempTime) ;;;
          ret (Return tt, totalDevicesFound)
        else
          _stop ;;;
          scan_loop todo' (u8 (s + 1)) tempTime totalDevicesFound
      else
        modify (println (LnFound s)) ;;;
        let totalDevicesFound := u8 (totalDevicesFound + 1) in
        _stop ;;;
        scan_loop todo' (u8 (s + 1)) tempTime totalDevicesFound
  end.

Definition scan : M unit :=
  tempTime <- gets timeOutDelay ;;
  timeOut 80 ;;;
  let totalDevicesFound := 0 in
  modify (println LnScanning) ;;;
  modify (println LnBlank) ;;;
  r <- scan_loop 128 0 tempTime totalDevicesFound ;;
  match r with
  | (Return _, _) => ret tt
  | (Next, totalDevicesFound) =>
      (if negb (truthy totalDevicesFound)
       then modify (println LnNoDevices)
       else ret tt) ;;;
      modify (set_timeOutDelay tempTime)
  end.

(** *** Writes with an 8-bit register address *)

Definition write (address registerAddress : Z) : M Z :=
  returnStatus <- _start ;;
  if truthy returnStatus then ret (start_error_handler returnStatus START_MODE) else
  returnStatus <- _sendAddress (SLA_W address) ;;
  (* the handler's result is dropped and the sequence goes on *)
  let _ := if truthy returnStatus
           then send_addr_error_handler returnStatus TRANSMIT_MODE else 0 in
  returnStatus <- _sendByte registerAddress ;;
  if truthy returnStatus then ret (send_error_handler returnStatus) else
  returnStatus <- _stop ;;
  if truthy returnStatus then ret (stop_error_handler returnStatus) else
  ret returnStatus.

Definition write_int (address registerAddress : Z) : M Z :=
  write (u8 address) (u8 registerAddress).

Definition write_u8 (address registerAddress data : Z) : M Z :=
  returnStatus <- _start ;;
  if truthy returnStatus then ret (start_error_handler returnStatus START_MODE) else
  returnStatus <- _sendAddress (SLA_W address) ;;
  let _ := if truthy returnStatus
           then send_addr_error_handler returnStatus TRANSMIT_MODE else 0 in
  returnStatus <- _sendByte registerAddress ;;
  if truthy returnStatus then ret (send_error_handler returnStatus) else
  returnStatus <- _sendByte data ;;
  if truthy returnStatus then ret (send_error_handler returnStatus) else
  returnStatus <- _stop ;;
  if truthy returnStatus then ret (stop_error_handler returnStatus) else
  ret returnStatus.

Definition write_int3 (address registerAddress data : Z) : M Z :=
  write_u8 (u8 address) (u8 registerAddress) (u8 data).

(** The [for] loop of the block writes; [data[i]] is read with [0] beyond
    the end of the caller's array. *)
Fixpoint send_loop (todo : nat) (i : Z) (data : list Z) : M (Flow Z) :=
  match todo with
  | O => ret Next
  | S todo' =>
      returnStatus <- _sendByte (default 0 (data !! Z.to_nat i)) ;;
      if truthy returnStatus then ret (Return (send_error_handler returnStatus)) else
      send_loop todo' (i + 1) data
  end.

Definition write_bytes (address registerAddress : Z) (data : list Z) (numberBytes : Z) : M Z :=
  returnStatus <- _start ;;
  if truthy returnStatus then ret (start_error_handler returnStatus START_MODE) else
  returnStatus <- _sendAddress (SLA_W address) ;;
  let _ := if truthy returnStatus
           then send_addr_error_handler returnStatus TRANSMIT_MODE else 0 in
  returnStatus <- _sendByte registerAddress ;;
  if truthy returnStatus then ret (send_error_handler returnStatus) else
  r <- send_loop (Z.to_nat numberBytes) 0 data ;;
  match r with
  | Return code => ret code
  | Next =>
      returnStatus <- _stop ;;
      if truthy returnStatus then ret (stop_error_handler returnStatus) else
      ret returnStatus
  end.

(** [strlen]: the characters before the first NUL; the list is the C string
    with or without its terminator. *)
Fixpoint strlen (str : list Z) : Z :=
  match str with
  | [] => 0
  | c :: rest => if c =? 0 then 0 else 1 + strlen rest
  end.

Definition write_str (address registerAddress : Z) (data : list Z) : M Z :=
  let bufferLength := u8 (strlen data) in
  write_bytes address registerAddress data bufferLength.

Definition write_u16 (address registerAddress data : Z) : M Z :=
  let writeBytes := [ Z.land (Z.shiftr data 8) 255;
                      Z.land data 255 ] in
  write_bytes address registerAddress writeBytes 2.



(** *** Reads *)

(** The [for] loop of the reads into the internal buffer, for [todo] more
    bytes from index [i] on.  A store beyond the array (where C gives it no
    meaning) leaves the list as it is. *)
Fixpoint receive_loop (todo : nat) (i nack : Z) : M (Flow Z) :=
  match todo with
  | O => ret Next
  | S todo' =>
      returnStatus <- (if i =? nack then _receiveByte 0 else _receiveByte 1) ;;
      if truthy returnStatus then ret (Return (receive_error_handler returnStatus)) else
      modify (fun s => set_data (<[Z.to_nat i := TWDR s]> (data s)) s) ;;;
      modify (set_bytesAvailable (u8 (i + 1))) ;;;
      modify (set_totalBytes (u8 (i + 1))) ;;;
      receive_loop todo' (i + 1) nack
  end.

(** The same loop storing into the caller's [dataBuffer], which is handed
    back with the outcome. *)
Fixpoint receive_buf_loop (todo : nat) (i nack : Z) (dataBuffer : list Z)
  : M (Flow Z * list Z) :=
  match todo with
  | O => ret (Next, dataBuffer)
  | S todo' =>
      returnStatus <- (if i =? nack then _receiveByte 0 else _receiveByte 1) ;;
      if truthy returnStatus
      then ret (Return (receive_error_handler returnStatus), dataBuffer) else
      b <- gets TWDR ;;
      let dataBuffer := <[Z.to_nat i := b]> dataBuffer in
      receive_buf_loop todo' (i + 1) nack dataBuffer
  end.

Definition read (address numberBytes : Z) : M Z :=
  modify (set_bytesAvailable 0) ;;;
  modify (set_bufferIndex 0) ;;;
  let numberBytes := u8 (Z.min numberBytes MAX_BUFFER_SIZE) in
  let numberBytes := if numberBytes =? 0 then u8 (numberBytes + 1) else numberBytes in
  let nack := u8 (numberBytes - 1) in
  returnStatus <- _start ;;
  if truthy returnStatus then ret (start_error_handler returnStatus START_MODE) else
  returnStatus <- _sendAddress (SLA_R address) ;;
  if truthy returnStatus then ret (send_addr_error_handler returnStatus RECEIVER_MODE) else
  r <- receive_loop (Z.to_nat numberBytes) 0 nack ;;
  match r with
  | Return code => ret code
  | Next =>
      returnStatus <- _stop ;;
      if truthy returnStatus then ret (stop_error_handler returnStatus) else
      ret returnStatus
  end.

Definition read_int (address numberBytes : Z) : M Z :=
  read (u8 address) (u8 numberBytes).

Definition read_reg (address registerAddress numberBytes : Z) : M Z :=
  modify (set_bytesAvailable 0) ;;;
  modify (set_bufferIndex 0) ;;;
  let numberBytes := u8 (Z.min numberBytes MAX_BUFFER_SIZE) in
  let numberBytes := if numberBytes =? 0 then u8 (numberBytes + 1) else numberBytes in
  let nack := u8 (numberBytes - 1) in
  returnStatus <- _start ;;
  if truthy returnStatus then ret (start_error_handler returnStatus START_MODE) else
  returnStatus <- _sendAddress (SLA_W address) ;;
  if truthy returnStatus then ret (send_addr_error_handler returnStatus TRANSMIT_MODE) else
  returnStatus <- _sendByte registerAddress ;;
  if truthy returnStatus then ret (send_addr_error_handler returnStatus RECEIVER_MODE) else
  returnStatus <- _start ;;
  if truthy returnStatus then ret (start_error_handler returnStatus REPEATED_START_MODE) else
  returnStatus <- _sendAddress (SLA_R address) ;;
  if truthy returnStatus then ret (send_addr_error_handler returnStatus RECEIVER_MODE) else
  r <- receive_loop (Z.to_nat numberBytes) 0 nack ;;
  match r with
  | Return code => ret code
  | Next =>
      returnStatus <- _stop ;;
      if truthy returnStatus then ret (stop_error_handler returnStatus) else
      ret returnStatus
  end.

Definition read_reg_int (address registerAddress numberBytes : Z) : M Z :=
  read_reg (u8 address) (u8 registerAddress) (u8 numberBytes).

(** [read(uint8_t address, uint8_t numberBytes, uint8_t *dataBuffer)] *)
Definition read_buf (address numberBytes : Z) (dataBuffer : list Z) : M (Z * list Z) :=
  let numberBytes := if numberBytes =? 0 then u8 (numberBytes + 1) else numberBytes in
  let nack := u8 (numberBytes - 1) in
  returnStatus <- _start ;;
  if truthy returnStatus
  then ret (start_error_handler returnStatus START_MODE, dataBuffer) else
  returnStatus <- _sendAddress (SLA_R address) ;;
  if truthy returnStatus
  then ret (send_addr_error_handler returnStatus RECEIVER_MODE, dataBuffer) else
  r <- receive_buf_loop (Z.to_nat numberBytes) 0 nack dataBuffer ;;
  match r with
  | (Return code, dataBuffer) => ret (code, dataBuffer)
  | (Next, dataBuffer) =>
      returnStatus <- _stop ;;
      if truthy returnStatus then ret (stop_error_handler returnStatus, dataBuffer) else
      ret (returnStatus, dataBuffer)
  end.

(** [read(uint8_t address, uint16_t numberBytes, uint8_t *dataBuffer)] *)
Definition read_buf_n16 (address numberBytes : Z) (dataBuffer : list Z) : M (Z * list Z) :=
  let numberBytes := if numberBytes =? 0 then u16 (numberBytes + 1) else numberBytes in
  let nack := u16 (numberBytes - 1) in
  returnStatus <- _start ;;
  if truthy returnStatus
  then ret (start_error_handler returnStatus START_MODE, dataBuffer) else
  returnStatus <- _sendAddress (SLA_R address) ;;
  if truthy returnStatus
  then ret (send_addr_error_handler returnStatus RECEIVER_MODE, dataBuffer) else
  r <- receive_buf_loop (Z.to_nat numberBytes) 0 nack dataBuffer ;;
  match r with
  | (Return code, dataBuffer) => ret (code, dataBuffer)
  | (Next, dataBuffer) =>
      returnStatus <- _stop ;;
      if truthy returnStatus then ret (stop_error_handler returnStatus, dataBuffer) else
      ret (returnStatus, dataBuffer)
  end.

(** [read(uint8_t address, uint8_t registerAddress, uint8_t numberBytes,
    uint8_t *dataBuffer)] *)
Definition read_reg_buf (address registerAddress numberBytes : Z) (dataBuffer : list Z)
  : M (Z * list Z) :=
  let numberBytes := if numberBytes =? 0 then u8 (numberBytes + 1) else numberBytes in
  let nack := u8 (numberBytes - 1) in
  returnStatus <- _start ;;
  if truthy returnStatus
  then ret (start_error_handler returnStatus START_MODE, dataBuffer) else
  returnStatus <- _sendAddress (SLA_W address) ;;
  if truthy returnStatus
  then ret (send_addr_error_handler returnStatus TRANSMIT_MODE, dataBuffer) else
  returnStatus <- _sendByte registerAddress ;;
  if truthy returnStatus
  then ret (send_addr_error_handler returnStatus RECEIVER_MODE, dataBuffer) else
  returnStatus <- _start ;;
  if truthy returnStatus
  then ret (start_error_handler returnStatus REPEATED_START_MODE, dataBuffer) else
  returnStatus <- _sendAddress (SLA_R address) ;;
  if truthy returnStatus
  then ret (send_addr_error_handler returnStatus RECEIVER_MODE, dataBuffer) else
  r <- receive_buf_loop (Z.to_nat numberBytes) 0 nack dataBuffer ;;
  match r with
  | (Return code, dataBuffer) => ret (code, dataBuffer)
  | (Next, dataBuffer) =>
      returnStatus <- _stop ;;
      if truthy returnStatus then ret (stop_error_handler returnStatus, dataBuffer) else
      ret (returnStatus, dataBuffer)
  end.

(** [read(uint8_t address, uint8_t registerAddress, uint16_t numberBytes,
    uint8_t *dataBuffer)] *)
Definition read_reg_buf_n16 (address registerAddress numberBytes : Z) (dataBuffer : list Z)
  : M (Z * list Z) :=
  let numberBytes := if numberBytes =? 0 then u16 (numberBytes + 1) else numberBytes in
  let nack := u16 (numberBytes - 1) in
  returnStatus <- _start ;;
  if truthy returnStatus
  then ret (start_error_handler returnStatus START_MODE, dataBuffer) else
  returnStatus <- _sendAddress (SLA_W address) ;;
  if truthy returnStatus
  then ret (send_addr_error_handler returnStatus TRANSMIT_MODE, dataBuffer) else
  returnStatus <- _sendByte registerAddress ;;
  if truthy returnStatus
  then ret (send_addr_error_handler returnStatus RECEIVER_MODE, dataBuffer) else
  returnStatus <- _start ;;
  if truthy returnStatus
  then ret (start_error_handler returnStatus REPEATED_START_MODE, dataBuffer) else
  returnStatus <- _sendAddress (SLA_R address) ;;
  if truthy returnStatus
  then ret (send_addr_error_handler returnStatus RECEIVER_MODE, dataBuffer) else
  r <- receive_buf_loop (Z.to_nat numberBytes) 0 nack dataBuffer ;;
  match r with
  | (Return code, dataBuffer) => ret (code, dataBuffer)
  | (Next, dataBuffer) =>
      returnStatus <- _stop ;;
      if truthy returnStatus then ret (stop_error_handler returnStatus, dataBuffer) else
      ret (returnStatus, dataBuffer)
  end.

(** *** 16-bit register addresses *)

Definition write16 (address registerAddress : Z) : M Z :=
  returnStatus <- _start ;;
  if truthy returnStatus then ret (start_error_handler returnStatus START_MODE) else
  returnStatus <- _sendAddress (SLA_W address) ;;
  if truthy returnStatus then ret (send_addr_error_handler returnStatus TRANSMIT_MODE) else
  returnStatus <- _sendByte (Z.shiftr registerAddress 8) ;;
  if truthy returnStatus then ret (send_error_handler returnStatus) else
  returnStatus <- _sendByte (Z.land registerAddress 255) ;;
  if truthy returnStatus then ret (send_error_handler returnStatus) else
  returnStatus <- _stop ;;
  if truthy returnStatus then ret (stop_error_handler returnStatus) else
  ret returnStatus.

Definition write16_u8 (address registerAddress data : Z) : M Z :=
  returnStatus <- _start ;;
  if truthy returnStatus then ret (start_error_handler returnStatus START_MODE) else
  returnStatus <- _sendAddress (SLA_W address) ;;
  if truthy returnStatus then ret (send_addr_error_handler returnStatus TRANSMIT_MODE) else
  returnStatus <- _sendByte (Z.shiftr registerAddress 8) ;;
  if truthy returnStatus then ret (send_error_handler returnStatus) else
  returnStatus <- _sendByte (Z.land registerAddress 255) ;;
  if truthy returnStatus then ret (send_error_handler returnStatus) else
  returnStatus <- _sendByte data ;;
  if truthy returnStatus then ret (send_error_handler returnStatus) else
  returnStatus <- _stop ;;
  if truthy returnStatus then ret (stop_error_handler returnStatus) else
  ret returnStatus.

Definition write16_bytes (address registerAddress : Z) (data : list Z) (numberBytes : Z)
  : M Z :=
  returnStatus <- _start ;;
  if truthy returnStatus then ret (start_error_handler returnStatus START_MODE) else
  returnStatus <- _sendAddress (SLA_W address) ;;
  if truthy returnStatus then ret (send_addr_error_handler returnStatus RECEIVER_MODE) else
  returnStatus <- _sendByte (Z.shiftr registerAddress 8) ;;
  if truthy returnStatus then ret (send_error_handler returnStatus) else
  returnStatus <- _sendByte (Z.land registerAddress 255) ;;
  if truthy returnStatus then ret (send_error_handler returnStatus) else
  r <- send_loop (Z.to_nat numberBytes) 0 data ;;
  match r with
  | Return code => ret code
  | Next =>
      returnStatus <- _stop ;;
      if truthy returnStatus then ret (stop_error_handler returnStatus) else
      ret returnStatus
  end.

Definition write16_str (address registerAddress : Z) (data : list Z) : M Z :=
  let bufferLength := u8 (strlen data) in
  write16_bytes address registerAddress data bufferLength.




Definition read16 (address registerAddress numberBytes : Z) : M Z :=
  modify (set_bytesAvailable 0) ;;;
  modify (set_bufferIndex 0) ;;;
  let numberBytes := u8 (Z.min numberBytes MAX_BUFFER_SIZE) in
  let numberBytes := if numberBytes =? 0 then u8 (numberBytes + 1) else numberBytes in
  let nack := u8 (numberBytes - 1) in
  returnStatus <- _start ;;
  if truthy returnStatus then ret (start_error_handler returnStatus START_MODE) else
  returnStatus <- _sendAddress (SLA_W address) ;;
  if truthy returnStatus then ret (send_addr_error_handler returnStatus TRANSMIT_MODE) else
  returnStatus <- _sendByte (Z.shiftr registerAddress 8) ;;
  if truthy returnStatus then ret (send_error_handler returnStatus) else
  returnStatus <- _sendByte (Z.land registerAddress 255) ;;
  if truthy returnStatus then ret (send_error_handler returnStatus) else
  returnStatus <- _start ;;
  if truthy returnStatus then ret (start_error_handler returnStatus REPEATED_START_MODE) else
  returnStatus <- _sendAddress (SLA_R address) ;;
  if truthy returnStatus then ret (send_addr_error_handler returnStatus RECEIVER_MODE) else
  r <- receive_loop (Z.to_nat numberBytes) 0 nack ;;
  match r with
  | Return code => ret code
  | Next =>
      returnStatus <- _stop ;;
      if truthy returnStatus then ret (stop_error_handler returnStatus) else
      ret returnStatus
  end.

(** [read16(uint8_t address, uint16_t registerAddress, uint8_t numberBytes,
    uint8_t *dataBuffer)] *)
Definition read16_buf (address registerAddress numberBytes : Z) (dataBuffer : list Z)
  : M (Z * list Z) :=
  let numberBytes := if numberBytes =? 0 then u8 (numberBytes + 1) else numberBytes in
  let nack := u8 (numberBytes - 1) in
  returnStatus <- _start ;;
  if truthy returnStatus
  then ret (start_error_handler returnStatus START_MODE, dataBuffer) else
  returnStatus <- _sendAddress (SLA_W address) ;;
  if truthy returnStatus
  then ret (send_addr_error_handler returnStatus TRANSMIT_MODE, dataBuffer) else
  returnStatus <- _sendByte (Z.shiftr registerAddress 8) ;;
  if truthy returnStatus then ret (send_error_handler returnStatus, dataBuffer) else
  returnStatus <- _sendByte (Z.land registerAddress 255) ;;
  if truthy returnStatus then ret (send_error_handler returnStatus, dataBuffer) else
  returnStatus <- _start ;;
  if truthy returnStatus
  then ret (start_error_handler returnStatus START_MODE, dataBuffer) else
  returnStatus <- _sendAddress (SLA_R address) ;;
  if truthy returnStatus
  then ret (send_addr_error_handler returnStatus RECEIVER_MODE, dataBuffer) else
  r <- receive_buf_loop (Z.to_nat numberBytes) 0 nack dataBuffer ;;
  match r with
  | (Return code, dataBuffer) => ret (code, dataBuffer)
  | (Next, dataBuffer) =>
      returnStatus <- _stop ;;
      if truthy returnStatus then ret (stop_error_handler returnStatus, dataBuffer) else
      ret (returnStatus, dataBuffer)
  end.

End Driver.

(** ** A concrete header: the TWI status codes of the ATmega data sheet and
    a 32-byte receive buffer *)

#[local] Instance atmega : Header := {|
  START := 8;
  REPEATED_START := 16;
  MT_SLA_ACK := 24;
  MT_SLA_NACK := 32;
  MT_DATA_ACK := 40;
  MT_DATA_NACK := 48;
  MR_SLA_ACK := 64;
  MR_SLA_NACK := 72;
  MR_DATA_ACK := 80;
  MR_DATA_NACK := 88;
  LOST_ARBTRTN := 56;
  MAX_BUFFER_SIZE := 32;
|}.

(** An idle controller with time-out [t] in front of a peripheral that
    will answer with [sc]. *)
Definition fresh (t : Z) (sc : list Response) : State :=
  mkState 0 0 0 t (repeat 0 32) 0 248 0 Stalled sc [] [].

(** ** Observations on traces and states *)

(** The data bytes handed to the bus by [_sendByte], in order. *)
Fixpoint sent_bytes (evs : list Event) : list Z :=
  match evs with
  | [] => []
  | EvByte b :: rest => b :: sent_bytes rest
  | _ :: rest => sent_bytes rest
  end.

(** The number of bytes clocked in by [_receiveByte]. *)
Fixpoint clocked_in (evs : list Event) : Z :=
  match evs with
  | [] => 0
  | EvReceive _ :: rest => 1 + clocked_in rest
  | _ :: rest => clocked_in rest
  end.

(** A stop condition or a lockup recovery is among the phases. *)
Definition recovers (evs : list Event) : bool :=
  existsb (fun e => match e with EvStop | EvLockUp => true | _ => false end) evs.

(** The call [p] from [s], when it returns a non-zero code, has put the
    phases [first :: evs] on the bus with a stop or a recovery among
    [evs]. *)
Definition idle_on_failure (p : M Z) (first : Event) (s : State) : Prop :=
  forall c s', p s = Some (c, s') -> c <> 0 ->
    exists evs, trace s' = trace s ++ first :: evs /\ recovers evs = true.

(** The phases a primitive puts on the bus after its own: nothing, a stop,
    a recovery, or a stop that timed out and the recovery. *)
Definition tail_shape (evs : list Event) : Prop :=
  evs = [] \/ evs = [EvLockUp] \/ evs = [EvStop] \/ evs = [EvStop; EvLockUp].

(** What the polling loop and the primitives leave alone. *)
Definition frame (s s' : State) : Prop :=
  bytesAvailable s' = bytesAvailable s /\
  bufferIndex s' = bufferIndex s /\
  totalBytes s' = totalBytes s /\
  timeOutDelay s' = timeOutDelay s /\
  data s' = data s /\
  console s' = console s.

(** What a call from [s] to [s'] did: it handed the data bytes [bytes] to
    the bus, clocked in [n] bytes, and left the receive count and the
    time-out as they were. *)
Definition effect (s s' : State) (bytes : list Z) (n : Z) : Prop :=
  sent_bytes (trace s') = sent_bytes (trace s) ++ bytes /\
  clocked_in (trace s') = clocked_in (trace s) + n /\
  bytesAvailable s' = bytesAvailable s /\
  timeOutDelay s' = timeOutDelay s.



(** The count of bytes an internal-buffer read is specified to clock in. *)
Definition capped_count `{Header} (n : Z) : Z :=
  Z.min (Z.max n 1) MAX_BUFFER_SIZE.

(** What C6 asks of a read of [n] bytes into the internal buffer that
    went from [s] to [s'] with result [code]: never more valid bytes nor
    more bytes clocked in than the capped count, which is within the
    capacity; and exactly that many after a success, as [available]
    reports. *)
Definition read_post `{Header} (n : Z) (s : State) (code : Z) (s' : State) : Prop :=
  0 <= bytesAvailable s' <= capped_count n /\
  capped_count n <= MAX_BUFFER_SIZE /\
  clocked_in (trace s') <= clocked_in (trace s) + capped_count n /\
  (code = 0 ->
     bytesAvailable s' = capped_count n /\
     clocked_in (trace s') = clocked_in (trace s) + capped_count n /\
     available s' = Some (capped_count n, s')).


(** The phases a transaction asks the bus for, in order: the trace without
    the stop conditions and recoveries. *)
Definition requests (evs : list Event) : list Event :=
  flat_map (fun e => match e with EvStop | EvLockUp => [] | _ => [e] end) evs.

(** A call from [s] to [s'] asked for the phases [asked]. *)
Definition went (s s' : State) (asked : list Event) : Prop :=
  requests (trace s') = requests (trace s) ++ asked.

(** A raw status: what [TWI_STATUS] can read, 0 or a multiple of 8 up to
    0xF8. *)
Definition raw (c : Z) : Prop := Z.land c 248 = c.

(** What a primitive returns from [s]: a raw status, or 1 under a
    configured time-out. *)
Definition prim_code (s : State) (c : Z) : Prop :=
  raw c \/ (c = 1 /\ timeOutDelay s <> 0).

(** What an entry point returns from [s]: a raw status, or one of the
    time-out codes 1..7 under a configured time-out. *)
Definition result_code (s : State) (code : Z) : Prop :=
  raw code \/ (1 <= code <= 7 /\ timeOutDelay s <> 0).

(** The last phase on the bus is a stop condition. *)
Definition stopped (s : State) : Prop :=
  exists before, trace s = before ++ [EvStop].

(** The summary of a transaction from [s] to [s'] with result [code] whose
    full sequence of phases is [full]: it asked for the first phases of
    [full]; after a success for all of them, and it closed with a stop
    condition. *)
Definition transaction (s s' : State) (code : Z) (full : list Event) : Prop :=
  exists asked,
    went s s' asked /\
    asked `prefix_of` full /\
    (code = 0 -> asked = full /\ stopped s').

(** The phases of the receive loop for [numberBytes] bytes with the
    variable [nack] as the code computes it. *)
Definition receives_raw (numberBytes : nat) (nack : Z) : list Event :=
  map (fun i => EvReceive (if Z.of_nat i =? nack then 0 else 1)) (seq 0 numberBytes).

(** The phases of [numberBytes] receives: all acknowledged but the last. *)
Definition receives (numberBytes : Z) : list Event :=
  receives_raw (Z.to_nat numberBytes) (numberBytes - 1).

(** The phases of the send loop for the first [numberBytes] bytes of
    [data], as the code reads them. *)
Definition sends (data : list Z) (numberBytes : nat) : list Event :=
  map (fun i => EvByte (u8 (default 0 (data !! i)))) (seq 0 numberBytes).

(** The count of bytes after [if (numberBytes == 0) numberBytes++], for a
    [uint8_t] and a [uint16_t] count. *)
Definition counted (numberBytes : Z) : Z :=
  if numberBytes =? 0 then u8 (numberBytes + 1) else numberBytes.
Definition counted16 (numberBytes : Z) : Z :=
  if numberBytes =? 0 then u16 (numberBytes + 1) else numberBytes.

(** The data bytes of a block write as phases. *)
Definition bytes_of (data : list Z) : list Event :=
  map (fun b => EvByte (u8 b)) data.

(** What a primitive with phase [first] returns from [s], and what a
    returned 1 means: a time-out is configured, at least that long has been
    waited since the call, and the recovery was run once, right after the
    primitive's own phase. *)
Definition timed_out (first : Event) (s : State) (c : Z) (s' : State) : Prop :=
  prim_code s c /\
  (c = 1 ->
     timeOutDelay s <> 0 /\
     timeOutDelay s <= u32 (clock s' - clock s) /\
     trace s' = trace s ++ [first; EvLockUp]).

(** What a read into the internal buffer leaves alone. *)
Definition kept (s s' : State) : Prop :=
  timeOutDelay s' = timeOutDelay s /\
  console s' = console s /\
  length (data s') = length (data s).

(** A sequence under way from [s] to [s'] that kept [F] and asked for
    [asked] so far. *)
Definition running (F : State -> State -> Prop) (s s' : State) (asked : list Event) : Prop :=
  F s s' /\ went s s' asked.

(** An error handler's result [code] for the primitive's non-zero [c]: not
    zero, a raw status unchanged, and 1 a time-out code. *)
Definition mapped (c code : Z) : Prop :=
  c <> 0 -> code <> 0 /\ (raw c -> code = c) /\ (c = 1 -> 1 <= code <= 7).

(** All that is proved of a call of an entry point. *)
Definition summary (F : State -> State -> Prop) (s s' : State) (code : Z)
    (full : list Event) : Prop :=
  F s s' /\ result_code s code /\ transaction s s' code full.

(** The status part of a read into a caller's buffer. *)
Definition code_of (m : M (Z * list Z)) : M Z :=
  fun s => match m s with
           | Some ((code, _), s') => Some (code, s')
           | None => None
           end.

(** Every return of [f] gives a result code. *)
Definition returns_codes (f : M Z) : Prop :=
  forall s code s', f s = Some (code, s') -> result_code s code.

(** Every return of [f] keeps [F]. *)
Definition keeps (F : State -> State -> Prop) (f : M Z) : Prop :=
  forall s code s', f s = Some (code, s') -> F s s'.

(** Every return of [f] is a transaction with the phases [full]. *)
Definition follows (f : M Z) (full : list Event) : Prop :=
  forall s code s', f s = Some (code, s') -> transaction s s' code full.

(** [k] calls of [receive] in a row and what they returned. *)
Fixpoint drain (k : nat) : M (list Z) :=
  match k with
  | O => ret []
  | S k' =>
      b <- receive ;;
      rest <- drain k' ;;
      ret (b :: rest)
  end.

(** Under a configured time-out the call [m] returns, and leaves the
    time-out as it is. *)
Definition returns {A} (m : M A) : Prop :=
  forall s, timeOutDelay s <> 0 -> timeOutDelay s < 4294967296 ->
    exists a s', m s = Some (a, s') /\ timeOutDelay s' = timeOutDelay s.

(** The peripheral does not answer the next phase. *)
Definition unanswered (s : State) : Prop :=
  match script s with
  | [] | Stalled :: _ => True
  | Ready _ _ _ :: _ => False
  end.

(** The peripheral completes a phase at poll [polls] in time: no time-out
    is configured, or one that is not shorter. *)
Definition prompt (s : State) (polls : nat) : Prop :=
  timeOutDelay s = 0 \/ Z.of_nat polls <= timeOutDelay s < 4294967296.

(** The answers of a device that sends [bytes]: each byte arrives at poll
    [polls], the status is "data received, ACK returned" for all but the
    last and "data received, NACK returned" for the last. *)
Fixpoint receive_answers `{Header} (polls : nat) (bytes : list Z) : list Response :=
  match bytes with
  | [] => []
  | b :: rest =>
      Ready polls (match rest with [] => MR_DATA_NACK | _ => MR_DATA_ACK end) (Some b)
      :: receive_answers polls rest
  end.

(** What the delivery of a read asks of the status codes of the header:
    the codes the read waits for are raw statuses, and a received byte is
    not taken for a lost arbitration. *)
Definition receiving_header `{Header} : Prop :=
  raw START /\ raw MR_SLA_ACK /\ raw MR_DATA_ACK /\ raw MR_DATA_NACK /\
  MR_DATA_ACK <> LOST_ARBTRTN /\ MR_DATA_NACK <> LOST_ARBTRTN.

(** What the success of a write asks of the status codes of the header:
    the codes the write waits for are raw statuses. *)
Definition sending_header `{Header} : Prop :=
  raw START /\ raw MT_SLA_ACK /\ raw MT_DATA_ACK.



(** The phase a time-out code stands for in a transaction with the device
    [address], as the documentation of the return values lists them: [e] is
    the phase and [before] what the call had put on the bus before it. *)
Definition names (address code : Z) (before : list Event) (e : Event) : Prop :=
  (code = 1 -> before = [] /\ e = EvStart) /\
  (code = 2 -> e = EvAddress (u8 (SLA_W address))) /\
  (code = 3 -> exists b, e = EvByte b) /\
  (code = 4 -> before <> [] /\ e = EvStart) /\
  (code = 5 -> e = EvAddress (u8 (SLA_R address))) /\
  (code = 6 -> exists ack, e = EvReceive ack) /\
  (code = 7 -> e = EvStop).

(** A call from [s] to [s'] that returned the time-out code [code] ended
    with the recovery after the phase that [code] names. *)
Definition located (address : Z) (s s' : State) (code : Z) : Prop :=
  1 <= code <= 7 ->
  exists before e,
    trace s' = trace s ++ before ++ [e; EvLockUp] /\ names address code before e.

(** One step through a sequence of calls: the next call returned, with
    result [c] in state [s1]. *)
Ltac bind_step Hr c s1 Hc :=
  unfold bind at 1 in Hr;
  match type of Hr with
  | match ?m with _ => _ end = _ =>
      destruct m as [[c s1]|] eqn:Hc; [|discriminate Hr]
  end.

(** ** The polling loop *)

Lemma frame_refl s : frame s s.
Proof. repeat split. Qed.

Lemma frame_trans s1 s2 s3 : frame s1 s2 -> frame s2 s3 -> frame s1 s3.
Proof.
  unfold frame. intros (a1 & a2 & a3 & a4 & a5 & a6) (b1 & b2 & b3 & b4 & b5 & b6).
  repeat split; congruence.
Qed.

Lemma u32_range x : 0 <= u32 x < 4294967296.
Proof. unfold u32. apply Z.mod_pos_bound. lia. Qed.

Lemma u32_tick_elapsed c st :
  u32 (u32 (c + 1) - st) = u32 (u32 (c - st) + 1).
Proof.
  unfold u32.
  rewrite Zminus_mod_idemp_l, Zplus_mod_idemp_l.
  f_equal. lia.
Qed.

(** More fuel never changes a decided loop. *)
Lemma spin_mono fuel : forall fuel' k st s r,
  spin fuel k st s = Some r -> (fuel <= fuel')%nat -> spin fuel' k st s = Some r.
Proof.
  induction fuel as [|fuel IH]; intros fuel' k st s r Hs Hle; [discriminate|].
  destruct fuel' as [|fuel']; [lia|].
  simpl in *.
  destruct (flag_up (pending s) k); [exact Hs|].
  destruct (timeOutDelay s =? 0).
  - apply IH; [exact Hs | lia].
  - destruct (u32 (millis s - st) >=? timeOutDelay s); [exact Hs|].
    apply IH; [exact Hs | lia].
Qed.

Lemma spin_agree fuel fuel' k st s r r' :
  spin fuel k st s = Some r -> spin fuel' k st s = Some r' -> r = r'.
Proof.
  intros H1 H2.
  apply (spin_mono _ (Nat.max fuel fuel')) in H1; [|lia].
  apply (spin_mono _ (Nat.max fuel fuel')) in H2; [|lia].
  congruence.
Qed.

(** A phase the peripheral completes ends the loop, with or without a
    time-out configured. *)
Lemma spin_ready fuel : forall k st s polls status dr,
  pending s = Ready polls status dr ->
  (polls <= k + fuel)%nat ->
  exists r, spin (S fuel) k st s = Some r.
Proof.
  induction fuel as [|fuel IH]; intros k st s polls status dr Hp Hle.
  - simpl. rewrite Hp. simpl.
    replace (polls <=? k)%nat with true by (symmetry; apply Nat.leb_le; lia).
    eauto.
  - cbn [spin].
    destruct (flag_up (pending s) k); [eauto|].
    assert (Hp' : pending (tick s) = Ready polls status dr) by exact Hp.
    destruct (timeOutDelay s =? 0).
    + apply (IH (S k) st (tick s) polls status dr Hp'). lia.
    + destruct (u32 (millis s - st) >=? timeOutDelay s); [eauto|].
      apply (IH (S k) st (tick s) polls status dr Hp'). lia.
Qed.

(** With a time-out configured the loop ends whatever the peripheral does:
    after [timeOutDelay - elapsed] more polls at the latest. *)
Lemma spin_times_out fuel : forall k st s,
  timeOutDelay s <> 0 ->
  timeOutDelay s < 4294967296 ->
  (Z.to_nat (timeOutDelay s - u32 (millis s - st)) <= fuel)%nat ->
  exists r, spin (S fuel) k st s = Some r.
Proof.
  induction fuel as [|fuel IH]; intros k st s Hnz Hlt Hfuel;
    cbn [spin]; (destruct (flag_up (pending s) k); [eauto|]);
    (destruct (timeOutDelay s =? 0) eqn:Hz; [apply Z.eqb_eq in Hz; lia|]);
    (destruct (u32 (millis s - st) >=? timeOutDelay s) eqn:Hge; [eauto|]);
    rewrite Z.geb_leb in Hge; apply Z.leb_gt in Hge.
  - lia.
  - apply IH; try assumption.
    change (timeOutDelay (tick s)) with (timeOutDelay s).
    change (millis (tick s)) with (u32 (clock s + 1)).
    rewrite u32_tick_elapsed. fold (millis s).
    pose proof (u32_range (millis s - st)) as Hr.
    unfold u32 at 1. rewrite Z.mod_small by lia. lia.
Qed.

(** A stalled phase with a time-out configured ends in the time-out
    branch. *)
Lemma spin_stalled_true fuel : forall k st s r,
  pending s = Stalled ->
  spin fuel k st s = Some r ->
  fst r = true.
Proof.
  induction fuel as [|fuel IH]; intros k st s r Hp Hs; [discriminate|].
  cbn [spin] in Hs. rewrite Hp in Hs. cbn [flag_up] in Hs.
  destruct (timeOutDelay s =? 0).
  - eapply IH; [|exact Hs]. exact Hp.
  - destruct (u32 (millis s - st) >=? timeOutDelay s).
    + injection Hs as <-. reflexivity.
    + eapply IH; [|exact Hs]. exact Hp.
Qed.

(** A stalled phase without time-out is polled for ever. *)
Lemma spin_stalled_forever fuel : forall k st s,
  pending s = Stalled ->
  timeOutDelay s = 0 ->
  spin fuel k st s = None.
Proof.
  induction fuel as [|fuel IH]; intros k st s Hp Hz; [reflexivity|].
  cbn [spin]. rewrite Hp, Hz. cbn.
  apply IH; assumption.
Qed.

(** So is one whose deadline the 32-bit clock cannot reach. *)
Lemma spin_stalled_unreachable fuel : forall k st s,
  pending s = Stalled ->
  4294967296 <= timeOutDelay s ->
  spin fuel k st s = None.
Proof.
  induction fuel as [|fuel IH]; intros k st s Hp Hbig; [reflexivity|].
  cbn [spin]. rewrite Hp. cbn [flag_up].
  destruct (timeOutDelay s =? 0) eqn:Hz; [apply Z.eqb_eq in Hz; lia|].
  pose proof (u32_range (millis s - st)) as Hr.
  destruct (u32 (millis s - st) >=? timeOutDelay s) eqn:Hge.
  - rewrite Z.geb_leb in Hge. apply Z.leb_le in Hge. lia.
  - apply IH; assumption.
Qed.

(** [poll_budget] polls decide every loop that any number of polls
    decides: [wait] returns [None] only for a loop that never ends. *)
Lemma wait_exact st s fuel r :
  spin fuel 0 st s = Some r -> wait st s = Some r.
Proof.
  intros Hs. unfold wait, poll_budget.
  destruct (pending s) as [polls status dr|] eqn:Hp.
  - destruct (spin_ready polls 0 st s polls status dr Hp) as [r' Hr']; [lia|].
    rewrite Hr'. f_equal. eapply spin_agree; eassumption.
  - destruct (Z.eq_dec (timeOutDelay s) 0) as [Hz|Hnz].
    { rewrite spin_stalled_forever in Hs by assumption. discriminate. }
    destruct (Z_lt_le_dec (timeOutDelay s) 4294967296) as [Hlt|Hbig].
    2:{ rewrite spin_stalled_unreachable in Hs by assumption. discriminate. }
    destruct (spin_times_out (Z.to_nat (timeOutDelay s)) 0 st s Hnz Hlt) as [r' Hr'].
    { pose proof (u32_range (millis s - st)). lia. }
    rewrite Hr'. f_equal. eapply spin_agree; eassumption.
Qed.

Lemma wait_never st s :
  wait st s = None -> forall fuel, spin fuel 0 st s = None.
Proof.
  intros Hw fuel. destruct (spin fuel 0 st s) as [r|] eqn:Hs; [|reflexivity].
  apply wait_exact in Hs. congruence.
Qed.

Lemma spin_spec fuel : forall k st s b s',
  spin fuel k st s = Some (b, s') ->
  frame s s' /\ script s' = script s /\
  trace s' = trace s ++ (if b then [EvLockUp] else []).
Proof.
  induction fuel as [|fuel IH]; intros k st s b s' Hs; [discriminate|].
  cbn [spin] in Hs.
  destruct (flag_up (pending s) k).
  { injection Hs as <- <-.
    destruct (pending s) as [polls status [d|]|]; cbn;
      rewrite app_nil_r; repeat split. }
  assert (Htick : forall b s', spin fuel (S k) st (tick s) = Some (b, s') ->
            frame s s' /\ script s' = script s /\
            trace s' = trace s ++ (if b then [EvLockUp] else [])).
  { intros b0 s0 H0. apply IH in H0. exact H0. }
  destruct (timeOutDelay s =? 0); [auto|].
  destruct (u32 (millis s - st) >=? timeOutDelay s); [|auto].
  injection Hs as <- <-. repeat split.
Qed.

Lemma wait_spec st s b s' :
  wait st s = Some (b, s') ->
  frame s s' /\ script s' = script s /\
  trace s' = trace s ++ (if b then [EvLockUp] else []).
Proof. apply spin_spec. Qed.

(** With a time-out configured every polling loop ends. *)
Lemma wait_total st s :
  timeOutDelay s <> 0 -> timeOutDelay s < 4294967296 ->
  exists r, wait st s = Some r.
Proof.
  intros Hnz Hlt.
  destruct (spin_times_out (Z.to_nat (timeOutDelay s)) 0 st s Hnz Hlt) as [r Hr].
  { pose proof (u32_range (millis s - st)). lia. }
  exists r. eapply wait_exact. exact Hr.
Qed.

(** A stalled phase runs into the configured time-out. *)
Lemma wait_stalled st s :
  pending s = Stalled ->
  timeOutDelay s <> 0 -> timeOutDelay s < 4294967296 ->
  exists s', wait st s = Some (true, s').
Proof.
  intros Hp Hnz Hlt.
  destruct (wait_total st s Hnz Hlt) as [[b s'] Hr].
  exists s'. rewrite Hr.
  apply (spin_stalled_true _ _ _ _ _ Hp) in Hr. cbn in Hr. subst b. reflexivity.
Qed.

(** ** The primitives *)

Lemma TWI_STATUS_not_1 s : TWI_STATUS s <> 1.
Proof.
  unfold TWI_STATUS. intros Heq.
  assert (Hbit : Z.testbit (Z.land (TWSR s) 248) 0 = Z.testbit 1 0) by (rewrite Heq; reflexivity).
  rewrite Z.land_spec in Hbit. cbn in Hbit.
  rewrite andb_false_r in Hbit. discriminate.
Qed.

Lemma frame_issue e s : frame s (issue e s).
Proof. repeat split. Qed.

Lemma frame_issue_TWDR e v s : frame s (issue e (set_TWDR v s)).
Proof. repeat split. Qed.

Lemma frame_lockUp s : frame s (lockUp s).
Proof. repeat split. Qed.

Section Primitives.
Context `{Header}.

(** [_stop] returns 0 after the stop condition, or 1 after a time-out and
    the recovery. *)
Lemma _stop_spec s c s' :
  _stop s = Some (c, s') ->
  frame s s' /\
  ((c = 0 /\ trace s' = trace s ++ [EvStop]) \/
   (c = 1 /\ trace s' = trace s ++ [EvStop; EvLockUp])).
Proof.
  unfold _stop. intros Hr.
  destruct (wait (millis s) (issue EvStop s)) as [[b s1]|] eqn:Hw; [|discriminate].
  apply wait_spec in Hw. destruct Hw as (Hf & _ & Ht).
  assert (Hf' : frame s s1) by (eapply frame_trans; [apply frame_issue | exact Hf]).
  cbn in Ht.
  destruct b; injection Hr as <- <-; (split; [exact Hf'|]).
  - right. split; [reflexivity|]. rewrite Ht, <- app_assoc. reflexivity.
  - left. split; [reflexivity|]. rewrite Ht, app_nil_r. reflexivity.
Qed.

Lemma tail_shape_quiet evs :
  tail_shape evs -> sent_bytes evs = [] /\ clocked_in evs = 0.
Proof. intros [->|[->|[->| ->]]]; split; reflexivity. Qed.

Lemma _start_spec s c s' :
  _start s = Some (c, s') ->
  frame s s' /\
  exists evs, trace s' = trace s ++ EvStart :: evs /\ tail_shape evs /\
    (c <> 0 -> c = 1 \/ c = LOST_ARBTRTN -> recovers evs = true) /\
    (c <> 1 -> c <> LOST_ARBTRTN -> evs = []).
Proof.
  unfold _start. intros Hr.
  destruct (wait (millis s) (issue EvStart s)) as [[b s1]|] eqn:Hw; [|discriminate].
  apply wait_spec in Hw. destruct Hw as (Hf & _ & Ht).
  assert (Hf' : frame s s1) by (eapply frame_trans; [apply frame_issue | exact Hf]).
  cbn in Ht.
  destruct b.
  { injection Hr as <- <-. split; [exact Hf'|].
    exists [EvLockUp]. rewrite Ht, <- app_assoc.
    repeat split; unfold tail_shape; auto; intros; congruence. }
  rewrite app_nil_r in Ht.
  destruct ((TWI_STATUS s1 =? START) || (TWI_STATUS s1 =? REPEATED_START)).
  { injection Hr as <- <-. split; [exact Hf'|].
    exists []. rewrite Ht. repeat split; unfold tail_shape; auto; intros; congruence. }
  destruct (TWI_STATUS s1 =? LOST_ARBTRTN) eqn:Hlost.
  - injection Hr as <- <-.
    split; [eapply frame_trans; [exact Hf' | apply frame_lockUp]|].
    exists [EvLockUp]. cbn. rewrite Ht, <- app_assoc.
    apply Z.eqb_eq in Hlost.
    repeat split; unfold tail_shape; auto; intros; congruence.
  - injection Hr as <- <-. split; [exact Hf'|].
    exists []. rewrite Ht. apply Z.eqb_neq in Hlost.
    pose proof (TWI_STATUS_not_1 s1).
    repeat split; unfold tail_shape; auto; intros ? [?|?]; congruence.
Qed.

Lemma _sendAddress_spec i2cAddress s c s' :
  _sendAddress i2cAddress s = Some (c, s') ->
  frame s s' /\
  exists evs, trace s' = trace s ++ EvAddress (u8 i2cAddress) :: evs /\ tail_shape evs /\
    (c <> 0 -> recovers evs = true).
Proof.
  unfold _sendAddress. intros Hr.
  set (s0 := issue (EvAddress (u8 i2cAddress)) (set_TWDR (u8 i2cAddress) s)) in *.
  assert (Hf0 : frame s s0) by apply frame_issue_TWDR.
  assert (Ht0 : trace s0 = trace s ++ [EvAddress (u8 i2cAddress)]) by reflexivity.
  change (millis (set_TWDR (u8 i2cAddress) s)) with (millis s) in Hr.
  destruct (wait (millis s) s0) as [[b s1]|] eqn:Hw; [|discriminate].
  apply wait_spec in Hw. destruct Hw as (Hf & _ & Ht).
  assert (Hf' : frame s s1) by (eapply frame_trans; eassumption).
  rewrite Ht0, <- app_assoc in Ht. cbn in Ht.
  destruct b.
  { injection Hr as <- <-. split; [exact Hf'|].
    exists [EvLockUp]. repeat split; unfold tail_shape; auto. }
  destruct ((TWI_STATUS s1 =? MT_SLA_ACK) || (TWI_STATUS s1 =? MR_SLA_ACK)).
  { injection Hr as <- <-. split; [exact Hf'|].
    exists []. repeat split; unfold tail_shape; auto; intros; congruence. }
  destruct ((TWI_STATUS s1 =? MT_SLA_NACK) || (TWI_STATUS s1 =? MR_SLA_NACK)).
  - unfold bind, ret in Hr.
    destruct (_stop s1) as [[c2 s2]|] eqn:Hstop; [|discriminate].
    injection Hr as <- <-.
    apply _stop_spec in Hstop. destruct Hstop as (Hf2 & Hcase).
    split; [eapply frame_trans; eassumption|].
    destruct Hcase as [(_ & Ht2)|(_ & Ht2)]; rewrite Ht2, Ht, <- app_assoc; cbn.
    + exists [EvStop]. repeat split; unfold tail_shape; auto.
    + exists [EvStop; EvLockUp]. repeat split; unfold tail_shape; auto.
  - injection Hr as <- <-.
    split; [eapply frame_trans; [exact Hf' | apply frame_lockUp]|].
    exists [EvLockUp]. cbn. rewrite Ht, <- app_assoc.
    repeat split; unfold tail_shape; auto.
Qed.

Lemma _sendByte_spec i2cData s c s' :
  _sendByte i2cData s = Some (c, s') ->
  frame s s' /\
  exists evs, trace s' = trace s ++ EvByte (u8 i2cData) :: evs /\ tail_shape evs /\
    (c <> 0 -> recovers evs = true).
Proof.
  unfold _sendByte. intros Hr.
  set (s0 := issue (EvByte (u8 i2cData)) (set_TWDR (u8 i2cData) s)) in *.
  assert (Hf0 : frame s s0) by apply frame_issue_TWDR.
  assert (Ht0 : trace s0 = trace s ++ [EvByte (u8 i2cData)]) by reflexivity.
  change (millis (set_TWDR (u8 i2cData) s)) with (millis s) in Hr.
  destruct (wait (millis s) s0) as [[b s1]|] eqn:Hw; [|discriminate].
  apply wait_spec in Hw. destruct Hw as (Hf & _ & Ht).
  assert (Hf' : frame s s1) by (eapply frame_trans; eassumption).
  rewrite Ht0, <- app_assoc in Ht. cbn in Ht.
  destruct b.
  { injection Hr as <- <-. split; [exact Hf'|].
    exists [EvLockUp]. repeat split; unfold tail_shape; auto. }
  destruct (TWI_STATUS s1 =? MT_DATA_ACK).
  { injection Hr as <- <-. split; [exact Hf'|].
    exists []. repeat split; unfold tail_shape; auto; intros; congruence. }
  destruct (TWI_STATUS s1 =? MT_DATA_NACK).
  - unfold bind, ret in Hr.
    destruct (_stop s1) as [[c2 s2]|] eqn:Hstop; [|discriminate].
    injection Hr as <- <-.
    apply _stop_spec in Hstop. destruct Hstop as (Hf2 & Hcase).
    split; [eapply frame_trans; eassumption|].
    destruct Hcase as [(_ & Ht2)|(_ & Ht2)]; rewrite Ht2, Ht, <- app_assoc; cbn.
    + exists [EvStop]. repeat split; unfold tail_shape; auto.
    + exists [EvStop; EvLockUp]. repeat split; unfold tail_shape; auto.
  - injection Hr as <- <-.
    split; [eapply frame_trans; [exact Hf' | apply frame_lockUp]|].
    exists [EvLockUp]. cbn. rewrite Ht, <- app_assoc.
    repeat split; unfold tail_shape; auto.
Qed.

Lemma _receiveByte_spec ack s c s' :
  _receiveByte ack s = Some (c, s') ->
  frame s s' /\
  exists evs, trace s' = trace s ++ EvReceive ack :: evs /\ tail_shape evs /\
    (c <> 0 -> c = 1 \/ c = LOST_ARBTRTN -> recovers evs = true) /\
    (c <> 1 -> c <> LOST_ARBTRTN -> evs = []).
Proof.
  unfold _receiveByte. intros Hr.
  destruct (wait (millis s) (issue (EvReceive ack) s)) as [[b s1]|] eqn:Hw; [|discriminate].
  apply wait_spec in Hw. destruct Hw as (Hf & _ & Ht).
  assert (Hf' : frame s s1) by (eapply frame_trans; [apply frame_issue | exact Hf]).
  cbn in Ht.
  destruct b.
  { injection Hr as <- <-. split; [exact Hf'|].
    exists [EvLockUp]. rewrite Ht, <- app_assoc.
    repeat split; unfold tail_shape; auto; intros; congruence. }
  rewrite app_nil_r in Ht.
  pose proof (TWI_STATUS_not_1 s1) as Hn1.
  destruct (TWI_STATUS s1 =? LOST_ARBTRTN) eqn:Hlost.
  { injection Hr as <- <-.
    split; [eapply frame_trans; [exact Hf' | apply frame_lockUp]|].
    exists [EvLockUp]. cbn. rewrite Ht, <- app_assoc.
    apply Z.eqb_eq in Hlost.
    repeat split; unfold tail_shape; auto; intros; congruence. }
  apply Z.eqb_neq in Hlost.
  destruct (truthy ack);
    [destruct (TWI_STATUS s1 =? MR_DATA_ACK) | destruct (TWI_STATUS s1 =? MR_DATA_NACK)];
    injection Hr as <- <-; (split; [exact Hf'|]);
    exists []; rewrite Ht;
    repeat split; unfold tail_shape; auto; try (intros ? [?|?]; congruence);
    intros; congruence.
Qed.

(** With a time-out configured every primitive returns. *)
Lemma _stop_total s :
  timeOutDelay s <> 0 -> timeOutDelay s < 4294967296 ->
  exists c s', _stop s = Some (c, s') /\ timeOutDelay s' = timeOutDelay s.
Proof.
  intros Hnz Hlt. unfold _stop.
  destruct (wait_total (millis s) (issue EvStop s) Hnz Hlt) as [[b s1] Hw].
  rewrite Hw. pose proof (wait_spec _ _ _ _ Hw) as (Hf & _).
  destruct b; do 2 eexists; (split; [reflexivity|]); apply Hf.
Qed.

Lemma _start_total s :
  timeOutDelay s <> 0 -> timeOutDelay s < 4294967296 ->
  exists c s', _start s = Some (c, s') /\ timeOutDelay s' = timeOutDelay s.
Proof.
  intros Hnz Hlt.
  destruct (wait_total (millis s) (issue EvStart s) Hnz Hlt) as [[b s1] Hw].
  destruct (_start s) as [[c s']|] eqn:Hr.
  - exists c, s'. split; [reflexivity|]. apply _start_spec in Hr. apply Hr.
  - exfalso. unfold _start in Hr. rewrite Hw in Hr.
    destruct b; [discriminate|].
    destruct ((TWI_STATUS s1 =? START) || (TWI_STATUS s1 =? REPEATED_START)); [discriminate|].
    destruct (TWI_STATUS s1 =? LOST_ARBTRTN); discriminate.
Qed.

Lemma _sendAddress_total i2cAddress s :
  timeOutDelay s <> 0 -> timeOutDelay s < 4294967296 ->
  exists c s', _sendAddress i2cAddress s = Some (c, s') /\ timeOutDelay s' = timeOutDelay s.
Proof.
  intros Hnz Hlt.
  destruct (_sendAddress i2cAddress s) as [[c s']|] eqn:Hr.
  - exists c, s'. split; [reflexivity|]. apply _sendAddress_spec in Hr. apply Hr.
  - exfalso. unfold _sendAddress in Hr.
    set (s0 := issue (EvAddress (u8 i2cAddress)) (set_TWDR (u8 i2cAddress) s)) in *.
    destruct (wait_total (millis (set_TWDR (u8 i2cAddress) s)) s0 Hnz Hlt) as [[b s1] Hw].
    rewrite Hw in Hr. pose proof (wait_spec _ _ _ _ Hw) as (Hf & _).
    destruct b; [discriminate|].
    destruct ((TWI_STATUS s1 =? MT_SLA_ACK) || (TWI_STATUS s1 =? MR_SLA_ACK)); [discriminate|].
    destruct ((TWI_STATUS s1 =? MT_SLA_NACK) || (TWI_STATUS s1 =? MR_SLA_NACK)); [|discriminate].
    destruct (_stop_total s1) as (c2 & s2 & Hstop & _).
    { destruct Hf as (_ & _ & _ & -> & _). exact Hnz. }
    { destruct Hf as (_ & _ & _ & -> & _). exact Hlt. }
    unfold bind in Hr. rewrite Hstop in Hr. discriminate.
Qed.

(** [scan_loop] under the 80 ms time-out of [scan]: it returns, and the
    time-out it leaves is [tempTime] after the early [return] and still 80
    at the end of the loop. *)
Lemma scan_loop_total todo : forall a tempTime found s,
  timeOutDelay s = 80 ->
  exists r n s', scan_loop todo a tempTime found s = Some ((r, n), s') /\
    timeOutDelay s' = match r with Return _ => tempTime | Next => 80 end.
Proof.
  induction todo as [|todo IH]; intros a tempTime found s HT.
  { exists Next, found, s. split; [reflexivity | exact HT]. }
  cbn [scan_loop]. unfold bind at 1.
  destruct (_start_total s) as (c1 & s1 & Hstart & HT1); [lia | lia |].
  rewrite Hstart. rewrite HT in HT1.
  unfold bind at 1.
  assert (Haddr : exists c2 s2,
    (if negb (truthy c1) then _sendAddress (SLA_W a) else ret c1) s1 = Some (c2, s2) /\
    timeOutDelay s2 = 80).
  { destruct (negb (truthy c1)).
    - destruct (_sendAddress_total (SLA_W a) s1) as (c2 & s2 & Ha & HT2); [lia | lia |].
      exists c2, s2. split; [exact Ha | congruence].
    - exists c1, s1. split; [reflexivity | exact HT1]. }
  destruct Haddr as (c2 & s2 & Ha & HT2). rewrite Ha.
  destruct (truthy c2).
  - destruct (c2 =? 1).
    + do 3 eexists. split; reflexivity.
    + unfold bind at 1.
      destruct (_stop_total s2) as (c3 & s3 & Hstop & HT3); [lia | lia |].
      rewrite Hstop. apply IH. congruence.
  - unfold bind at 1. cbn [modify].
    unfold bind at 1.
    destruct (_stop_total (println (LnFound a) s2)) as (c3 & s3 & Hstop & HT3);
      [cbn; lia | cbn; lia |].
    rewrite Hstop. apply IH. rewrite HT3. exact HT2.
Qed.

End Primitives.

(** ** What a call adds to the bus *)

Lemma sent_bytes_app l l' : sent_bytes (l ++ l') = sent_bytes l ++ sent_bytes l'.
Proof.
  induction l as [|e l IH]; [reflexivity|].
  destruct e; cbn; rewrite IH; reflexivity.
Qed.

Lemma clocked_in_app l l' : clocked_in (l ++ l') = clocked_in l + clocked_in l'.
Proof.
  induction l as [|e l IH]; [reflexivity|].
  destruct e; cbn [app clocked_in]; rewrite IH; lia.
Qed.

Lemma truthy_true c : truthy c = true -> c <> 0.
Proof. unfold truthy. intros Ht Hc. subst c. discriminate. Qed.

Lemma truthy_false c : truthy c = false -> c = 0.
Proof.
  unfold truthy. intros Ht. apply negb_false_iff in Ht. apply Z.eqb_eq. exact Ht.
Qed.

Lemma start_error_handler_nonzero c mode : c <> 0 -> start_error_handler c mode <> 0.
Proof.
  unfold start_error_handler. intros Hc.
  destruct (c =? 1) eqn:E; [|exact Hc]. apply Z.eqb_eq in E.
  destruct (mode =? START_MODE); [lia|].
  destruct (mode =? REPEATED_START_MODE); lia.
Qed.

Lemma send_addr_error_handler_nonzero c mode : c <> 0 -> send_addr_error_handler c mode <> 0.
Proof.
  unfold send_addr_error_handler. intros Hc.
  destruct (c =? 1) eqn:E; [|exact Hc]. apply Z.eqb_eq in E.
  destruct (mode =? TRANSMIT_MODE); [lia|].
  destruct (mode =? RECEIVER_MODE); lia.
Qed.

Lemma send_error_handler_nonzero c : c <> 0 -> send_error_handler c <> 0.
Proof. unfold send_error_handler. intros Hc. destruct (c =? 1); [lia | exact Hc]. Qed.

Lemma receive_error_handler_nonzero c : c <> 0 -> receive_error_handler c <> 0.
Proof. unfold receive_error_handler. intros Hc. destruct (c =? 1); [lia | exact Hc]. Qed.

Lemma stop_error_handler_nonzero c : c <> 0 -> stop_error_handler c <> 0.
Proof. unfold stop_error_handler. intros Hc. destruct (c =? 1); [lia | exact Hc]. Qed.

Section Effects.
Context `{Header}.

(** [_start], [_sendAddress] and [_stop] neither send a data byte nor clock
    one in, and leave the driver's variables alone. *)
Lemma _start_effect s c s' :
  _start s = Some (c, s') ->
  effect s s' [] 0.
Proof.
  intros Hr. apply _start_spec in Hr. destruct Hr as (Hf & evs & Ht & Hsh & _).
  apply tail_shape_quiet in Hsh. destruct Hsh as (Hs & Hc).
  unfold effect. rewrite Ht, sent_bytes_app, clocked_in_app. cbn.
  rewrite Hs, Hc, app_nil_r. repeat split; try apply Hf; lia.
Qed.

Lemma _sendAddress_effect a s c s' :
  _sendAddress a s = Some (c, s') ->
  effect s s' [] 0.
Proof.
  intros Hr. apply _sendAddress_spec in Hr. destruct Hr as (Hf & evs & Ht & Hsh & _).
  apply tail_shape_quiet in Hsh. destruct Hsh as (Hs & Hc).
  unfold effect. rewrite Ht, sent_bytes_app, clocked_in_app. cbn.
  rewrite Hs, Hc, app_nil_r. repeat split; try apply Hf; lia.
Qed.

Lemma _stop_effect s c s' :
  _stop s = Some (c, s') ->
  effect s s' [] 0.
Proof.
  intros Hr. apply _stop_spec in Hr.
  destruct Hr as (Hf & [(_ & Ht)|(_ & Ht)]);
    unfold effect; rewrite Ht, sent_bytes_app, clocked_in_app; cbn;
    rewrite app_nil_r; repeat split; try apply Hf; lia.
Qed.

Lemma _sendByte_effect b s c s' :
  _sendByte b s = Some (c, s') ->
  effect s s' [u8 b] 0.
Proof.
  intros Hr. apply _sendByte_spec in Hr. destruct Hr as (Hf & evs & Ht & Hsh & _).
  apply tail_shape_quiet in Hsh. destruct Hsh as (Hs & Hc).
  unfold effect. rewrite Ht, sent_bytes_app, clocked_in_app. cbn.
  rewrite Hs, Hc. repeat split; try apply Hf; lia.
Qed.

Lemma _receiveByte_effect ack s c s' :
  _receiveByte ack s = Some (c, s') ->
  effect s s' [] 1.
Proof.
  intros Hr. apply _receiveByte_spec in Hr. destruct Hr as (Hf & evs & Ht & Hsh & _).
  apply tail_shape_quiet in Hsh. destruct Hsh as (Hs & Hc).
  unfold effect. rewrite Ht, sent_bytes_app, clocked_in_app. cbn.
  rewrite Hs, Hc, app_nil_r. repeat split; try apply Hf; lia.
Qed.

End Effects.

Lemma effect_refl s : effect s s [] 0.
Proof. unfold effect. rewrite app_nil_r. repeat split; lia. Qed.

Lemma effect_trans s1 s2 s3 b1 b2 n1 n2 :
  effect s1 s2 b1 n1 -> effect s2 s3 b2 n2 -> effect s1 s3 (b1 ++ b2) (n1 + n2).
Proof.
  unfold effect. intros (a1 & a2 & a3 & a4) (c1 & c2 & c3 & c4).
  repeat split; try congruence.
  - rewrite c1, a1, app_assoc. reflexivity.
  - lia.
Qed.

(** ** The receive loop and the reads into the internal buffer *)

Section Reads.
Context `{Header}.

Lemma clamp_count n :
  0 <= n <= 255 -> 1 <= MAX_BUFFER_SIZE ->
  (if u8 (Z.min n MAX_BUFFER_SIZE) =? 0
   then u8 (u8 (Z.min n MAX_BUFFER_SIZE) + 1)
   else u8 (Z.min n MAX_BUFFER_SIZE)) = capped_count n /\
  1 <= capped_count n <= 255 /\ capped_count n <= MAX_BUFFER_SIZE.
Proof.
  intros Hn Hcap. unfold capped_count, u8.
  rewrite (Z.mod_small (Z.min n MAX_BUFFER_SIZE)) by lia.
  destruct (Z.min n MAX_BUFFER_SIZE =? 0) eqn:E.
  - apply Z.eqb_eq in E. rewrite E. change ((0 + 1) mod 256) with 1. lia.
  - apply Z.eqb_neq in E. lia.
Qed.

(** The loop clocks bytes in until one fails: after [k] good bytes the
    count of valid bytes is [i + k]; it ends with [Next] only after all
    [todo] bytes, and a [Return] carries a non-zero code. *)
Lemma receive_loop_spec todo : forall i nack s r s',
  receive_loop todo i nack s = Some (r, s') ->
  0 <= i -> i + Z.of_nat todo <= 255 -> bytesAvailable s = i ->
  exists k, 0 <= k <= Z.of_nat todo /\
    bytesAvailable s' = i + k /\
    timeOutDelay s' = timeOutDelay s /\
    sent_bytes (trace s') = sent_bytes (trace s) /\
    match r with
    | Next => k = Z.of_nat todo /\
              clocked_in (trace s') = clocked_in (trace s) + k
    | Return c => c <> 0 /\ k < Z.of_nat todo /\
              clocked_in (trace s') = clocked_in (trace s) + k + 1
    end.
Proof.
  induction todo as [|todo IH]; intros i nack s r s' Hr Hi Hmax Hba.
  { injection Hr as <- <-. exists 0. repeat split; lia. }
  cbn [receive_loop] in Hr.
  bind_step Hr c s1 Hrx.
  assert (Heff : effect s s1 [] 1).
  { destruct (i =? nack); eapply _receiveByte_effect; exact Hrx. }
  destruct Heff as (Hsent & Hclk & Hba1 & HT1). rewrite app_nil_r in Hsent.
  destruct (truthy c) eqn:Htr.
  - injection Hr as <- <-. apply truthy_true in Htr.
    exists 0. repeat split; try lia; try congruence.
    apply receive_error_handler_nonzero. exact Htr.
  - unfold bind at 1 2 3, modify in Hr.
    apply IH in Hr; [|lia|lia|].
    2:{ cbn. unfold u8. rewrite Z.mod_small by lia. reflexivity. }
    destruct Hr as (k & Hk & Hba' & HT' & Hsent' & Hres).
    cbn [trace set_totalBytes set_bytesAvailable set_data timeOutDelay] in *.
    exists (k + 1). repeat split; try lia; try congruence.
    destruct r as [c'|].
    + destruct Hres as (Hc' & Hlt & Hclk'). repeat split; [exact Hc' | lia | lia].
    + destruct Hres as (Hkeq & Hclk'). split; lia.
Qed.

(** The end of every read into the internal buffer: the receive loop and
    the stop condition. *)
Lemma read_tail nb nack s code s' :
  (r <- receive_loop (Z.to_nat nb) 0 nack ;;
   match r with
   | Return code => ret code
   | Next =>
       returnStatus <- _stop ;;
       if truthy returnStatus then ret (stop_error_handler returnStatus) else
       ret returnStatus
   end) s = Some (code, s') ->
  1 <= nb <= 255 -> bytesAvailable s = 0 ->
  0 <= bytesAvailable s' <= nb /\
  clocked_in (trace s') <= clocked_in (trace s) + nb /\
  (code = 0 ->
     bytesAvailable s' = nb /\ clocked_in (trace s') = clocked_in (trace s) + nb).
Proof.
  intros Hr Hnb Hba.
  bind_step Hr r s1 Hloop.
  apply receive_loop_spec in Hloop; [|lia|lia|exact Hba].
  destruct Hloop as (k & Hk & Hba1 & _ & _ & Hres).
  rewrite Z2Nat.id in * by lia.
  destruct r as [c|].
  - injection Hr as <- <-. destruct Hres as (Hc & Hlt & Hclk).
    repeat split; lia.
  - destruct Hres as (Hkeq & Hclk).
    bind_step Hr c2 s2 Hstop.
    apply _stop_effect in Hstop. destruct Hstop as (_ & Hclk2 & Hba2 & _).
    assert (Hs' : s' = s2) by (destruct (truthy c2); injection Hr as _ <-; reflexivity).
    subst s'. repeat split; lia.
Qed.

Lemma read_post_early n s s0 s' bytes code :
  0 <= n <= 255 -> 1 <= MAX_BUFFER_SIZE ->
  bytesAvailable s0 = 0 -> trace s0 = trace s ->
  effect s0 s' bytes 0 -> code <> 0 ->
  read_post n s code s'.
Proof.
  intros Hn Hcap Hba Htr (_ & Hclk & Hba' & _) Hcode.
  destruct (clamp_count n Hn Hcap) as (_ & Hrange & Hle).
  unfold read_post. rewrite <- Htr. repeat split; lia.
Qed.

Lemma read_post_tail n s s0 s1 s' bytes nack code :
  0 <= n <= 255 -> 1 <= MAX_BUFFER_SIZE ->
  bytesAvailable s0 = 0 -> trace s0 = trace s ->
  effect s0 s1 bytes 0 ->
  (r <- receive_loop (Z.to_nat (capped_count n)) 0 nack ;;
   match r with
   | Return code => ret code
   | Next =>
       returnStatus <- _stop ;;
       if truthy returnStatus then ret (stop_error_handler returnStatus) else
       ret returnStatus
   end) s1 = Some (code, s') ->
  read_post n s code s'.
Proof.
  intros Hn Hcap Hba Htr (_ & Hclk & Hba' & _) Hr.
  destruct (clamp_count n Hn Hcap) as (_ & Hrange & Hle).
  apply read_tail in Hr; [|lia|lia].
  destruct Hr as (Hb & Hc & Hok).
  unfold read_post. rewrite <- Htr.
  split; [lia|]. split; [lia|]. split; [lia|].
  intros Hz. destruct (Hok Hz) as (Hbeq & Hceq).
  split; [lia|]. split; [lia|].
  unfold available, gets. rewrite Hbeq. reflexivity.
Qed.

End Reads.

(** ** The send loop and the block writes *)






(** The bytes [data[0..k-1]] as the loop reads them are the first [k]
    bytes of the array. *)
Lemma read_bytes_take (data : list Z) : forall k,
  (k <= length data)%nat ->
  map (fun j => u8 (default 0 (data !! j))) (seq 0 k) = take k (map u8 data).
Proof.
  induction data as [|x xs IH]; intros k Hk.
  - cbn in Hk. replace k with 0%nat by lia. reflexivity.
  - destruct k as [|k]; [reflexivity|].
    cbn [seq map take]. f_equal.
    rewrite <- seq_shift, map_map. cbn in Hk.
    rewrite <- IH by lia. reflexivity.
Qed.





Section Writes.
Context `{Header}.





End Writes.

(** ** Where the sequencers map a time-out differently from their siblings *)

Section Mapping.
Context `{Header}.

(** [write] with an 8-bit register: whatever [_sendAddress] returns, the
    register byte is sent next. *)
Lemma write_ignores_address_status address registerAddress s s1 c s2 :
  _start s = Some (0, s1) ->
  _sendAddress (SLA_W address) s1 = Some (c, s2) ->
  write address registerAddress s =
    (returnStatus <- _sendByte registerAddress ;;
     if truthy returnStatus then ret (send_error_handler returnStatus) else
     returnStatus <- _stop ;;
     if truthy returnStatus then ret (stop_error_handler returnStatus) else
     ret returnStatus) s2.
Proof.
  intros H1 H2. unfold write. unfold bind at 1. rewrite H1. cbn [truthy Z.eqb negb].
  unfold bind at 1. rewrite H2. reflexivity.
Qed.

(** [read] with an 8-bit register: a time-out of the register byte comes
    back as 5. *)
Lemma read_reg_register_timeout address registerAddress numberBytes s s1 s2 s3 :
  _start (set_bufferIndex 0 (set_bytesAvailable 0 s)) = Some (0, s1) ->
  _sendAddress (SLA_W address) s1 = Some (0, s2) ->
  _sendByte registerAddress s2 = Some (1, s3) ->
  read_reg address registerAddress numberBytes s = Some (5, s3).
Proof.
  intros H1 H2 H3. unfold read_reg, modify. cbv zeta.
  unfold bind at 1 2 3. rewrite H1. cbn [truthy Z.eqb negb].
  unfold bind at 1. rewrite H2. cbn [truthy Z.eqb negb].
  unfold bind at 1. rewrite H3. reflexivity.
Qed.

(** [read16] with a caller buffer: a time-out of the repeated start comes
    back as 1. *)
Lemma read16_buf_repeated_start_timeout address registerAddress numberBytes dataBuffer
    s s1 s2 s3 s4 s5 :
  _start s = Some (0, s1) ->
  _sendAddress (SLA_W address) s1 = Some (0, s2) ->
  _sendByte (Z.shiftr registerAddress 8) s2 = Some (0, s3) ->
  _sendByte (Z.land registerAddress 255) s3 = Some (0, s4) ->
  _start s4 = Some (1, s5) ->
  read16_buf address registerAddress numberBytes dataBuffer s = Some ((1, dataBuffer), s5).
Proof.
  intros H1 H2 H3 H4 H5. unfold read16_buf. cbv zeta.
  unfold bind at 1. rewrite H1. cbn [truthy Z.eqb negb].
  unfold bind at 1. rewrite H2. cbn [truthy Z.eqb negb].
  unfold bind at 1. rewrite H3. cbn [truthy Z.eqb negb].
  unfold bind at 1. rewrite H4. cbn [truthy Z.eqb negb].
  unfold bind at 1. rewrite H5. reflexivity.
Qed.

(** The block [write16]: a time-out of the address sent with the write bit
    comes back as 5. *)
Lemma write16_bytes_address_timeout address registerAddress data numberBytes s s1 s2 :
  _start s = Some (0, s1) ->
  _sendAddress (SLA_W address) s1 = Some (1, s2) ->
  write16_bytes address registerAddress data numberBytes s = Some (5, s2).
Proof.
  intros H1 H2. unfold write16_bytes.
  unfold bind at 1. rewrite H1. cbn [truthy Z.eqb negb].
  unfold bind at 1. rewrite H2. reflexivity.
Qed.

End Mapping.

(** ** Properties of the driver *)

Section Properties.
Context `{Header}.

(** C8: [scan] always returns, and when it does, after all 128 addresses
    or after the early exit on a bus time-out, [timeOutDelay] holds again
    the value it had before the call, whatever the peripheral answered. *)
Theorem scan_restores_timeOutDelay (s : State) :
  exists s', scan s = Some (tt, s') /\ timeOutDelay s' = timeOutDelay s.
Proof.
  unfold scan, timeOut, gets, modify. unfold bind at 1 2 3 4 5.
  set (s0 := println LnBlank (println LnScanning (set_timeOutDelay (u16 80) s))).
  destruct (scan_loop_total 128 0 (timeOutDelay s) 0 s0) as (r & n & s1 & Hloop & HT);
    [reflexivity|].
  rewrite Hloop.
  destruct r as [[]|].
  - exists s1. split; [reflexivity | exact HT].
  - unfold bind. destruct (negb (truthy n)); cbn; eexists; split; reflexivity.
Qed.

(** C9: with no byte available, [receive] returns 0, leaves the cursor
    [bufferIndex] at 0 and the count [bytesAvailable] at 0, and a further
    call does exactly the same. *)
Theorem receive_exhausted (s : State) :
  bytesAvailable s = 0 ->
  receive s = Some (0, set_bufferIndex 0 s) /\
  bufferIndex (set_bufferIndex 0 s) = 0 /\
  bytesAvailable (set_bufferIndex 0 s) = 0 /\
  receive (set_bufferIndex 0 s) = Some (0, set_bufferIndex 0 s).
Proof.
  intros Hz.
  assert (Hcall : forall t, bytesAvailable t = 0 -> receive t = Some (0, set_bufferIndex 0 t)).
  { intros t Ht. unfold receive, bind, gets, modify, ret. cbn. rewrite Ht. reflexivity. }
  repeat split.
  - apply Hcall. exact Hz.
  - exact Hz.
  - apply (Hcall (set_bufferIndex 0 s)). exact Hz.
Qed.

(** C10: [_receiveByte(ack, target)] returns what [_receiveByte(ack)]
    returns, passed through [receive_error_handler]: on status 0 it stores
    the data register in [*target] and returns 0; on any other status it
    stores 0 in [*target], and the time-out code 1 of the one-argument
    overload comes back as 6.  The content of [*target] after the call
    never depends on its content before, and a stalled receive under a
    configured time-out is such a time-out. *)
Theorem receiveByte_target_spec (ack target : Z) (s : State) :
  _receiveByte_target ack target s =
    match _receiveByte ack s with
    | None => None
    | Some (stat, s') =>
        if stat =? 0 then Some ((0, TWDR s'), s')
        else Some ((receive_error_handler stat, 0), s')
    end /\
  (forall s', _receiveByte ack s = Some (0, s') ->
     _receiveByte_target ack target s = Some ((0, TWDR s'), s')) /\
  (forall s', _receiveByte ack s = Some (1, s') ->
     _receiveByte_target ack target s = Some ((6, 0), s')) /\
  (forall stat s', _receiveByte ack s = Some (stat, s') -> stat <> 0 -> stat <> 1 ->
     _receiveByte_target ack target s = Some ((stat, 0), s')) /\
  (forall target', _receiveByte_target ack target' s = _receiveByte_target ack target s) /\
  (match script s with [] | Stalled :: _ => True | _ => False end ->
   timeOutDelay s <> 0 -> timeOutDelay s < 4294967296 ->
   exists s', _receiveByte ack s = Some (1, s') /\
              _receiveByte_target ack target s = Some ((6, 0), s')).
Proof.
  assert (Heq : forall t, _receiveByte_target ack t s =
    match _receiveByte ack s with
    | None => None
    | Some (stat, s') =>
        if stat =? 0 then Some ((0, TWDR s'), s')
        else Some ((receive_error_handler stat, 0), s')
    end).
  { intros t. unfold _receiveByte_target, bind.
    destruct (_receiveByte ack s) as [[stat s']|]; [|reflexivity].
    unfold truthy. destruct (stat =? 0); reflexivity. }
  assert (Hone : forall s', _receiveByte ack s = Some (1, s') ->
            _receiveByte_target ack target s = Some ((6, 0), s')).
  { intros s' Hr. rewrite Heq, Hr. reflexivity. }
  split; [apply Heq|].
  split; [intros s' Hr; rewrite Heq, Hr; reflexivity|].
  split; [exact Hone|].
  split; [|split].
  - intros stat s' Hr Hn0 Hn1. rewrite Heq, Hr.
    destruct (stat =? 0) eqn:E0; [apply Z.eqb_eq in E0; contradiction|].
    unfold receive_error_handler.
    destruct (stat =? 1) eqn:E1; [apply Z.eqb_eq in E1; contradiction|]. reflexivity.
  - intros target'. rewrite !Heq. reflexivity.
  - intros Hsc Hnz Hlt.
    assert (Hp : pending (issue (EvReceive ack) s) = Stalled).
    { cbn. destruct (script s) as [|[|] ?]; [reflexivity | contradiction | reflexivity]. }
    destruct (wait_stalled (millis s) (issue (EvReceive ack) s) Hp Hnz Hlt) as (s' & Hw).
    assert (Hr : _receiveByte ack s = Some (1, s')).
    { unfold _receiveByte. rewrite Hw. reflexivity. }
    exists s'. split; [exact Hr | apply Hone; exact Hr].
Qed.

(** C2, as amended: every failing path of [_sendAddress], [_sendByte] and
    [_stop] puts a stop condition or a lockup recovery on the bus before
    it returns; [_start] and [_receiveByte] recover on a time-out (code 1)
    and on lost arbitration, and return any other unexpected status as it
    is, with their own phase the last thing on the bus. *)
Theorem failure_paths_recovery :
  (forall a s, idle_on_failure (_sendAddress a) (EvAddress (u8 a)) s) /\
  (forall b s, idle_on_failure (_sendByte b) (EvByte (u8 b)) s) /\
  (forall s, idle_on_failure _stop EvStop s) /\
  (forall s c s', _start s = Some (c, s') -> c <> 0 ->
     (c = 1 \/ c = LOST_ARBTRTN ->
        exists evs, trace s' = trace s ++ EvStart :: evs /\ recovers evs = true) /\
     (c <> 1 -> c <> LOST_ARBTRTN -> trace s' = trace s ++ [EvStart])) /\
  (forall ack s c s', _receiveByte ack s = Some (c, s') -> c <> 0 ->
     (c = 1 \/ c = LOST_ARBTRTN ->
        exists evs, trace s' = trace s ++ EvReceive ack :: evs /\ recovers evs = true) /\
     (c <> 1 -> c <> LOST_ARBTRTN -> trace s' = trace s ++ [EvReceive ack])).
Proof.
  split; [|split; [|split; [|split]]].
  - intros a s c s' Hr Hc.
    apply _sendAddress_spec in Hr. destruct Hr as (_ & evs & Ht & _ & Hrec).
    exists evs. auto.
  - intros b s c s' Hr Hc.
    apply _sendByte_spec in Hr. destruct Hr as (_ & evs & Ht & _ & Hrec).
    exists evs. auto.
  - intros s c s' Hr Hc.
    apply _stop_spec in Hr. destruct Hr as (_ & [(-> & _)|(_ & Ht)]); [contradiction|].
    exists [EvLockUp]. auto.
  - intros s c s' Hr Hc.
    apply _start_spec in Hr. destruct Hr as (_ & evs & Ht & _ & Hrec & Hnil).
    split.
    + intros Hor. exists evs. auto.
    + intros Hn1 Hnl. rewrite (Hnil Hn1 Hnl) in Ht. exact Ht.
  - intros ack s c s' Hr Hc.
    apply _receiveByte_spec in Hr. destruct Hr as (_ & evs & Ht & _ & Hrec & Hnil).
    split.
    + intros Hor. exists evs. auto.
    + intros Hn1 Hnl. rewrite (Hnil Hn1 Hnl) in Ht. exact Ht.
Qed.

(** The reads into the internal buffer whose count is a [uint8_t]. *)
Lemma typed_read_count (n : Z) :
  0 <= n <= 255 -> 1 <= MAX_BUFFER_SIZE ->
  (forall address s code s',
     read address n s = Some (code, s') -> read_post n s code s') /\
  (forall address registerAddress s code s',
     read_reg address registerAddress n s = Some (code, s') -> read_post n s code s') /\
  (forall address registerAddress s code s',
     read16 address registerAddress n s = Some (code, s') -> read_post n s code s').
Proof.
  intros Hn Hcap.
  destruct (clamp_count n Hn Hcap) as (Hclamp & _).
  split; [|split].
  - intros address s code s' Hr. unfold read in Hr.
    cbv zeta in Hr. rewrite Hclamp in Hr.
    unfold bind at 1 2, modify in Hr.
    set (s0 := set_bufferIndex 0 (set_bytesAvailable 0 s)) in Hr.
    pose proof (effect_refl s0) as He.
    bind_step Hr c1 s1 H1. apply _start_effect in H1.
    pose proof (effect_trans _ _ _ _ _ _ _ He H1) as He1.
    destruct (truthy c1) eqn:T1.
    { injection Hr as <- <-. apply (read_post_early n s s0 _ _ _ Hn Hcap eq_refl eq_refl He1).
      apply start_error_handler_nonzero, truthy_true, T1. }
    bind_step Hr c2 s2 H2. apply _sendAddress_effect in H2.
    pose proof (effect_trans _ _ _ _ _ _ _ He1 H2) as He2.
    destruct (truthy c2) eqn:T2.
    { injection Hr as <- <-. apply (read_post_early n s s0 _ _ _ Hn Hcap eq_refl eq_refl He2).
      apply send_addr_error_handler_nonzero, truthy_true, T2. }
    apply (read_post_tail n s s0 _ s' _ _ _ Hn Hcap eq_refl eq_refl He2 Hr).
  - intros address registerAddress s code s' Hr. unfold read_reg in Hr.
    cbv zeta in Hr. rewrite Hclamp in Hr.
    unfold bind at 1 2, modify in Hr.
    set (s0 := set_bufferIndex 0 (set_bytesAvailable 0 s)) in Hr.
    pose proof (effect_refl s0) as He.
    bind_step Hr c1 s1 H1. apply _start_effect in H1.
    pose proof (effect_trans _ _ _ _ _ _ _ He H1) as He1.
    destruct (truthy c1) eqn:T1.
    { injection Hr as <- <-. apply (read_post_early n s s0 _ _ _ Hn Hcap eq_refl eq_refl He1).
      apply start_error_handler_nonzero, truthy_true, T1. }
    bind_step Hr c2 s2 H2. apply _sendAddress_effect in H2.
    pose proof (effect_trans _ _ _ _ _ _ _ He1 H2) as He2.
    destruct (truthy c2) eqn:T2.
    { injection Hr as <- <-. apply (read_post_early n s s0 _ _ _ Hn Hcap eq_refl eq_refl He2).
      apply send_addr_error_handler_nonzero, truthy_true, T2. }
    bind_step Hr c3 s3 H3. apply _sendByte_effect in H3.
    pose proof (effect_trans _ _ _ _ _ _ _ He2 H3) as He3.
    destruct (truthy c3) eqn:T3.
    { injection Hr as <- <-. apply (read_post_early n s s0 _ _ _ Hn Hcap eq_refl eq_refl He3).
      apply send_addr_error_handler_nonzero, truthy_true, T3. }
    bind_step Hr c4 s4 H4. apply _start_effect in H4.
    pose proof (effect_trans _ _ _ _ _ _ _ He3 H4) as He4.
    destruct (truthy c4) eqn:T4.
    { injection Hr as <- <-. apply (read_post_early n s s0 _ _ _ Hn Hcap eq_refl eq_refl He4).
      apply start_error_handler_nonzero, truthy_true, T4. }
    bind_step Hr c5 s5 H5. apply _sendAddress_effect in H5.
    pose proof (effect_trans _ _ _ _ _ _ _ He4 H5) as He5.
    destruct (truthy c5) eqn:T5.
    { injection Hr as <- <-. apply (read_post_early n s s0 _ _ _ Hn Hcap eq_refl eq_refl He5).
      apply send_addr_error_handler_nonzero, truthy_true, T5. }
    apply (read_post_tail n s s0 _ s' _ _ _ Hn Hcap eq_refl eq_refl He5 Hr).
  - intros address registerAddress s code s' Hr. unfold read16 in Hr.
    cbv zeta in Hr. rewrite Hclamp in Hr.
    unfold bind at 1 2, modify in Hr.
    set (s0 := set_bufferIndex 0 (set_bytesAvailable 0 s)) in Hr.
    pose proof (effect_refl s0) as He.
    bind_step Hr c1 s1 H1. apply _start_effect in H1.
    pose proof (effect_trans _ _ _ _ _ _ _ He H1) as He1.
    destruct (truthy c1) eqn:T1.
    { injection Hr as <- <-. apply (read_post_early n s s0 _ _ _ Hn Hcap eq_refl eq_refl He1).
      apply start_error_handler_nonzero, truthy_true, T1. }
    bind_step Hr c2 s2 H2. apply _sendAddress_effect in H2.
    pose proof (effect_trans _ _ _ _ _ _ _ He1 H2) as He2.
    destruct (truthy c2) eqn:T2.
    { injection Hr as <- <-. apply (read_post_early n s s0 _ _ _ Hn Hcap eq_refl eq_refl He2).
      apply send_addr_error_handler_nonzero, truthy_true, T2. }
    bind_step Hr c3 s3 H3. apply _sendByte_effect in H3.
    pose proof (effect_trans _ _ _ _ _ _ _ He2 H3) as He3.
    destruct (truthy c3) eqn:T3.
    { injection Hr as <- <-. apply (read_post_early n s s0 _ _ _ Hn Hcap eq_refl eq_refl He3).
      apply send_error_handler_nonzero, truthy_true, T3. }
    bind_step Hr c3' s3' H3'. apply _sendByte_effect in H3'.
    pose proof (effect_trans _ _ _ _ _ _ _ He3 H3') as He3'.
    destruct (truthy c3') eqn:T3'.
    { injection Hr as <- <-. apply (read_post_early n s s0 _ _ _ Hn Hcap eq_refl eq_refl He3').
      apply send_error_handler_nonzero, truthy_true, T3'. }
    bind_step Hr c4 s4 H4. apply _start_effect in H4.
    pose proof (effect_trans _ _ _ _ _ _ _ He3' H4) as He4.
    destruct (truthy c4) eqn:T4.
    { injection Hr as <- <-. apply (read_post_early n s s0 _ _ _ Hn Hcap eq_refl eq_refl He4).
      apply start_error_handler_nonzero, truthy_true, T4. }
    bind_step Hr c5 s5 H5. apply _sendAddress_effect in H5.
    pose proof (effect_trans _ _ _ _ _ _ _ He4 H5) as He5.
    destruct (truthy c5) eqn:T5.
    { injection Hr as <- <-. apply (read_post_early n s s0 _ _ _ Hn Hcap eq_refl eq_refl He5).
      apply send_addr_error_handler_nonzero, truthy_true, T5. }
    apply (read_post_tail n s s0 _ s' _ _ _ Hn Hcap eq_refl eq_refl He5 Hr).
Qed.

(** C6, amended: a read into the internal buffer clocks in, and on success
    reports through [available], exactly min(max(n, 1), MAX_BUFFER_SIZE)
    bytes, where [n] is the count as the routine gets it: for [read]
    without and with an 8-bit register and for [read16] the [uint8_t]
    count of the call, and for the two [int] overloads the low 8 bits of
    the requested count, to which they cast it before they pass it on.  0
    is taken as 1 and a larger count is capped; on no path does the count
    of valid bytes exceed that, hence the capacity. *)
Theorem internal_read_count (n : Z) :
  1 <= MAX_BUFFER_SIZE ->
  (0 <= n <= 255 ->
   (forall address s code s',
      read address n s = Some (code, s') -> read_post n s code s') /\
   (forall address registerAddress s code s',
      read_reg address registerAddress n s = Some (code, s') -> read_post n s code s') /\
   (forall address registerAddress s code s',
      read16 address registerAddress n s = Some (code, s') -> read_post n s code s')) /\
  (forall address s code s',
     read_int address n s = Some (code, s') -> read_post (u8 n) s code s') /\
  (forall address registerAddress s code s',
     read_reg_int address registerAddress n s = Some (code, s') ->
     read_post (u8 n) s code s').
Proof.
  intros Hcap.
  assert (Hu : 0 <= u8 n <= 255)
    by (unfold u8; pose proof (Z.mod_pos_bound n 256 ltac:(lia)); lia).
  split; [|split].
  - intros Hn. exact (typed_read_count n Hn Hcap).
  - intros address s code s' Hr. unfold read_int in Hr.
    exact (proj1 (typed_read_count (u8 n) Hu Hcap) _ _ _ _ Hr).
  - intros address registerAddress s code s' Hr. unfold read_reg_int in Hr.
    exact (proj1 (proj2 (typed_read_count (u8 n) Hu Hcap)) _ _ _ _ _ Hr).
Qed.

End Properties.

(** ** The driver on the ATmega status codes *)

(** C2, as stated, fails: after a start condition the peripheral reports a
    status that is neither START, REPEATED_START nor LOST_ARBTRTN (here
    0x48), and [_start] returns it with the start condition the last thing
    on the bus; likewise [_receiveByte(1)] on status 0x58. *)
Lemma primitives_return_without_recovery :
  ~ idle_on_failure _start EvStart (fresh 7 [Ready 2 72 None]) /\
  ~ idle_on_failure (_receiveByte 1) (EvReceive 1) (fresh 7 [Ready 2 88 (Some 0)]).
Proof.
  split; intros Hidle.
  - assert (Hrun : exists s', _start (fresh 7 [Ready 2 72 None]) = Some (72, s') /\
                              trace s' = [EvStart])
      by (vm_compute; eexists; split; reflexivity).
    destruct Hrun as (s' & Hrun & Ht).
    destruct (Hidle 72 s' Hrun) as (evs & Hevs & Hrec); [lia|].
    rewrite Ht in Hevs. cbn in Hevs. injection Hevs as <-. discriminate Hrec.
  - assert (Hrun : exists s', _receiveByte 1 (fresh 7 [Ready 2 88 (Some 0)]) = Some (88, s') /\
                              trace s' = [EvReceive 1])
      by (vm_compute; eexists; split; reflexivity).
    destruct Hrun as (s' & Hrun & Ht).
    destruct (Hidle 88 s' Hrun) as (evs & Hevs & Hrec); [lia|].
    rewrite Ht in Hevs. cbn in Hevs. injection Hevs as <-. discriminate Hrec.
Qed.

(** C6, as stated, fails for the [int] overloads: [read(0x68, 256)] casts
    the count to a [uint8_t], which makes it 0, and 0 is taken as 1: the
    device is asked for one byte and [available] reports 1, where
    min(max(256, 1), 32) is 32. *)
Lemma int_read_count_cut_to_8_bits :
  capped_count 256 = 32 /\
  exists s',
    read_int 104 256 (fresh 10 [Ready 2 8 None; Ready 2 64 None; Ready 1 88 (Some 9);
                                Ready 2 248 None]) = Some (0, s') /\
    available s' = Some (1, s') /\
    clocked_in (trace s') = 1 /\
    ~ read_post 256 (fresh 10 [Ready 2 8 None; Ready 2 64 None; Ready 1 88 (Some 9);
                               Ready 2 248 None]) 0 s'.
Proof.
  split; [reflexivity|].
  eexists. split; [vm_compute; reflexivity|].
  split; [reflexivity|]. split; [reflexivity|].
  intros (_ & _ & _ & Hok). destruct (Hok eq_refl) as (Hb & _).
  vm_compute in Hb. discriminate Hb.
Qed.

Lemma failure_paths_recovery_witness :
  exists c s',
    _sendAddress 160 (fresh 5 [Ready 2 32 None; Ready 2 248 None]) = Some (c, s') /\
    c <> 0 /\
    exists evs,
      trace s' = trace (fresh 5 [Ready 2 32 None; Ready 2 248 None])
                 ++ EvAddress (u8 160) :: evs /\
      recovers evs = true.
Proof.
  do 2 eexists. split; [vm_compute; reflexivity|]. split; [lia|].
  apply (proj1 failure_paths_recovery 160 (fresh 5 [Ready 2 32 None; Ready 2 248 None]) 32).
  - vm_compute. reflexivity.
  - lia.
Defined.

(** C1 fails in [write]: device 0x50 does not acknowledge its address
    (status 0x20), [_sendAddress] stops the bus and returns 0x20, and
    [write(0x50, 0x10)] goes on to send the register byte and a second stop
    condition and returns 0; when the address phase times out it goes on as
    well and returns the code of the next failure.  [write16] returns at
    once with the code of the address phase. *)
Theorem write_goes_on_after_address_failure :
  (exists s',
     write 80 16 (fresh 5 [Ready 2 8 None; Ready 2 32 None; Ready 2 248 None;
                           Ready 2 40 None; Ready 2 248 None]) = Some (0, s') /\
     trace s' = [EvStart; EvAddress 160; EvStop; EvByte 16; EvStop]) /\
  (exists s',
     write 80 16 (fresh 5 [Ready 2 8 None; Stalled; Stalled]) = Some (3, s') /\
     trace s' = [EvStart; EvAddress 160; EvLockUp; EvByte 16; EvLockUp]) /\
  (exists s',
     write16 80 16 (fresh 5 [Ready 2 8 None; Ready 2 32 None; Ready 2 248 None;
                             Ready 2 40 None; Ready 2 248 None]) = Some (32, s') /\
     trace s' = [EvStart; EvAddress 160; EvStop]).
Proof.
  repeat split; vm_compute; eexists; split; reflexivity.
Qed.

(** C3 fails in the reads with an 8-bit register address: the register
    byte of [read(0x68, 0x00, 4)] is not answered within the time-out and
    the call returns 5; so do the two caller-buffer overloads.  [read16]
    returns 3 in the same situation. *)
Theorem register_byte_timeout_reported_as_5 :
  (exists s',
     read_reg 104 0 4 (fresh 10 [Ready 2 8 None; Ready 2 24 None; Stalled]) = Some (5, s') /\
     trace s' = [EvStart; EvAddress 208; EvByte 0; EvLockUp]) /\
  (exists s',
     read_reg_buf 104 0 4 [0; 0; 0; 0]
       (fresh 10 [Ready 2 8 None; Ready 2 24 None; Stalled]) = Some ((5, [0; 0; 0; 0]), s')) /\
  (exists s',
     read_reg_buf_n16 104 0 4 [0; 0; 0; 0]
       (fresh 10 [Ready 2 8 None; Ready 2 24 None; Stalled]) = Some ((5, [0; 0; 0; 0]), s')) /\
  (exists s',
     read16 104 0 4 (fresh 10 [Ready 2 8 None; Ready 2 24 None; Stalled]) = Some (3, s')).
Proof.
  repeat split; vm_compute; eexists; try split; reflexivity.
Qed.

(** C4 fails in [read16] with a caller buffer: the repeated start of
    [read16(0x68, 0x0000, 4, buffer)] is not completed within the time-out
    and the call returns 1; [read16] into the internal buffer returns 4. *)
Theorem repeated_start_timeout_reported_as_1 :
  (exists s',
     read16_buf 104 0 4 [0; 0; 0; 0]
       (fresh 10 [Ready 2 8 None; Ready 2 24 None; Ready 2 40 None; Ready 2 40 None;
                  Stalled]) = Some ((1, [0; 0; 0; 0]), s') /\
     trace s' = [EvStart; EvAddress 208; EvByte 0; EvByte 0; EvStart; EvLockUp]) /\
  (exists s',
     read16 104 0 4
       (fresh 10 [Ready 2 8 None; Ready 2 24 None; Ready 2 40 None; Ready 2 40 None;
                  Stalled]) = Some (4, s')).
Proof.
  repeat split; vm_compute; eexists; try split; reflexivity.
Qed.

(** C5 fails in the block [write16]: the address of
    [write16(0x50, 0x0010, data, 2)], sent with the write bit, is not
    answered within the time-out and the call returns 5; [write16] of one
    byte returns 2.  In [write] the code of the address phase is not
    returned at all. *)
Theorem write_address_timeout_reported_as_5 :
  (exists s',
     write16_bytes 80 16 [1; 2] 2 (fresh 10 [Ready 2 8 None; Stalled]) = Some (5, s') /\
     trace s' = [EvStart; EvAddress 160; EvLockUp]) /\
  (exists s',
     write16_u8 80 16 1 (fresh 10 [Ready 2 8 None; Stalled]) = Some (2, s')) /\
  (exists s',
     write_bytes 80 16 [1; 2] 2 (fresh 10 [Ready 2 8 None; Stalled]) = Some (3, s')).
Proof.
  repeat split; vm_compute; eexists; try split; reflexivity.
Qed.

Lemma internal_read_count_witness :
  0 <= 40 <= 255 /\ 1 <= MAX_BUFFER_SIZE /\
  exists s',
    read 104 40 (fresh 10 ([Ready 2 8 None; Ready 2 64 None]
                           ++ repeat (Ready 1 80 (Some 7)) 31
                           ++ [Ready 1 88 (Some 9); Ready 2 248 None])) = Some (0, s') /\
    read_post 40 (fresh 10 ([Ready 2 8 None; Ready 2 64 None]
                            ++ repeat (Ready 1 80 (Some 7)) 31
                            ++ [Ready 1 88 (Some 9); Ready 2 248 None])) 0 s'.
Proof.
  split; [lia|]. split; [vm_compute; discriminate|].
  eexists. split; [vm_compute; reflexivity|].
  apply (proj1 (proj1 (internal_read_count (H := atmega) 40 ltac:(vm_compute; discriminate))
                  ltac:(lia)) 104).
  vm_compute. reflexivity.
Defined.

Lemma receive_exhausted_witness :
  bytesAvailable (mkState 0 3 4 0 [17; 18; 19; 20] 0 248 0 Stalled [] [] []) = 0 /\
  receive (mkState 0 3 4 0 [17; 18; 19; 20] 0 248 0 Stalled [] [] []) =
    Some (0, mkState 0 0 4 0 [17; 18; 19; 20] 0 248 0 Stalled [] [] []).
Proof.
  split; [reflexivity|].
  apply (receive_exhausted (mkState 0 3 4 0 [17; 18; 19; 20] 0 248 0 Stalled [] [] [])).
  reflexivity.
Defined.

Lemma receiveByte_target_spec_witness :
  timeOutDelay (fresh 5 []) <> 0 /\
  exists s',
    _receiveByte 1 (fresh 5 []) = Some (1, s') /\
    _receiveByte_target 1 99 (fresh 5 []) = Some ((6, 0), s').
Proof.
  split; [vm_compute; discriminate|].
  apply (receiveByte_target_spec 1 99 (fresh 5 [])).
  - exact I.
  - vm_compute. discriminate.
  - reflexivity.
Defined.

(** ** The two end-to-end scenarios of the specification *)

(** Writing 0x1234 to register 0x10 of device 0x50. *)
Example write_0x1234_scenario :
  exists s',
    write_u16 80 16 4660
      (fresh 0 [Ready 2 8 None; Ready 2 24 None; Ready 2 40 None; Ready 2 40 None;
                Ready 2 40 None; Ready 2 248 None]) = Some (0, s') /\
    trace s' = [EvStart; EvAddress 160; EvByte 16; EvByte 18; EvByte 52; EvStop].
Proof. vm_compute. eexists. split; reflexivity. Qed.

(** Reading 4 bytes from register 0x00 of device 0x68 into the internal
    buffer. *)
Example read_4_bytes_scenario :
  exists s',
    read_reg 104 0 4
      (fresh 10 [Ready 2 8 None; Ready 2 24 None; Ready 2 40 None; Ready 2 16 None;
                 Ready 2 64 None; Ready 1 80 (Some 11); Ready 1 80 (Some 12);
                 Ready 1 80 (Some 13); Ready 1 88 (Some 14); Ready 2 248 None])
      = Some (0, s') /\
    trace s' = [EvStart; EvAddress 208; EvByte 0; EvStart; EvAddress 209;
                EvReceive 1; EvReceive 1; EvReceive 1; EvReceive 0; EvStop] /\
    available s' = Some (4, s') /\
    take 4 (data s') = [11; 12; 13; 14].
Proof. vm_compute. eexists. repeat split; reflexivity. Qed.

(** With the time-out disabled a stalled phase never returns. *)
Example stalled_without_timeout_never_returns :
  write 80 16 (fresh 0 [Ready 2 8 None; Stalled]) = None /\
  forall fuel, spin fuel 0 0 (issue EvStart (fresh 0 [Stalled])) = None.
Proof.
  split; [vm_compute; reflexivity|].
  intros fuel. apply spin_stalled_forever; reflexivity.
Qed.

(** ** Time-outs of the primitives *)

Lemma spin_timed_out fuel : forall k st s s',
  spin fuel k st s = Some (true, s') ->
  timeOutDelay s <> 0 /\ timeOutDelay s <= u32 (clock s' - st).
Proof.
  induction fuel as [|fuel IH]; intros k st s s' Hs; [discriminate|].
  cbn [spin] in Hs.
  destruct (flag_up (pending s) k); [discriminate|].
  destruct (timeOutDelay s =? 0) eqn:Hz.
  { apply IH in Hs. exact Hs. }
  destruct (u32 (millis s - st) >=? timeOutDelay s) eqn:Hge.
  - injection Hs as <-. apply Z.eqb_neq in Hz.
    rewrite Z.geb_leb in Hge. apply Z.leb_le in Hge. split; [exact Hz | exact Hge].
  - apply IH in Hs. exact Hs.
Qed.

Lemma wait_timed_out st s s' :
  wait st s = Some (true, s') ->
  timeOutDelay s <> 0 /\ timeOutDelay s <= u32 (clock s' - st) /\
  trace s' = trace s ++ [EvLockUp].
Proof.
  intros Hw. pose proof (wait_spec _ _ _ _ Hw) as (_ & _ & Ht).
  apply spin_timed_out in Hw. destruct Hw as (Hnz & Hel). auto.
Qed.

Lemma raw_TWI_STATUS s : raw (TWI_STATUS s).
Proof.
  unfold raw, TWI_STATUS. rewrite <- Z.land_assoc. reflexivity.
Qed.

Lemma raw_not_1 c : raw c -> c <> 1.
Proof.
  unfold raw. intros Hr Hc. subst c. discriminate Hr.
Qed.

Lemma raw_0 : raw 0.
Proof. reflexivity. Qed.

Lemma timed_out_raw first s c s' : raw c -> timed_out first s c s'.
Proof.
  intros Hr. split; [left; exact Hr|].
  intros Hc. apply raw_not_1 in Hr. contradiction.
Qed.

Lemma timed_out_wait first s0 s s' :
  timeOutDelay s = timeOutDelay s0 -> clock s = clock s0 ->
  trace s = trace s0 ++ [first] ->
  wait (millis s0) s = Some (true, s') ->
  timed_out first s0 1 s'.
Proof.
  intros HT Hc Ht Hw. apply wait_timed_out in Hw. destruct Hw as (Hnz & Hel & Htr).
  rewrite HT in *. unfold millis in Hel.
  split; [right; split; [reflexivity | exact Hnz]|].
  intros _. split; [exact Hnz|]. split; [exact Hel|].
  rewrite Htr, Ht, <- app_assoc. reflexivity.
Qed.

Section Timeouts.
Context `{Header}.

Lemma _stop_timed_out s c s' :
  _stop s = Some (c, s') -> timed_out EvStop s c s'.
Proof.
  unfold _stop. intros Hr.
  destruct (wait (millis s) (issue EvStop s)) as [[b s1]|] eqn:Hw; [|discriminate].
  destruct b; injection Hr as <- <-.
  - eapply timed_out_wait; [| | |exact Hw]; reflexivity.
  - apply timed_out_raw, raw_0.
Qed.

Lemma _start_timed_out s c s' :
  _start s = Some (c, s') -> timed_out EvStart s c s'.
Proof.
  unfold _start. intros Hr.
  destruct (wait (millis s) (issue EvStart s)) as [[b s1]|] eqn:Hw; [|discriminate].
  destruct b.
  { injection Hr as <- <-. eapply timed_out_wait; [| | |exact Hw]; reflexivity. }
  destruct ((TWI_STATUS s1 =? START) || (TWI_STATUS s1 =? REPEATED_START)).
  { injection Hr as <- <-. apply timed_out_raw, raw_0. }
  destruct (TWI_STATUS s1 =? LOST_ARBTRTN);
    injection Hr as <- <-; apply timed_out_raw, raw_TWI_STATUS.
Qed.

Lemma _sendAddress_timed_out a s c s' :
  _sendAddress a s = Some (c, s') -> timed_out (EvAddress (u8 a)) s c s'.
Proof.
  unfold _sendAddress. intros Hr.
  change (millis (set_TWDR (u8 a) s)) with (millis s) in Hr.
  destruct (wait (millis s) (issue (EvAddress (u8 a)) (set_TWDR (u8 a) s)))
    as [[b s1]|] eqn:Hw; [|discriminate].
  destruct b.
  { injection Hr as <- <-. eapply timed_out_wait; [| | |exact Hw]; reflexivity. }
  destruct ((TWI_STATUS s1 =? MT_SLA_ACK) || (TWI_STATUS s1 =? MR_SLA_ACK)).
  { injection Hr as <- <-. apply timed_out_raw, raw_0. }
  destruct ((TWI_STATUS s1 =? MT_SLA_NACK) || (TWI_STATUS s1 =? MR_SLA_NACK)).
  - unfold bind, ret in Hr. destruct (_stop s1) as [[c2 s2]|]; [|discriminate].
    injection Hr as <- <-. apply timed_out_raw, raw_TWI_STATUS.
  - injection Hr as <- <-. apply timed_out_raw, raw_TWI_STATUS.
Qed.

Lemma _sendByte_timed_out b s c s' :
  _sendByte b s = Some (c, s') -> timed_out (EvByte (u8 b)) s c s'.
Proof.
  unfold _sendByte. intros Hr.
  change (millis (set_TWDR (u8 b) s)) with (millis s) in Hr.
  destruct (wait (millis s) (issue (EvByte (u8 b)) (set_TWDR (u8 b) s)))
    as [[t s1]|] eqn:Hw; [|discriminate].
  destruct t.
  { injection Hr as <- <-. eapply timed_out_wait; [| | |exact Hw]; reflexivity. }
  destruct (TWI_STATUS s1 =? MT_DATA_ACK).
  { injection Hr as <- <-. apply timed_out_raw, raw_0. }
  destruct (TWI_STATUS s1 =? MT_DATA_NACK).
  - unfold bind, ret in Hr. destruct (_stop s1) as [[c2 s2]|]; [|discriminate].
    injection Hr as <- <-. apply timed_out_raw, raw_TWI_STATUS.
  - injection Hr as <- <-. apply timed_out_raw, raw_TWI_STATUS.
Qed.

Lemma _receiveByte_timed_out ack s c s' :
  _receiveByte ack s = Some (c, s') -> timed_out (EvReceive ack) s c s'.
Proof.
  unfold _receiveByte. intros Hr.
  destruct (wait (millis s) (issue (EvReceive ack) s)) as [[b s1]|] eqn:Hw; [|discriminate].
  destruct b.
  { injection Hr as <- <-. eapply timed_out_wait; [| | |exact Hw]; reflexivity. }
  destruct (TWI_STATUS s1 =? LOST_ARBTRTN).
  { injection Hr as <- <-. apply timed_out_raw, raw_TWI_STATUS. }
  destruct (truthy ack);
    [destruct (TWI_STATUS s1 =? MR_DATA_ACK) | destruct (TWI_STATUS s1 =? MR_DATA_NACK)];
    injection Hr as <- <-;
    first [apply timed_out_raw, raw_0 | apply timed_out_raw, raw_TWI_STATUS].
Qed.

(** X1: a primitive returns a raw status or, under a configured time-out,
    1; and it returns 1 only after waiting at least [timeOutDelay]
    milliseconds, with exactly one lockup recovery run right after its own
    phase. *)
Theorem primitive_timeouts :
  (forall s c s', _start s = Some (c, s') -> timed_out EvStart s c s') /\
  (forall a s c s', _sendAddress a s = Some (c, s') -> timed_out (EvAddress (u8 a)) s c s') /\
  (forall b s c s', _sendByte b s = Some (c, s') -> timed_out (EvByte (u8 b)) s c s') /\
  (forall ack s c s', _receiveByte ack s = Some (c, s') -> timed_out (EvReceive ack) s c s') /\
  (forall s c s', _stop s = Some (c, s') -> timed_out EvStop s c s').
Proof.
  split; [|split; [|split; [|split]]].
  - apply _start_timed_out.
  - apply _sendAddress_timed_out.
  - apply _sendByte_timed_out.
  - apply _receiveByte_timed_out.
  - apply _stop_timed_out.
Qed.

End Timeouts.

(** ** Sequences of primitives *)

Lemma requests_app l l' : requests (l ++ l') = requests l ++ requests l'.
Proof. unfold requests. apply flat_map_app. Qed.

Lemma tail_shape_requests evs : tail_shape evs -> requests evs = [].
Proof. intros [->|[->|[->| ->]]]; reflexivity. Qed.

Lemma went_refl s : went s s [].
Proof. unfold went. rewrite app_nil_r. reflexivity. Qed.

Lemma went_trans s1 s2 s3 l l' : went s1 s2 l -> went s2 s3 l' -> went s1 s3 (l ++ l').
Proof. unfold went. intros H1 H2. rewrite H2, H1, app_assoc. reflexivity. Qed.

Lemma frame_kept s s' : frame s s' -> kept s s'.
Proof.
  intros (_ & _ & _ & HT & Hd & Hc). unfold kept. rewrite HT, Hd, Hc. auto.
Qed.

Lemma kept_refl s : kept s s.
Proof. repeat split. Qed.

Lemma kept_trans s1 s2 s3 : kept s1 s2 -> kept s2 s3 -> kept s1 s3.
Proof.
  unfold kept. intros (a1 & a2 & a3) (b1 & b2 & b3). repeat split; congruence.
Qed.

Lemma mapped_start c mode : mapped c (start_error_handler c mode).
Proof.
  intros Hc. split; [apply start_error_handler_nonzero, Hc|].
  unfold start_error_handler. split.
  - intros Hr. apply raw_not_1 in Hr. apply Z.eqb_neq in Hr. rewrite Hr. reflexivity.
  - intros ->. cbn. destruct (mode =? START_MODE); [lia|].
    destruct (mode =? REPEATED_START_MODE); lia.
Qed.

Lemma mapped_send_addr c mode : mapped c (send_addr_error_handler c mode).
Proof.
  intros Hc. split; [apply send_addr_error_handler_nonzero, Hc|].
  unfold send_addr_error_handler. split.
  - intros Hr. apply raw_not_1 in Hr. apply Z.eqb_neq in Hr. rewrite Hr. reflexivity.
  - intros ->. cbn. destruct (mode =? TRANSMIT_MODE); [lia|].
    destruct (mode =? RECEIVER_MODE); lia.
Qed.

Lemma mapped_send c : mapped c (send_error_handler c).
Proof.
  intros Hc. split; [apply send_error_handler_nonzero, Hc|].
  unfold send_error_handler. split.
  - intros Hr. apply raw_not_1 in Hr. apply Z.eqb_neq in Hr. rewrite Hr. reflexivity.
  - intros ->. cbn. lia.
Qed.

Lemma mapped_receive c : mapped c (receive_error_handler c).
Proof.
  intros Hc. split; [apply receive_error_handler_nonzero, Hc|].
  unfold receive_error_handler. split.
  - intros Hr. apply raw_not_1 in Hr. apply Z.eqb_neq in Hr. rewrite Hr. reflexivity.
  - intros ->. cbn. lia.
Qed.

Lemma mapped_stop c : mapped c (stop_error_handler c).
Proof.
  intros Hc. split; [apply stop_error_handler_nonzero, Hc|].
  unfold stop_error_handler. split.
  - intros Hr. apply raw_not_1 in Hr. apply Z.eqb_neq in Hr. rewrite Hr. reflexivity.
  - intros ->. cbn. lia.
Qed.

Lemma mapped_result s c code :
  prim_code s c -> c <> 0 -> mapped c code -> result_code s code /\ code <> 0.
Proof.
  intros Hp Hc Hm. destruct (Hm Hc) as (Hnz & Hraw & Hone). split; [|exact Hnz].
  destruct Hp as [Hr|(-> & HT)].
  - left. rewrite (Hraw Hr). exact Hr.
  - right. split; [apply Hone; reflexivity | exact HT].
Qed.

Section Running.
Context `{Header}.
Variable F : State -> State -> Prop.
Hypothesis F_refl : forall s, F s s.
Hypothesis F_trans : forall s1 s2 s3, F s1 s2 -> F s2 s3 -> F s1 s3.
Hypothesis F_frame : forall s s', frame s s' -> F s s'.
Hypothesis F_timeOut : forall s s', F s s' -> timeOutDelay s' = timeOutDelay s.

Lemma running_refl s : running F s s [].
Proof. split; [apply F_refl | apply went_refl]. Qed.

Lemma running_trans s1 s2 s3 l l' :
  running F s1 s2 l -> running F s2 s3 l' -> running F s1 s3 (l ++ l').
Proof.
  intros (f1 & w1) (f2 & w2). split; [eapply F_trans; eassumption | eapply went_trans; eassumption].
Qed.

Lemma prim_code_back s0 s c : F s0 s -> prim_code s c -> prim_code s0 c.
Proof.
  intros Hf [Hr|(Hc & HT)]; [left; exact Hr|].
  right. rewrite <- (F_timeOut _ _ Hf). auto.
Qed.

Lemma step_start s0 s asked c s' :
  running F s0 s asked -> _start s = Some (c, s') ->
  running F s0 s' (asked ++ [EvStart]) /\ prim_code s0 c.
Proof.
  intros Hrun Hr. pose proof (_start_timed_out _ _ _ Hr) as (Hp & _).
  apply _start_spec in Hr. destruct Hr as (Hf & evs & Ht & Hsh & _).
  split; [|eapply prim_code_back; [apply Hrun | exact Hp]].
  eapply running_trans; [exact Hrun|]. split; [apply F_frame, Hf|].
  unfold went. rewrite Ht, requests_app. cbn [requests flat_map app].
  fold (requests evs). rewrite (tail_shape_requests _ Hsh). reflexivity.
Qed.

Lemma step_sendAddress a s0 s asked c s' :
  running F s0 s asked -> _sendAddress a s = Some (c, s') ->
  running F s0 s' (asked ++ [EvAddress (u8 a)]) /\ prim_code s0 c.
Proof.
  intros Hrun Hr. pose proof (_sendAddress_timed_out _ _ _ _ Hr) as (Hp & _).
  apply _sendAddress_spec in Hr. destruct Hr as (Hf & evs & Ht & Hsh & _).
  split; [|eapply prim_code_back; [apply Hrun | exact Hp]].
  eapply running_trans; [exact Hrun|]. split; [apply F_frame, Hf|].
  unfold went. rewrite Ht, requests_app. cbn [requests flat_map app].
  fold (requests evs). rewrite (tail_shape_requests _ Hsh). reflexivity.
Qed.

Lemma step_sendByte b s0 s asked c s' :
  running F s0 s asked -> _sendByte b s = Some (c, s') ->
  running F s0 s' (asked ++ [EvByte (u8 b)]) /\ prim_code s0 c.
Proof.
  intros Hrun Hr. pose proof (_sendByte_timed_out _ _ _ _ Hr) as (Hp & _).
  apply _sendByte_spec in Hr. destruct Hr as (Hf & evs & Ht & Hsh & _).
  split; [|eapply prim_code_back; [apply Hrun | exact Hp]].
  eapply running_trans; [exact Hrun|]. split; [apply F_frame, Hf|].
  unfold went. rewrite Ht, requests_app. cbn [requests flat_map app].
  fold (requests evs). rewrite (tail_shape_requests _ Hsh). reflexivity.
Qed.

Lemma step_receiveByte ack s0 s asked c s' :
  running F s0 s asked -> _receiveByte ack s = Some (c, s') ->
  running F s0 s' (asked ++ [EvReceive ack]) /\ prim_code s0 c.
Proof.
  intros Hrun Hr. pose proof (_receiveByte_timed_out _ _ _ _ Hr) as (Hp & _).
  apply _receiveByte_spec in Hr. destruct Hr as (Hf & evs & Ht & Hsh & _).
  split; [|eapply prim_code_back; [apply Hrun | exact Hp]].
  eapply running_trans; [exact Hrun|]. split; [apply F_frame, Hf|].
  unfold went. rewrite Ht, requests_app. cbn [requests flat_map app].
  fold (requests evs). rewrite (tail_shape_requests _ Hsh). reflexivity.
Qed.

(** An early [return] of the mapped code of a failed primitive. *)
Lemma early s0 s' asked c code full :
  running F s0 s' asked -> prim_code s0 c -> c <> 0 -> mapped c code ->
  asked `prefix_of` full ->
  summary F s0 s' code full.
Proof.
  intros (Hf & Hw) Hp Hc Hm Hpre.
  destruct (mapped_result _ _ _ Hp Hc Hm) as (Hres & Hnz).
  split; [exact Hf|]. split; [exact Hres|].
  exists asked. split; [exact Hw|]. split; [exact Hpre|]. intros; contradiction.
Qed.

(** The stop condition that ends every sequence. *)
Lemma finish s0 s full code s' :
  running F s0 s full ->
  (returnStatus <- _stop ;;
   if truthy returnStatus then ret (stop_error_handler returnStatus) else
   ret returnStatus) s = Some (code, s') ->
  summary F s0 s' code full.
Proof.
  intros Hrun Hr. bind_step Hr c s1 Hstop.
  pose proof (_stop_timed_out _ _ _ Hstop) as (Hp & _).
  apply (prim_code_back s0) in Hp; [|apply Hrun].
  apply _stop_spec in Hstop. destruct Hstop as (Hf & Hcase).
  assert (Hrun1 : running F s0 s1 full).
  { rewrite <- (app_nil_r full). eapply running_trans; [exact Hrun|].
    split; [apply F_frame, Hf|]. unfold went.
    destruct Hcase as [(_ & Ht)|(_ & Ht)]; rewrite Ht, requests_app, app_nil_r;
      cbn; rewrite app_nil_r; reflexivity. }
  destruct (truthy c) eqn:T; injection Hr as <- <-.
  - apply truthy_true in T.
    eapply early; [exact Hrun1 | exact Hp | exact T | apply mapped_stop | reflexivity].
  - apply truthy_false in T. subst c.
    destruct Hrun1 as (Hf1 & Hw1).
    split; [exact Hf1|]. split; [left; apply raw_0|].
    exists full. split; [exact Hw1|]. split; [reflexivity|].
    intros _. split; [reflexivity|].
    destruct Hcase as [(_ & Ht)|(Hc & _)]; [|discriminate].
    exists (trace s). exact Ht.
Qed.

End Running.

(** ** The loops as parts of a sequence *)

Lemma seq_map_prefix {A} (g : nat -> A) i k n :
  (k <= n)%nat -> map g (seq i k) `prefix_of` map g (seq i n).
Proof.
  intros Hk. exists (map g (seq (i + k) (n - k))).
  rewrite <- map_app, <- seq_app. f_equal. f_equal. lia.
Qed.

Lemma seq_map_snoc_shift {A} (g : nat -> A) (l : list A) i k :
  (l ++ [g i]) ++ map g (seq (S i) k) = l ++ map g (seq i (S k)).
Proof. rewrite <- app_assoc. reflexivity. Qed.

Ltac step Hr Hrun L :=
  let c := fresh "c" in let s1 := fresh "s" in let Hc := fresh "Hc" in
  let Hp := fresh "Hp" in
  bind_step Hr c s1 Hc;
  eapply L in Hc; [|exact Hrun];
  clear Hrun; destruct Hc as (Hrun & Hp).

Ltac check Hr Hrun :=
  lazymatch type of Hr with
  | (if truthy ?c then _ else _) _ = Some _ =>
      let T := fresh "T" in
      destruct (truthy c) eqn:T;
      [ first [injection Hr as <- <- <- | injection Hr as <- <-];
        lazymatch goal with
        | Hp : prim_code _ c |- _ =>
            eapply early;
            [ exact Hrun | exact Hp | exact (truthy_true _ T)
            | first [ apply mapped_start | apply mapped_send_addr | apply mapped_send
                    | apply mapped_receive | apply mapped_stop ]
            | eexists; cbn [app]; reflexivity ]
        end
      | apply truthy_false in T; subst c ]
  end.

Section Loops.
Context `{Header}.
Variable F : State -> State -> Prop.
Hypothesis F_trans : forall s1 s2 s3, F s1 s2 -> F s2 s3 -> F s1 s3.
Hypothesis F_frame : forall s s', frame s s' -> F s s'.
Hypothesis F_timeOut : forall s s', F s s' -> timeOutDelay s' = timeOutDelay s.

Lemma send_loop_run todo : forall i data s0 s asked r s',
  running F s0 s asked ->
  send_loop todo i data s = Some (r, s') -> 0 <= i ->
  exists k, (k <= todo)%nat /\
    running F s0 s'
      (asked ++ map (fun j => EvByte (u8 (default 0 (data !! j)))) (seq (Z.to_nat i) k)) /\
    match r with
    | Next => k = todo
    | Return code => result_code s0 code /\ code <> 0
    end.
Proof.
  induction todo as [|todo IH]; intros i data s0 s asked r s' Hrun Hr Hi.
  { injection Hr as <- <-. exists 0%nat. cbn. rewrite app_nil_r. auto. }
  cbn [send_loop] in Hr.
  step Hr Hrun (step_sendByte F F_trans F_frame F_timeOut).
  destruct (truthy c) eqn:T.
  - injection Hr as <- <-. exists 1%nat. split; [lia|]. split; [exact Hrun|].
    apply (mapped_result s0 c); [exact Hp | apply truthy_true, T | apply mapped_send].
  - destruct (IH _ _ _ _ _ _ _ Hrun Hr ltac:(lia)) as (k & Hk & Hrun' & Hres).
    exists (S k). split; [lia|]. split.
    + replace (Z.to_nat (i + 1)) with (S (Z.to_nat i)) in Hrun' by lia.
      rewrite (seq_map_snoc_shift
                 (fun j => EvByte (u8 (default 0 (data !! j))))) in Hrun'.
      exact Hrun'.
    + destruct r; [exact Hres | lia].
Qed.

Lemma send_tail s0 s before data n code s' :
  running F s0 s before ->
  (r <- send_loop n 0 data ;;
   match r with
   | Return code => ret code
   | Next =>
       returnStatus <- _stop ;;
       if truthy returnStatus then ret (stop_error_handler returnStatus) else
       ret returnStatus
   end) s = Some (code, s') ->
  summary F s0 s' code (before ++ sends data n).
Proof.
  intros Hrun Hr. bind_step Hr r s1 Hloop.
  destruct (send_loop_run _ _ _ _ _ _ _ _ Hrun Hloop ltac:(lia)) as (k & Hk & Hrun' & Hres).
  change (Z.to_nat 0) with 0%nat in Hrun'.
  destruct r as [c|].
  - injection Hr as <- <-. destruct Hres as (Hcode & Hnz). destruct Hrun' as (Hf & Hw).
    split; [exact Hf|]. split; [exact Hcode|].
    eexists. split; [exact Hw|]. split; [|intros; contradiction].
    apply prefix_app, seq_map_prefix, Hk.
  - subst k. eapply (finish F F_trans F_frame F_timeOut); [exact Hrun' | exact Hr].
Qed.

Lemma receive_buf_loop_run todo : forall i nack buf s0 s asked r buf' s',
  running F s0 s asked ->
  receive_buf_loop todo i nack buf s = Some ((r, buf'), s') -> 0 <= i ->
  exists k, (k <= todo)%nat /\
    running F s0 s'
      (asked ++ map (fun j => EvReceive (if Z.of_nat j =? nack then 0 else 1))
                    (seq (Z.to_nat i) k)) /\
    match r with
    | Next => k = todo
    | Return code => result_code s0 code /\ code <> 0
    end.
Proof.
  induction todo as [|todo IH]; intros i nack buf s0 s asked r buf' s' Hrun Hr Hi.
  { injection Hr as <- <- <-. exists 0%nat. cbn. rewrite app_nil_r. auto. }
  cbn [receive_buf_loop] in Hr.
  bind_step Hr c s1 Hc.
  assert (Hstep : running F s0 s1
            (asked ++ [EvReceive (if Z.of_nat (Z.to_nat i) =? nack then 0 else 1)]) /\
          prim_code s0 c).
  { rewrite Z2Nat.id by lia.
    destruct (i =? nack);
      eapply (step_receiveByte F F_trans F_frame F_timeOut); eassumption. }
  clear Hc Hrun. destruct Hstep as (Hrun & Hp).
  destruct (truthy c) eqn:T.
  - injection Hr as <- <- <-. exists 1%nat. split; [lia|]. split; [exact Hrun|].
    apply (mapped_result s0 c); [exact Hp | apply truthy_true, T | apply mapped_receive].
  - unfold bind at 1, gets in Hr.
    destruct (IH _ _ _ _ _ _ _ _ _ Hrun Hr ltac:(lia)) as (k & Hk & Hrun' & Hres).
    exists (S k). split; [lia|]. split.
    + replace (Z.to_nat (i + 1)) with (S (Z.to_nat i)) in Hrun' by lia.
      rewrite (seq_map_snoc_shift
                 (fun j => EvReceive (if Z.of_nat j =? nack then 0 else 1))) in Hrun'.
      exact Hrun'.
    + destruct r; [exact Hres | lia].
Qed.

Lemma receive_buf_tail s0 s before n nack buf code buf' s' :
  running F s0 s before ->
  (r <- receive_buf_loop n 0 nack buf ;;
   match r with
   | (Return code, dataBuffer) => ret (code, dataBuffer)
   | (Next, dataBuffer) =>
       returnStatus <- _stop ;;
       if truthy returnStatus then ret (stop_error_handler returnStatus, dataBuffer) else
       ret (returnStatus, dataBuffer)
   end) s = Some ((code, buf'), s') ->
  summary F s0 s' code (before ++ receives_raw n nack).
Proof.
  intros Hrun Hr. bind_step Hr r s1 Hloop. destruct r as (r & buf1).
  destruct (receive_buf_loop_run _ _ _ _ _ _ _ _ _ _ Hrun Hloop ltac:(lia))
    as (k & Hk & Hrun' & Hres).
  change (Z.to_nat 0) with 0%nat in Hrun'.
  destruct r as [c|].
  - injection Hr as <- <- <-. destruct Hres as (Hcode & Hnz). destruct Hrun' as (Hf & Hw).
    split; [exact Hf|]. split; [exact Hcode|].
    eexists. split; [exact Hw|]. split; [|intros; contradiction].
    apply prefix_app, seq_map_prefix, Hk.
  - subst k. eapply (finish F F_trans F_frame F_timeOut); [exact Hrun'|].
    unfold bind in Hr |- *. destruct (_stop s1) as [[c2 s2]|]; [|discriminate].
    destruct (truthy c2); injection Hr as <- _ <-; reflexivity.
Qed.

End Loops.

(** ** The entry points that leave the driver's variables alone *)

Lemma frame_self s s' : frame s s' -> frame s s'.
Proof. exact (fun h => h). Qed.

Lemma frame_timeOut s s' : frame s s' -> timeOutDelay s' = timeOutDelay s.
Proof. intros (_ & _ & _ & HT & _). exact HT. Qed.

Section Summaries.
Context `{Header}.

Lemma f_start s0 s asked c s' :
  running frame s0 s asked -> _start s = Some (c, s') ->
  running frame s0 s' (asked ++ [EvStart]) /\ prim_code s0 c.
Proof. apply (step_start frame frame_trans frame_self frame_timeOut). Qed.

Lemma f_address a s0 s asked c s' :
  running frame s0 s asked -> _sendAddress a s = Some (c, s') ->
  running frame s0 s' (asked ++ [EvAddress (u8 a)]) /\ prim_code s0 c.
Proof. apply (step_sendAddress frame frame_trans frame_self frame_timeOut). Qed.

Lemma f_byte b s0 s asked c s' :
  running frame s0 s asked -> _sendByte b s = Some (c, s') ->
  running frame s0 s' (asked ++ [EvByte (u8 b)]) /\ prim_code s0 c.
Proof. apply (step_sendByte frame frame_trans frame_self frame_timeOut). Qed.

Lemma f_finish s0 s full code s' :
  running frame s0 s full ->
  (returnStatus <- _stop ;;
   if truthy returnStatus then ret (stop_error_handler returnStatus) else
   ret returnStatus) s = Some (code, s') ->
  summary frame s0 s' code full.
Proof. apply (finish frame frame_trans frame_self frame_timeOut). Qed.

Lemma f_send_tail s0 s before data n code s' :
  running frame s0 s before ->
  (r <- send_loop n 0 data ;;
   match r with
   | Return code => ret code
   | Next =>
       returnStatus <- _stop ;;
       if truthy returnStatus then ret (stop_error_handler returnStatus) else
       ret returnStatus
   end) s = Some (code, s') ->
  summary frame s0 s' code (before ++ sends data n).
Proof. apply (send_tail frame frame_trans frame_self frame_timeOut). Qed.

Lemma f_receive_tail s0 s before n nack buf code buf' s' :
  running frame s0 s before ->
  (r <- receive_buf_loop n 0 nack buf ;;
   match r with
   | (Return code, dataBuffer) => ret (code, dataBuffer)
   | (Next, dataBuffer) =>
       returnStatus <- _stop ;;
       if truthy returnStatus then ret (stop_error_handler returnStatus, dataBuffer) else
       ret (returnStatus, dataBuffer)
   end) s = Some ((code, buf'), s') ->
  summary frame s0 s' code (before ++ receives_raw n nack).
Proof. apply (receive_buf_tail frame frame_trans frame_self frame_timeOut). Qed.

Lemma write_summary address registerAddress s code s' :
  write address registerAddress s = Some (code, s') ->
  summary frame s s' code
    [EvStart; EvAddress (u8 (SLA_W address)); EvByte (u8 registerAddress)].
Proof.
  intros Hr. unfold write in Hr. cbv zeta in Hr.
  pose proof (running_refl frame frame_refl s) as Hrun.
  step Hr Hrun f_start. check Hr Hrun.
  step Hr Hrun f_address.
  step Hr Hrun f_byte. check Hr Hrun.
  eapply f_finish; [exact Hrun | exact Hr].
Qed.

Lemma write_u8_summary address registerAddress data s code s' :
  write_u8 address registerAddress data s = Some (code, s') ->
  summary frame s s' code
    [EvStart; EvAddress (u8 (SLA_W address)); EvByte (u8 registerAddress);
     EvByte (u8 data)].
Proof.
  intros Hr. unfold write_u8 in Hr. cbv zeta in Hr.
  pose proof (running_refl frame frame_refl s) as Hrun.
  step Hr Hrun f_start. check Hr Hrun.
  step Hr Hrun f_address.
  step Hr Hrun f_byte. check Hr Hrun.
  step Hr Hrun f_byte. check Hr Hrun.
  eapply f_finish; [exact Hrun | exact Hr].
Qed.

Lemma write_bytes_summary address registerAddress data numberBytes s code s' :
  write_bytes address registerAddress data numberBytes s = Some (code, s') ->
  summary frame s s' code
    ([EvStart; EvAddress (u8 (SLA_W address)); EvByte (u8 registerAddress)]
     ++ sends data (Z.to_nat numberBytes)).
Proof.
  intros Hr. unfold write_bytes in Hr. cbv zeta in Hr.
  pose proof (running_refl frame frame_refl s) as Hrun.
  step Hr Hrun f_start. check Hr Hrun.
  step Hr Hrun f_address.
  step Hr Hrun f_byte. check Hr Hrun.
  eapply f_send_tail; [exact Hrun | exact Hr].
Qed.

Lemma write16_summary address registerAddress s code s' :
  write16 address registerAddress s = Some (code, s') ->
  summary frame s s' code
    [EvStart; EvAddress (u8 (SLA_W address));
     EvByte (u8 (Z.shiftr registerAddress 8)); EvByte (u8 (Z.land registerAddress 255))].
Proof.
  intros Hr. unfold write16 in Hr.
  pose proof (running_refl frame frame_refl s) as Hrun.
  step Hr Hrun f_start. check Hr Hrun.
  step Hr Hrun f_address. check Hr Hrun.
  step Hr Hrun f_byte. check Hr Hrun.
  step Hr Hrun f_byte. check Hr Hrun.
  eapply f_finish; [exact Hrun | exact Hr].
Qed.

Lemma write16_u8_summary address registerAddress data s code s' :
  write16_u8 address registerAddress data s = Some (code, s') ->
  summary frame s s' code
    [EvStart; EvAddress (u8 (SLA_W address));
     EvByte (u8 (Z.shiftr registerAddress 8)); EvByte (u8 (Z.land registerAddress 255));
     EvByte (u8 data)].
Proof.
  intros Hr. unfold write16_u8 in Hr.
  pose proof (running_refl frame frame_refl s) as Hrun.
  step Hr Hrun f_start. check Hr Hrun.
  step Hr Hrun f_address. check Hr Hrun.
  step Hr Hrun f_byte. check Hr Hrun.
  step Hr Hrun f_byte. check Hr Hrun.
  step Hr Hrun f_byte. check Hr Hrun.
  eapply f_finish; [exact Hrun | exact Hr].
Qed.

Lemma write16_bytes_summary address registerAddress data numberBytes s code s' :
  write16_bytes address registerAddress data numberBytes s = Some (code, s') ->
  summary frame s s' code
    ([EvStart; EvAddress (u8 (SLA_W address));
      EvByte (u8 (Z.shiftr registerAddress 8)); EvByte (u8 (Z.land registerAddress 255))]
     ++ sends data (Z.to_nat numberBytes)).
Proof.
  intros Hr. unfold write16_bytes in Hr.
  pose proof (running_refl frame frame_refl s) as Hrun.
  step Hr Hrun f_start. check Hr Hrun.
  step Hr Hrun f_address. check Hr Hrun.
  step Hr Hrun f_byte. check Hr Hrun.
  step Hr Hrun f_byte. check Hr Hrun.
  eapply f_send_tail; [exact Hrun | exact Hr].
Qed.

Lemma read_buf_summary address numberBytes dataBuffer s code buf' s' :
  read_buf address numberBytes dataBuffer s = Some ((code, buf'), s') ->
  summary frame s s' code
    ([EvStart; EvAddress (u8 (SLA_R address))]
     ++ receives_raw (Z.to_nat (counted numberBytes)) (u8 (counted numberBytes - 1))).
Proof.
  intros Hr. unfold read_buf in Hr. cbv zeta in Hr.
  pose proof (running_refl frame frame_refl s) as Hrun.
  step Hr Hrun f_start. check Hr Hrun.
  step Hr Hrun f_address. check Hr Hrun.
  eapply f_receive_tail; [exact Hrun | exact Hr].
Qed.

Lemma read_buf_n16_summary address numberBytes dataBuffer s code buf' s' :
  read_buf_n16 address numberBytes dataBuffer s = Some ((code, buf'), s') ->
  summary frame s s' code
    ([EvStart; EvAddress (u8 (SLA_R address))]
     ++ receives_raw (Z.to_nat (counted16 numberBytes)) (u16 (counted16 numberBytes - 1))).
Proof.
  intros Hr. unfold read_buf_n16 in Hr. cbv zeta in Hr.
  pose proof (running_refl frame frame_refl s) as Hrun.
  step Hr Hrun f_start. check Hr Hrun.
  step Hr Hrun f_address. check Hr Hrun.
  eapply f_receive_tail; [exact Hrun | exact Hr].
Qed.

Lemma read_reg_buf_summary address registerAddress numberBytes dataBuffer s code buf' s' :
  read_reg_buf address registerAddress numberBytes dataBuffer s = Some ((code, buf'), s') ->
  summary frame s s' code
    ([EvStart; EvAddress (u8 (SLA_W address)); EvByte (u8 registerAddress);
      EvStart; EvAddress (u8 (SLA_R address))]
     ++ receives_raw (Z.to_nat (counted numberBytes)) (u8 (counted numberBytes - 1))).
Proof.
  intros Hr. unfold read_reg_buf in Hr. cbv zeta in Hr.
  pose proof (running_refl frame frame_refl s) as Hrun.
  step Hr Hrun f_start. check Hr Hrun.
  step Hr Hrun f_address. check Hr Hrun.
  step Hr Hrun f_byte. check Hr Hrun.
  step Hr Hrun f_start. check Hr Hrun.
  step Hr Hrun f_address. check Hr Hrun.
  eapply f_receive_tail; [exact Hrun | exact Hr].
Qed.

Lemma read_reg_buf_n16_summary address registerAddress numberBytes dataBuffer
    s code buf' s' :
  read_reg_buf_n16 address registerAddress numberBytes dataBuffer s
    = Some ((code, buf'), s') ->
  summary frame s s' code
    ([EvStart; EvAddress (u8 (SLA_W address)); EvByte (u8 registerAddress);
      EvStart; EvAddress (u8 (SLA_R address))]
     ++ receives_raw (Z.to_nat (counted16 numberBytes)) (u16 (counted16 numberBytes - 1))).
Proof.
  intros Hr. unfold read_reg_buf_n16 in Hr. cbv zeta in Hr.
  pose proof (running_refl frame frame_refl s) as Hrun.
  step Hr Hrun f_start. check Hr Hrun.
  step Hr Hrun f_address. check Hr Hrun.
  step Hr Hrun f_byte. check Hr Hrun.
  step Hr Hrun f_start. check Hr Hrun.
  step Hr Hrun f_address. check Hr Hrun.
  eapply f_receive_tail; [exact Hrun | exact Hr].
Qed.

Lemma read16_buf_summary address registerAddress numberBytes dataBuffer s code buf' s' :
  read16_buf address registerAddress numberBytes dataBuffer s = Some ((code, buf'), s') ->
  summary frame s s' code
    ([EvStart; EvAddress (u8 (SLA_W address));
      EvByte (u8 (Z.shiftr registerAddress 8)); EvByte (u8 (Z.land registerAddress 255));
      EvStart; EvAddress (u8 (SLA_R address))]
     ++ receives_raw (Z.to_nat (counted numberBytes)) (u8 (counted numberBytes - 1))).
Proof.
  intros Hr. unfold read16_buf in Hr. cbv zeta in Hr.
  pose proof (running_refl frame frame_refl s) as Hrun.
  step Hr Hrun f_start. check Hr Hrun.
  step Hr Hrun f_address. check Hr Hrun.
  step Hr Hrun f_byte. check Hr Hrun.
  step Hr Hrun f_byte. check Hr Hrun.
  step Hr Hrun f_start. check Hr Hrun.
  step Hr Hrun f_address. check Hr Hrun.
  eapply f_receive_tail; [exact Hrun | exact Hr].
Qed.

End Summaries.

(** ** The reads into the internal buffer as sequences *)

Lemma kept_timeOut s s' : kept s s' -> timeOutDelay s' = timeOutDelay s.
Proof. intros (HT & _). exact HT. Qed.

Section InternalReads.
Context `{Header}.

Lemma k_start s0 s asked c s' :
  running kept s0 s asked -> _start s = Some (c, s') ->
  running kept s0 s' (asked ++ [EvStart]) /\ prim_code s0 c.
Proof. apply (step_start kept kept_trans frame_kept kept_timeOut). Qed.

Lemma k_address a s0 s asked c s' :
  running kept s0 s asked -> _sendAddress a s = Some (c, s') ->
  running kept s0 s' (asked ++ [EvAddress (u8 a)]) /\ prim_code s0 c.
Proof. apply (step_sendAddress kept kept_trans frame_kept kept_timeOut). Qed.

Lemma k_byte b s0 s asked c s' :
  running kept s0 s asked -> _sendByte b s = Some (c, s') ->
  running kept s0 s' (asked ++ [EvByte (u8 b)]) /\ prim_code s0 c.
Proof. apply (step_sendByte kept kept_trans frame_kept kept_timeOut). Qed.

Lemma receive_loop_run todo : forall i nack s0 s asked r s',
  running kept s0 s asked ->
  receive_loop todo i nack s = Some (r, s') -> 0 <= i ->
  exists k, (k <= todo)%nat /\
    running kept s0 s'
      (asked ++ map (fun j => EvReceive (if Z.of_nat j =? nack then 0 else 1))
                    (seq (Z.to_nat i) k)) /\
    match r with
    | Next => k = todo
    | Return code => result_code s0 code /\ code <> 0
    end.
Proof.
  induction todo as [|todo IH]; intros i nack s0 s asked r s' Hrun Hr Hi.
  { injection Hr as <- <-. exists 0%nat. cbn. rewrite app_nil_r. auto. }
  cbn [receive_loop] in Hr.
  bind_step Hr c s1 Hc.
  assert (Hstep : running kept s0 s1
            (asked ++ [EvReceive (if Z.of_nat (Z.to_nat i) =? nack then 0 else 1)]) /\
          prim_code s0 c).
  { rewrite Z2Nat.id by lia.
    destruct (i =? nack);
      eapply (step_receiveByte kept kept_trans frame_kept kept_timeOut); eassumption. }
  clear Hc Hrun. destruct Hstep as (Hrun & Hp).
  destruct (truthy c) eqn:T.
  - injection Hr as <- <-. exists 1%nat. split; [lia|]. split; [exact Hrun|].
    apply (mapped_result s0 c); [exact Hp | apply truthy_true, T | apply mapped_receive].
  - unfold bind at 1 2 3, modify in Hr.
    assert (Hrun2 : running kept s0
              (set_totalBytes (u8 (i + 1))
                 (set_bytesAvailable (u8 (i + 1))
                    (set_data (<[Z.to_nat i := TWDR s1]> (data s1)) s1)))
              (asked ++ [EvReceive (if Z.of_nat (Z.to_nat i) =? nack then 0 else 1)])).
    { destruct Hrun as ((HT & Hc & Hl) & Hw). split; [|exact Hw].
      split; [exact HT|]. split; [exact Hc|].
      cbn. rewrite length_insert. exact Hl. }
    destruct (IH _ _ _ _ _ _ _ Hrun2 Hr ltac:(lia)) as (k & Hk & Hrun' & Hres).
    exists (S k). split; [lia|]. split.
    + replace (Z.to_nat (i + 1)) with (S (Z.to_nat i)) in Hrun' by lia.
      rewrite (seq_map_snoc_shift
                 (fun j => EvReceive (if Z.of_nat j =? nack then 0 else 1))) in Hrun'.
      exact Hrun'.
    + destruct r; [exact Hres | lia].
Qed.

Lemma k_receive_tail s0 s before n nack code s' :
  running kept s0 s before ->
  (r <- receive_loop n 0 nack ;;
   match r with
   | Return code => ret code
   | Next =>
       returnStatus <- _stop ;;
       if truthy returnStatus then ret (stop_error_handler returnStatus) else
       ret returnStatus
   end) s = Some (code, s') ->
  summary kept s0 s' code (before ++ receives_raw n nack).
Proof.
  intros Hrun Hr. bind_step Hr r s1 Hloop.
  destruct (receive_loop_run _ _ _ _ _ _ _ _ Hrun Hloop ltac:(lia))
    as (k & Hk & Hrun' & Hres).
  change (Z.to_nat 0) with 0%nat in Hrun'.
  destruct r as [c|].
  - injection Hr as <- <-. destruct Hres as (Hcode & Hnz). destruct Hrun' as (Hf & Hw).
    split; [exact Hf|]. split; [exact Hcode|].
    eexists. split; [exact Hw|]. split; [|intros; contradiction].
    apply prefix_app, seq_map_prefix, Hk.
  - subst k. eapply (finish kept kept_trans frame_kept kept_timeOut); [exact Hrun' | exact Hr].
Qed.

Lemma running_reset s :
  running kept s (set_bufferIndex 0 (set_bytesAvailable 0 s)) [].
Proof. split; [repeat split | apply (went_refl s)]. Qed.

Lemma read_summary address numberBytes s code s' :
  read address numberBytes s = Some (code, s') ->
  summary kept s s' code
    ([EvStart; EvAddress (u8 (SLA_R address))]
     ++ receives_raw (Z.to_nat (counted (u8 (Z.min numberBytes MAX_BUFFER_SIZE))))
                     (u8 (counted (u8 (Z.min numberBytes MAX_BUFFER_SIZE)) - 1))).
Proof.
  intros Hr. unfold read in Hr. cbv zeta in Hr.
  unfold bind at 1 2, modify in Hr.
  pose proof (running_reset s) as Hrun.
  step Hr Hrun k_start. check Hr Hrun.
  step Hr Hrun k_address. check Hr Hrun.
  eapply k_receive_tail; [exact Hrun | exact Hr].
Qed.

Lemma read_reg_summary address registerAddress numberBytes s code s' :
  read_reg address registerAddress numberBytes s = Some (code, s') ->
  summary kept s s' code
    ([EvStart; EvAddress (u8 (SLA_W address)); EvByte (u8 registerAddress);
      EvStart; EvAddress (u8 (SLA_R address))]
     ++ receives_raw (Z.to_nat (counted (u8 (Z.min numberBytes MAX_BUFFER_SIZE))))
                     (u8 (counted (u8 (Z.min numberBytes MAX_BUFFER_SIZE)) - 1))).
Proof.
  intros Hr. unfold read_reg in Hr. cbv zeta in Hr.
  unfold bind at 1 2, modify in Hr.
  pose proof (running_reset s) as Hrun.
  step Hr Hrun k_start. check Hr Hrun.
  step Hr Hrun k_address. check Hr Hrun.
  step Hr Hrun k_byte. check Hr Hrun.
  step Hr Hrun k_start. check Hr Hrun.
  step Hr Hrun k_address. check Hr Hrun.
  eapply k_receive_tail; [exact Hrun | exact Hr].
Qed.

Lemma read16_summary address registerAddress numberBytes s code s' :
  read16 address registerAddress numberBytes s = Some (code, s') ->
  summary kept s s' code
    ([EvStart; EvAddress (u8 (SLA_W address));
      EvByte (u8 (Z.shiftr registerAddress 8)); EvByte (u8 (Z.land registerAddress 255));
      EvStart; EvAddress (u8 (SLA_R address))]
     ++ receives_raw (Z.to_nat (counted (u8 (Z.min numberBytes MAX_BUFFER_SIZE))))
                     (u8 (counted (u8 (Z.min numberBytes MAX_BUFFER_SIZE)) - 1))).
Proof.
  intros Hr. unfold read16 in Hr. cbv zeta in Hr.
  unfold bind at 1 2, modify in Hr.
  pose proof (running_reset s) as Hrun.
  step Hr Hrun k_start. check Hr Hrun.
  step Hr Hrun k_address. check Hr Hrun.
  step Hr Hrun k_byte. check Hr Hrun.
  step Hr Hrun k_byte. check Hr Hrun.
  step Hr Hrun k_start. check Hr Hrun.
  step Hr Hrun k_address. check Hr Hrun.
  eapply k_receive_tail; [exact Hrun | exact Hr].
Qed.

End InternalReads.

(** ** Result codes, kept state and order of phases of the entry points *)

Lemma land_248_range m : 0 <= Z.land m 248 <= 248 /\ Z.land m 248 mod 8 = 0.
Proof.
  assert (Hm : Z.land m 248 = Z.land (m mod 256) 248).
  { change 256 with (2 ^ 8). rewrite <- Z.land_ones by lia.
    rewrite <- Z.land_assoc. reflexivity. }
  rewrite Hm. pose proof (Z.mod_pos_bound m 256 ltac:(lia)) as Hb.
  set (x := m mod 256) in *. clearbody x.
  assert (Hall : forallb (fun n => let y := Z.land (Z.of_nat n) 248 in
                            (0 <=? y) && (y <=? 248) && (y mod 8 =? 0)) (seq 0 256) = true)
    by (vm_compute; reflexivity).
  rewrite forallb_forall in Hall.
  specialize (Hall (Z.to_nat x)). rewrite Z2Nat.id in Hall by lia.
  assert (Hin : In (Z.to_nat x) (seq 0 256)) by (apply in_seq; lia).
  apply Hall in Hin. cbv zeta in Hin.
  apply andb_prop in Hin. destruct Hin as (Hin & H8).
  apply andb_prop in Hin. destruct Hin as (H0 & H248).
  apply Z.leb_le in H0, H248. apply Z.eqb_eq in H8. auto.
Qed.

Lemma raw_range c : raw c -> 0 <= c <= 248 /\ c mod 8 = 0.
Proof. unfold raw. intros <-. apply land_248_range. Qed.

Lemma sends_take (data : list Z) n :
  (n <= length data)%nat -> sends data n = bytes_of (take n data).
Proof.
  intros Hn. unfold sends, bytes_of.
  rewrite <- (map_map (fun j => u8 (default 0 (data !! j))) EvByte).
  rewrite read_bytes_take by exact Hn.
  rewrite <- (map_map u8 EvByte). f_equal. apply firstn_map.
Qed.

Lemma counted_max n :
  0 <= n <= 255 -> counted n = Z.max n 1 /\ u8 (counted n - 1) = Z.max n 1 - 1.
Proof.
  intros Hn. unfold counted, u8. destruct (n =? 0) eqn:E.
  - apply Z.eqb_eq in E. subst n. split; reflexivity.
  - apply Z.eqb_neq in E. rewrite Z.mod_small by lia. lia.
Qed.

Lemma counted16_max n :
  0 <= n <= 65535 -> counted16 n = Z.max n 1 /\ u16 (counted16 n - 1) = Z.max n 1 - 1.
Proof.
  intros Hn. unfold counted16, u16. destruct (n =? 0) eqn:E.
  - apply Z.eqb_eq in E. subst n. split; reflexivity.
  - apply Z.eqb_neq in E. rewrite Z.mod_small by lia. lia.
Qed.

(** All receives but the last are acknowledged. *)
Lemma receives_shape m :
  1 <= m ->
  receives m = repeat (EvReceive 1) (Z.to_nat (m - 1)) ++ [EvReceive 0].
Proof.
  intros Hm. unfold receives, receives_raw.
  replace (Z.to_nat m) with (S (Z.to_nat (m - 1))) by lia.
  rewrite seq_S, map_app. cbn [map Nat.add]. f_equal.
  - transitivity (map (fun _ : nat => EvReceive 1) (seq 0 (Z.to_nat (m - 1)))).
    + apply map_ext_in. intros i Hi. apply in_seq in Hi.
      destruct (Z.of_nat i =? m - 1) eqn:E; [apply Z.eqb_eq in E; lia | reflexivity].
    + rewrite map_const, length_seq. reflexivity.
  - rewrite Z2Nat.id by lia. rewrite Z.eqb_refl. reflexivity.
Qed.

Lemma code_of_run (m : M (Z * list Z)) s code s' :
  code_of m s = Some (code, s') -> exists buf, m s = Some ((code, buf), s').
Proof.
  unfold code_of. destruct (m s) as [[[c b] s1]|]; [|discriminate].
  intros Hr. injection Hr as <- <-. exists b. reflexivity.
Qed.

Section EntryPoints.
Context `{Header}.

(** X2: whatever the peripheral does, every entry point returns 0, a raw
    status (a multiple of 8 up to 0xF8) or one of the time-out codes 1..7,
    and a time-out code only when a time-out is configured. *)
Theorem entry_point_result_codes (address registerAddress data numberBytes : Z)
    (bytes dataBuffer : list Z) :
  returns_codes (write address registerAddress) /\
  returns_codes (write_u8 address registerAddress data) /\
  returns_codes (write_bytes address registerAddress bytes numberBytes) /\
  returns_codes (write16 address registerAddress) /\
  returns_codes (write16_u8 address registerAddress data) /\
  returns_codes (write16_bytes address registerAddress bytes numberBytes) /\
  returns_codes (read address numberBytes) /\
  returns_codes (read_reg address registerAddress numberBytes) /\
  returns_codes (read16 address registerAddress numberBytes) /\
  returns_codes (code_of (read_buf address numberBytes dataBuffer)) /\
  returns_codes (code_of (read_buf_n16 address numberBytes dataBuffer)) /\
  returns_codes (code_of (read_reg_buf address registerAddress numberBytes dataBuffer)) /\
  returns_codes (code_of (read_reg_buf_n16 address registerAddress numberBytes dataBuffer)) /\
  returns_codes (code_of (read16_buf address registerAddress numberBytes dataBuffer)) /\
  (forall s code, result_code s code ->
     (code = 0 \/ 1 <= code <= 7 \/ (8 <= code <= 248 /\ code mod 8 = 0)) /\
     (timeOutDelay s = 0 -> ~ 1 <= code <= 7)).
Proof.
  split; [intros s code s' Hr; apply write_summary in Hr; apply Hr|].
  split; [intros s code s' Hr; apply write_u8_summary in Hr; apply Hr|].
  split; [intros s code s' Hr; apply write_bytes_summary in Hr; apply Hr|].
  split; [intros s code s' Hr; apply write16_summary in Hr; apply Hr|].
  split; [intros s code s' Hr; apply write16_u8_summary in Hr; apply Hr|].
  split; [intros s code s' Hr; apply write16_bytes_summary in Hr; apply Hr|].
  split; [intros s code s' Hr; apply read_summary in Hr; apply Hr|].
  split; [intros s code s' Hr; apply read_reg_summary in Hr; apply Hr|].
  split; [intros s code s' Hr; apply read16_summary in Hr; apply Hr|].
  split; [intros s code s' Hr; apply code_of_run in Hr; destruct Hr as (buf & Hr);
          apply read_buf_summary in Hr; apply Hr|].
  split; [intros s code s' Hr; apply code_of_run in Hr; destruct Hr as (buf & Hr);
          apply read_buf_n16_summary in Hr; apply Hr|].
  split; [intros s code s' Hr; apply code_of_run in Hr; destruct Hr as (buf & Hr);
          apply read_reg_buf_summary in Hr; apply Hr|].
  split; [intros s code s' Hr; apply code_of_run in Hr; destruct Hr as (buf & Hr);
          apply read_reg_buf_n16_summary in Hr; apply Hr|].
  split; [intros s code s' Hr; apply code_of_run in Hr; destruct Hr as (buf & Hr);
          apply read16_buf_summary in Hr; apply Hr|].
  intros s code Hres. split.
  - destruct Hres as [Hraw|(Hc & HT)]; [|auto].
    apply raw_range in Hraw. destruct Hraw as (Hb & H8).
    pose proof (Z.div_mod code 8 ltac:(lia)).
    destruct (Z.eq_dec code 0); [auto|]. right. right. lia.
  - intros HT Hc. destruct Hres as [Hraw|(_ & HT')]; [|contradiction].
    apply raw_range in Hraw. pose proof (Z.div_mod code 8 ltac:(lia)). lia.
Qed.

(** X3: no write and no read into a caller's buffer touches the receive
    buffer, its counters, the time-out or the console; a read into the
    internal buffer keeps the time-out, the console and the size of the
    buffer. *)
Theorem entry_points_keep_state (address registerAddress data numberBytes : Z)
    (bytes dataBuffer : list Z) :
  keeps frame (write address registerAddress) /\
  keeps frame (write_u8 address registerAddress data) /\
  keeps frame (write_bytes address registerAddress bytes numberBytes) /\
  keeps frame (write16 address registerAddress) /\
  keeps frame (write16_u8 address registerAddress data) /\
  keeps frame (write16_bytes address registerAddress bytes numberBytes) /\
  keeps frame (code_of (read_buf address numberBytes dataBuffer)) /\
  keeps frame (code_of (read_buf_n16 address numberBytes dataBuffer)) /\
  keeps frame (code_of (read_reg_buf address registerAddress numberBytes dataBuffer)) /\
  keeps frame (code_of (read_reg_buf_n16 address registerAddress numberBytes dataBuffer)) /\
  keeps frame (code_of (read16_buf address registerAddress numberBytes dataBuffer)) /\
  keeps kept (read address numberBytes) /\
  keeps kept (read_reg address registerAddress numberBytes) /\
  keeps kept (read16 address registerAddress numberBytes).
Proof.
  split; [intros s code s' Hr; apply write_summary in Hr; apply Hr|].
  split; [intros s code s' Hr; apply write_u8_summary in Hr; apply Hr|].
  split; [intros s code s' Hr; apply write_bytes_summary in Hr; apply Hr|].
  split; [intros s code s' Hr; apply write16_summary in Hr; apply Hr|].
  split; [intros s code s' Hr; apply write16_u8_summary in Hr; apply Hr|].
  split; [intros s code s' Hr; apply write16_bytes_summary in Hr; apply Hr|].
  split; [intros s code s' Hr; apply code_of_run in Hr; destruct Hr as (buf & Hr);
          apply read_buf_summary in Hr; apply Hr|].
  split; [intros s code s' Hr; apply code_of_run in Hr; destruct Hr as (buf & Hr);
          apply read_buf_n16_summary in Hr; apply Hr|].
  split; [intros s code s' Hr; apply code_of_run in Hr; destruct Hr as (buf & Hr);
          apply read_reg_buf_summary in Hr; apply Hr|].
  split; [intros s code s' Hr; apply code_of_run in Hr; destruct Hr as (buf & Hr);
          apply read_reg_buf_n16_summary in Hr; apply Hr|].
  split; [intros s code s' Hr; apply code_of_run in Hr; destruct Hr as (buf & Hr);
          apply read16_buf_summary in Hr; apply Hr|].
  split; [intros s code s' Hr; apply read_summary in Hr; apply Hr|].
  split; [intros s code s' Hr; apply read_reg_summary in Hr; apply Hr|].
  intros s code s' Hr; apply read16_summary in Hr; apply Hr.
Qed.

(** X4: every write asks the bus, in this order, for a start condition,
    the address with the write bit, the register address (one byte, or two
    with the high byte first) and the data bytes [data[0..numberBytes-1]];
    when it fails it has asked for a first part of that, and when it
    returns 0 for all of it, closed by a stop condition. *)
Theorem writes_follow_protocol (address registerAddress data numberBytes : Z)
    (bytes : list Z) :
  follows (write address registerAddress)
    [EvStart; EvAddress (u8 (SLA_W address)); EvByte (u8 registerAddress)] /\
  follows (write_u8 address registerAddress data)
    [EvStart; EvAddress (u8 (SLA_W address)); EvByte (u8 registerAddress);
     EvByte (u8 data)] /\
  ((Z.to_nat numberBytes <= length bytes)%nat ->
   follows (write_bytes address registerAddress bytes numberBytes)
     ([EvStart; EvAddress (u8 (SLA_W address)); EvByte (u8 registerAddress)]
      ++ bytes_of (take (Z.to_nat numberBytes) bytes))) /\
  follows (write16 address registerAddress)
    [EvStart; EvAddress (u8 (SLA_W address));
     EvByte (u8 (Z.shiftr registerAddress 8)); EvByte (u8 (Z.land registerAddress 255))] /\
  follows (write16_u8 address registerAddress data)
    [EvStart; EvAddress (u8 (SLA_W address));
     EvByte (u8 (Z.shiftr registerAddress 8)); EvByte (u8 (Z.land registerAddress 255));
     EvByte (u8 data)] /\
  ((Z.to_nat numberBytes <= length bytes)%nat ->
   follows (write16_bytes address registerAddress bytes numberBytes)
     ([EvStart; EvAddress (u8 (SLA_W address));
       EvByte (u8 (Z.shiftr registerAddress 8)); EvByte (u8 (Z.land registerAddress 255))]
      ++ bytes_of (take (Z.to_nat numberBytes) bytes))) /\
  (0 <= address <= 127 -> u8 (SLA_W address) = 2 * address).
Proof.
  split; [intros s code s' Hr; apply write_summary in Hr; apply Hr|].
  split; [intros s code s' Hr; apply write_u8_summary in Hr; apply Hr|].
  split; [intros Hlen s code s' Hr; apply write_bytes_summary in Hr;
          rewrite sends_take in Hr by exact Hlen; apply Hr|].
  split; [intros s code s' Hr; apply write16_summary in Hr; apply Hr|].
  split; [intros s code s' Hr; apply write16_u8_summary in Hr; apply Hr|].
  split; [intros Hlen s code s' Hr; apply write16_bytes_summary in Hr;
          rewrite sends_take in Hr by exact Hlen; apply Hr|].
  intros Ha. unfold u8, SLA_W. rewrite Z.shiftl_mul_pow2 by lia.
  rewrite Z.mod_small; lia.
Qed.

(** X5: every read asks the bus, in this order, for a start condition,
    for a register read the address with the write bit, the register
    address, a repeated start, then the address with the read bit and the
    receives, each acknowledged except the last; the count is max(n, 1)
    into a caller's buffer and the capped count into the internal one.
    When it fails it has asked for a first part of that, and when it
    returns 0 for all of it, closed by a stop condition. *)
Theorem reads_follow_protocol (address registerAddress numberBytes : Z)
    (dataBuffer : list Z) :
  (0 <= numberBytes <= 255 -> 1 <= MAX_BUFFER_SIZE ->
   follows (read address numberBytes)
     ([EvStart; EvAddress (u8 (SLA_R address))] ++ receives (capped_count numberBytes)) /\
   follows (read_reg address registerAddress numberBytes)
     ([EvStart; EvAddress (u8 (SLA_W address)); EvByte (u8 registerAddress);
       EvStart; EvAddress (u8 (SLA_R address))] ++ receives (capped_count numberBytes)) /\
   follows (read16 address registerAddress numberBytes)
     ([EvStart; EvAddress (u8 (SLA_W address));
       EvByte (u8 (Z.shiftr registerAddress 8)); EvByte (u8 (Z.land registerAddress 255));
       EvStart; EvAddress (u8 (SLA_R address))] ++ receives (capped_count numberBytes))) /\
  (0 <= numberBytes <= 255 ->
   follows (code_of (read_buf address numberBytes dataBuffer))
     ([EvStart; EvAddress (u8 (SLA_R address))] ++ receives (Z.max numberBytes 1)) /\
   follows (code_of (read_reg_buf address registerAddress numberBytes dataBuffer))
     ([EvStart; EvAddress (u8 (SLA_W address)); EvByte (u8 registerAddress);
       EvStart; EvAddress (u8 (SLA_R address))] ++ receives (Z.max numberBytes 1)) /\
   follows (code_of (read16_buf address registerAddress numberBytes dataBuffer))
     ([EvStart; EvAddress (u8 (SLA_W address));
       EvByte (u8 (Z.shiftr registerAddress 8)); EvByte (u8 (Z.land registerAddress 255));
       EvStart; EvAddress (u8 (SLA_R address))] ++ receives (Z.max numberBytes 1))) /\
  (0 <= numberBytes <= 65535 ->
   follows (code_of (read_buf_n16 address numberBytes dataBuffer))
     ([EvStart; EvAddress (u8 (SLA_R address))] ++ receives (Z.max numberBytes 1)) /\
   follows (code_of (read_reg_buf_n16 address registerAddress numberBytes dataBuffer))
     ([EvStart; EvAddress (u8 (SLA_W address)); EvByte (u8 registerAddress);
       EvStart; EvAddress (u8 (SLA_R address))] ++ receives (Z.max numberBytes 1))) /\
  (forall m, 1 <= m ->
     receives m = repeat (EvReceive 1) (Z.to_nat (m - 1)) ++ [EvReceive 0]) /\
  (0 <= address <= 127 -> u8 (SLA_R address) = 2 * address + 1).
Proof.
  split; [|split; [|split; [|split]]].
  - intros Hn Hcap.
    destruct (clamp_count numberBytes Hn Hcap) as (Hclamp & Hrange & _).
    fold (counted (u8 (Z.min numberBytes MAX_BUFFER_SIZE))) in Hclamp.
    assert (Hnack : u8 (capped_count numberBytes - 1) = capped_count numberBytes - 1)
      by (unfold u8; apply Z.mod_small; lia).
    split; [|split]; intros s code s' Hr.
    + apply read_summary in Hr. rewrite Hclamp, Hnack in Hr. apply Hr.
    + apply read_reg_summary in Hr. rewrite Hclamp, Hnack in Hr. apply Hr.
    + apply read16_summary in Hr. rewrite Hclamp, Hnack in Hr. apply Hr.
  - intros Hn. destruct (counted_max numberBytes Hn) as (Hc & Hnack).
    split; [|split]; intros s code s' Hr;
      apply code_of_run in Hr; destruct Hr as (buf & Hr).
    + apply read_buf_summary in Hr. rewrite Hnack, Hc in Hr. apply Hr.
    + apply read_reg_buf_summary in Hr. rewrite Hnack, Hc in Hr. apply Hr.
    + apply read16_buf_summary in Hr. rewrite Hnack, Hc in Hr. apply Hr.
  - intros Hn. destruct (counted16_max numberBytes Hn) as (Hc & Hnack).
    split; intros s code s' Hr;
      apply code_of_run in Hr; destruct Hr as (buf & Hr).
    + apply read_buf_n16_summary in Hr. rewrite Hnack, Hc in Hr. apply Hr.
    + apply read_reg_buf_n16_summary in Hr. rewrite Hnack, Hc in Hr. apply Hr.
  - apply receives_shape.
  - intros Ha. unfold u8, SLA_R. rewrite Z.shiftl_mul_pow2 by lia.
    rewrite Z.mod_small; lia.
Qed.

End EntryPoints.

(** ** Taking the bytes out of the internal buffer *)

(** One call of [receive] with bytes left: the oldest unread byte. *)
Lemma receive_next s :
  0 < bytesAvailable s <= totalBytes s -> totalBytes s <= 255 ->
  receive s =
    Some (default 0 (data s !! Z.to_nat (totalBytes s - bytesAvailable s)),
          set_bytesAvailable (bytesAvailable s - 1)
            (set_bufferIndex (totalBytes s - bytesAvailable s) s)).
Proof.
  intros Hba Htb. unfold receive, bind, gets, modify, ret. cbn.
  unfold truthy. destruct (bytesAvailable s =? 0) eqn:E; [apply Z.eqb_eq in E; lia|].
  cbn. unfold u8. rewrite !Z.mod_small by lia. reflexivity.
Qed.

Lemma drain_spec k : forall s,
  Z.of_nat k <= bytesAvailable s <= totalBytes s -> totalBytes s <= 255 ->
  (Z.to_nat (totalBytes s) <= length (data s))%nat ->
  exists s',
    drain k s = Some (take k (drop (Z.to_nat (totalBytes s - bytesAvailable s)) (data s)), s') /\
    bytesAvailable s' = bytesAvailable s - Z.of_nat k /\
    totalBytes s' = totalBytes s /\
    data s' = data s /\
    timeOutDelay s' = timeOutDelay s /\
    trace s' = trace s.
Proof.
  induction k as [|k IH]; intros s Hba Htb Hlen.
  { exists s. cbn. repeat split. lia. }
  cbn [drain]. unfold bind at 1. rewrite receive_next by lia.
  set (s1 := set_bytesAvailable (bytesAvailable s - 1)
               (set_bufferIndex (totalBytes s - bytesAvailable s) s)).
  destruct (IH s1) as (s' & Hd & Hba' & Htb' & Hdata & HT & Htr);
    [cbn; lia | cbn; lia | exact Hlen |].
  unfold bind at 1. rewrite Hd. cbn [ret].
  exists s'. split.
  - f_equal. f_equal.
    cbn [totalBytes bytesAvailable data s1 set_bytesAvailable set_bufferIndex].
    destruct (lookup_lt_is_Some_2 (data s) (Z.to_nat (totalBytes s - bytesAvailable s)))
      as (x & Hx); [clear -Hba Htb Hlen; lia|].
    rewrite Hx. cbn [default].
    rewrite (drop_S _ _ _ Hx). cbn [take].
    replace (Z.to_nat (totalBytes s - (bytesAvailable s - 1)))
      with (S (Z.to_nat (totalBytes s - bytesAvailable s))) by (clear -Hba; lia).
    reflexivity.
  - cbn in Hba', Htb', Hdata, HT, Htr. repeat split; try assumption. lia.
Qed.

Section Fifo.
Context `{Header}.

(** X6: [receive] hands out the buffered bytes oldest first: with
    [bytesAvailable] of the [totalBytes] buffered bytes still unread, [k]
    calls return the next [k] bytes of the buffer in order and leave
    [bytesAvailable - k]; nothing else of the driver changes but the
    cursor. *)
Theorem receive_is_fifo (k : nat) (s : State) :
  Z.of_nat k <= bytesAvailable s <= totalBytes s -> totalBytes s <= 255 ->
  (Z.to_nat (totalBytes s) <= length (data s))%nat ->
  exists s',
    drain k s = Some (take k (drop (Z.to_nat (totalBytes s - bytesAvailable s)) (data s)), s') /\
    available s' = Some (bytesAvailable s - Z.of_nat k, s') /\
    totalBytes s' = totalBytes s /\
    data s' = data s /\
    timeOutDelay s' = timeOutDelay s /\
    trace s' = trace s.
Proof.
  intros Hba Htb Hlen.
  destruct (drain_spec k s Hba Htb Hlen) as (s' & Hd & Hba' & Hrest).
  exists s'. split; [exact Hd|]. split; [|exact Hrest].
  unfold available, gets. rewrite Hba'. reflexivity.
Qed.

Lemma receive_empty (t : State) :
  bytesAvailable t = 0 -> receive t = Some (0, set_bufferIndex 0 t).
Proof.
  intros Ht. unfold receive, bind, gets, modify, ret. cbn. rewrite Ht. reflexivity.
Qed.

Lemma receive_loop_counters todo : forall i nack s s',
  receive_loop todo i nack s = Some (Next, s') ->
  0 <= i -> i + Z.of_nat todo <= 255 ->
  bufferIndex s' = bufferIndex s /\
  length (data s') = length (data s) /\
  (todo = 0%nat ->
     bytesAvailable s' = bytesAvailable s /\ totalBytes s' = totalBytes s) /\
  (todo <> 0%nat ->
     bytesAvailable s' = i + Z.of_nat todo /\ totalBytes s' = i + Z.of_nat todo).
Proof.
  induction todo as [|todo IH]; intros i nack s s' Hr Hi Hmax.
  { injection Hr as <-. repeat split; contradiction. }
  cbn [receive_loop] in Hr. bind_step Hr c s1 Hc.
  assert (Hf : frame s s1).
  { destruct (i =? nack); apply _receiveByte_spec in Hc; apply Hc. }
  destruct Hf as (_ & Hbi & _ & _ & Hd & _).
  destruct (truthy c); [discriminate|].
  unfold bind at 1 2 3, modify in Hr.
  apply IH in Hr; [|lia|lia]. destruct Hr as (Hbi' & Hlen & Hsame & Hcnt).
  cbn in Hbi', Hlen, Hsame. rewrite length_insert in Hlen.
  split; [congruence|]. split; [congruence|]. split; [discriminate|]. intros _.
  assert (Hu : u8 (i + 1) = i + 1) by (unfold u8; apply Z.mod_small; lia).
  destruct todo as [|todo'].
  - destruct (Hsame eq_refl) as (Hb & Ht). rewrite Hb, Ht, Hu. split; lia.
  - destruct (Hcnt ltac:(lia)) as (Hb & Ht). split; lia.
Qed.

Lemma read_tail_counters nb nack s s' :
  (r <- receive_loop (Z.to_nat nb) 0 nack ;;
   match r with
   | Return code => ret code
   | Next =>
       returnStatus <- _stop ;;
       if truthy returnStatus then ret (stop_error_handler returnStatus) else
       ret returnStatus
   end) s = Some (0, s') ->
  1 <= nb <= 255 ->
  bufferIndex s' = bufferIndex s /\
  length (data s') = length (data s) /\
  bytesAvailable s' = nb /\ totalBytes s' = nb.
Proof.
  intros Hr Hnb. bind_step Hr r s1 Hloop.
  destruct r as [c|].
  { injection Hr as -> _.
    destruct (receive_loop_run _ _ _ _ _ _ _ _ (running_refl kept kept_refl s) Hloop
                ltac:(lia)) as (k & _ & _ & _ & Hc).
    contradiction. }
  apply receive_loop_counters in Hloop; [|lia|lia].
  destruct Hloop as (Hbi & Hlen & _ & Hcnt).
  destruct (Hcnt ltac:(lia)) as (Hb & Ht). rewrite Z2Nat.id in Hb, Ht by lia.
  bind_step Hr c2 s2 Hstop. apply _stop_spec in Hstop.
  destruct Hstop as ((Hb2 & Hbi2 & Ht2 & _ & Hd2 & _) & _).
  assert (Hs' : s' = s2) by (destruct (truthy c2); injection Hr as _ <-; reflexivity).
  subst s'. rewrite Hb2, Hbi2, Ht2, Hd2. repeat split; try assumption; lia.
Qed.

Ltac check0 Hr :=
  lazymatch type of Hr with
  | (if truthy ?c then _ else _) _ = Some _ =>
      let T := fresh "T" in let Hh := fresh "Hh" in
      destruct (truthy c) eqn:T;
      [ injection Hr as Hh _; exfalso; revert Hh;
        first [ apply start_error_handler_nonzero | apply send_addr_error_handler_nonzero
              | apply send_error_handler_nonzero | apply receive_error_handler_nonzero
              | apply stop_error_handler_nonzero ];
        apply truthy_true; exact T
      | apply truthy_false in T; subst c ]
  end.

Ltac frame_step Hr Hf L :=
  let c := fresh "c" in let s1 := fresh "s" in let Hc := fresh "Hc" in
  bind_step Hr c s1 Hc;
  apply L in Hc; apply proj1 in Hc;
  apply (frame_trans _ _ _ Hf) in Hc; clear Hf; rename Hc into Hf.

(** After a successful read into the internal buffer the counters say how
    many bytes were stored from index 0 on. *)
Lemma internal_read_counters n :
  0 <= n <= 255 -> 1 <= MAX_BUFFER_SIZE ->
  (forall address s s', read address n s = Some (0, s') ->
     bytesAvailable s' = capped_count n /\ totalBytes s' = capped_count n /\
     length (data s') = length (data s)) /\
  (forall address registerAddress s s',
     read_reg address registerAddress n s = Some (0, s') ->
     bytesAvailable s' = capped_count n /\ totalBytes s' = capped_count n /\
     length (data s') = length (data s)) /\
  (forall address registerAddress s s',
     read16 address registerAddress n s = Some (0, s') ->
     bytesAvailable s' = capped_count n /\ totalBytes s' = capped_count n /\
     length (data s') = length (data s)).
Proof.
  intros Hn Hcap.
  destruct (clamp_count n Hn Hcap) as (Hclamp & Hrange & _).
  split; [|split].
  - intros address s s' Hr. unfold read in Hr. cbv zeta in Hr. rewrite Hclamp in Hr.
    unfold bind at 1 2, modify in Hr.
    pose proof (frame_refl (set_bufferIndex 0 (set_bytesAvailable 0 s))) as Hf.
    frame_step Hr Hf _start_spec. check0 Hr.
    frame_step Hr Hf _sendAddress_spec. check0 Hr.
    apply read_tail_counters in Hr; [|lia].
    destruct Hf as (_ & _ & _ & _ & Hd & _). cbn in Hd.
    destruct Hr as (_ & Hlen & Hb & Ht). rewrite Hd in Hlen. auto.
  - intros address registerAddress s s' Hr. unfold read_reg in Hr. cbv zeta in Hr.
    rewrite Hclamp in Hr. unfold bind at 1 2, modify in Hr.
    pose proof (frame_refl (set_bufferIndex 0 (set_bytesAvailable 0 s))) as Hf.
    frame_step Hr Hf _start_spec. check0 Hr.
    frame_step Hr Hf _sendAddress_spec. check0 Hr.
    frame_step Hr Hf _sendByte_spec. check0 Hr.
    frame_step Hr Hf _start_spec. check0 Hr.
    frame_step Hr Hf _sendAddress_spec. check0 Hr.
    apply read_tail_counters in Hr; [|lia].
    destruct Hf as (_ & _ & _ & _ & Hd & _). cbn in Hd.
    destruct Hr as (_ & Hlen & Hb & Ht). rewrite Hd in Hlen. auto.
  - intros address registerAddress s s' Hr. unfold read16 in Hr. cbv zeta in Hr.
    rewrite Hclamp in Hr. unfold bind at 1 2, modify in Hr.
    pose proof (frame_refl (set_bufferIndex 0 (set_bytesAvailable 0 s))) as Hf.
    frame_step Hr Hf _start_spec. check0 Hr.
    frame_step Hr Hf _sendAddress_spec. check0 Hr.
    frame_step Hr Hf _sendByte_spec. check0 Hr.
    frame_step Hr Hf _sendByte_spec. check0 Hr.
    frame_step Hr Hf _start_spec. check0 Hr.
    frame_step Hr Hf _sendAddress_spec. check0 Hr.
    apply read_tail_counters in Hr; [|lia].
    destruct Hf as (_ & _ & _ & _ & Hd & _). cbn in Hd.
    destruct Hr as (_ & Hlen & Hb & Ht). rewrite Hd in Hlen. auto.
Qed.

(** X7: after a successful read of [n] bytes into the internal buffer,
    [available] reports the capped count [m], [m] calls of [receive]
    return the first [m] bytes of the buffer in the order they were
    stored, and every further call returns 0. *)
Theorem read_then_receive (n : Z) (s s' : State) :
  0 <= n <= 255 -> 1 <= MAX_BUFFER_SIZE ->
  (Z.to_nat (capped_count n) <= length (data s))%nat ->
  (exists address, read address n s = Some (0, s')) \/
  (exists address registerAddress, read_reg address registerAddress n s = Some (0, s')) \/
  (exists address registerAddress, read16 address registerAddress n s = Some (0, s')) ->
  available s' = Some (capped_count n, s') /\
  exists s'',
    drain (Z.to_nat (capped_count n)) s'
      = Some (take (Z.to_nat (capped_count n)) (data s'), s'') /\
    available s'' = Some (0, s'') /\
    receive s'' = Some (0, set_bufferIndex 0 s'').
Proof.
  intros Hn Hcap Hlen Hrun.
  destruct (clamp_count n Hn Hcap) as (_ & Hrange & _).
  destruct (internal_read_counters n Hn Hcap) as (H1 & H2 & H3).
  assert (Hcnt : bytesAvailable s' = capped_count n /\ totalBytes s' = capped_count n /\
                 length (data s') = length (data s)).
  { destruct Hrun as [(a & Hr)|[(a & r & Hr)|(a & r & Hr)]]; eauto. }
  destruct Hcnt as (Hb & Ht & Hl).
  split; [unfold available, gets; rewrite Hb; reflexivity|].
  destruct (drain_spec (Z.to_nat (capped_count n)) s') as (s'' & Hd & Hb'' & _);
    [lia | lia | rewrite Hl, Ht; exact Hlen |].
  rewrite Hb, Ht, Z.sub_diag in Hd. change (Z.to_nat 0) with 0%nat in Hd. cbn [drop] in Hd.
  exists s''. split; [exact Hd|].
  assert (Hz : bytesAvailable s'' = 0) by lia.
  split; [unfold available, gets; rewrite Hz; reflexivity | apply receive_empty, Hz].
Qed.

End Fifo.

(** ** Returning and blocking *)

Lemma returns_ret {A} (a : A) : returns (ret a).
Proof. intros s _ _. exists a, s. split; reflexivity. Qed.

Lemma returns_bind {A B} (m : M A) (k : A -> M B) :
  returns m -> (forall a, returns (k a)) -> returns (bind m k).
Proof.
  intros Hm Hk s Hnz Hlt. destruct (Hm s Hnz Hlt) as (a & s1 & Hr & HT).
  destruct (Hk a s1) as (b & s2 & Hr2 & HT2); [congruence | congruence |].
  exists b, s2. unfold bind. rewrite Hr. split; [exact Hr2 | congruence].
Qed.

Lemma returns_modify (f : State -> State) :
  (forall s, timeOutDelay (f s) = timeOutDelay s) -> returns (modify f).
Proof. intros Hf s _ _. exists tt, (f s). split; [reflexivity | apply Hf]. Qed.

Lemma returns_gets {A} (f : State -> A) : returns (gets f).
Proof. intros s _ _. exists (f s), s. split; reflexivity. Qed.

Section Returning.
Context `{Header}.

Lemma _start_returns : returns _start.
Proof. intros s. apply _start_total. Qed.

Lemma _stop_returns : returns _stop.
Proof. intros s. apply _stop_total. Qed.

Lemma _sendAddress_returns a : returns (_sendAddress a).
Proof. intros s. apply _sendAddress_total. Qed.

Lemma _sendByte_returns b : returns (_sendByte b).
Proof.
  intros s Hnz Hlt.
  destruct (_sendByte b s) as [[c s']|] eqn:Hr.
  - exists c, s'. split; [reflexivity|]. apply _sendByte_spec in Hr. apply Hr.
  - exfalso. unfold _sendByte in Hr.
    set (s0 := issue (EvByte (u8 b)) (set_TWDR (u8 b) s)) in *.
    destruct (wait_total (millis (set_TWDR (u8 b) s)) s0 Hnz Hlt) as [[t s1] Hw].
    rewrite Hw in Hr. pose proof (wait_spec _ _ _ _ Hw) as (Hf & _).
    destruct t; [discriminate|].
    destruct (TWI_STATUS s1 =? MT_DATA_ACK); [discriminate|].
    destruct (TWI_STATUS s1 =? MT_DATA_NACK); [|discriminate].
    destruct (_stop_total s1) as (c2 & s2 & Hstop & _).
    { destruct Hf as (_ & _ & _ & -> & _). exact Hnz. }
    { destruct Hf as (_ & _ & _ & -> & _). exact Hlt. }
    unfold bind in Hr. rewrite Hstop in Hr. discriminate.
Qed.

Lemma _receiveByte_returns ack : returns (_receiveByte ack).
Proof.
  intros s Hnz Hlt.
  destruct (_receiveByte ack s) as [[c s']|] eqn:Hr.
  - exists c, s'. split; [reflexivity|]. apply _receiveByte_spec in Hr. apply Hr.
  - exfalso. unfold _receiveByte in Hr.
    destruct (wait_total (millis s) (issue (EvReceive ack) s) Hnz Hlt) as [[t s1] Hw].
    rewrite Hw in Hr.
    destruct t; [discriminate|].
    destruct (TWI_STATUS s1 =? LOST_ARBTRTN); [discriminate|].
    destruct (truthy ack);
      [destruct (TWI_STATUS s1 =? MR_DATA_ACK) | destruct (TWI_STATUS s1 =? MR_DATA_NACK)];
      discriminate.
Qed.

Ltac returning :=
  cbv zeta;
  repeat first
    [ apply returns_ret
    | apply _start_returns | apply _stop_returns | apply _sendAddress_returns
    | apply _sendByte_returns | apply _receiveByte_returns
    | apply returns_gets
    | apply returns_modify; intros; reflexivity
    | apply returns_bind; [|intros ?]
    | match goal with |- returns (if ?b then _ else _) => destruct b end
    | match goal with |- returns (match ?r with _ => _ end) => destruct r end ].

Lemma send_loop_returns todo : forall i data, returns (send_loop todo i data).
Proof.
  induction todo as [|todo IH]; intros i data; cbn [send_loop]; returning. apply IH.
Qed.

Lemma receive_loop_returns todo : forall i nack, returns (receive_loop todo i nack).
Proof.
  induction todo as [|todo IH]; intros i nack; cbn [receive_loop]; returning; apply IH.
Qed.

Lemma receive_buf_loop_returns todo : forall i nack buf,
  returns (receive_buf_loop todo i nack buf).
Proof.
  induction todo as [|todo IH]; intros i nack buf; cbn [receive_buf_loop]; returning;
    apply IH.
Qed.

Lemma _start_blocks s :
  timeOutDelay s = 0 -> unanswered s -> _start s = None.
Proof.
  intros HT Hun. unfold _start, wait.
  rewrite spin_stalled_forever; [reflexivity | | exact HT].
  cbn. unfold unanswered in Hun. destruct (script s) as [|[|] ?]; [reflexivity | contradiction | reflexivity].
Qed.

(** X8: with a time-out configured (below 2^32 ms) every entry point
    returns, whatever the peripheral does or fails to do, and leaves the
    time-out as configured. *)
Theorem entry_points_return (address registerAddress data numberBytes : Z)
    (bytes dataBuffer : list Z) :
  returns (write address registerAddress) /\
  returns (write_u8 address registerAddress data) /\
  returns (write_bytes address registerAddress bytes numberBytes) /\
  returns (write16 address registerAddress) /\
  returns (write16_u8 address registerAddress data) /\
  returns (write16_bytes address registerAddress bytes numberBytes) /\
  returns (read address numberBytes) /\
  returns (read_reg address registerAddress numberBytes) /\
  returns (read16 address registerAddress numberBytes) /\
  returns (read_buf address numberBytes dataBuffer) /\
  returns (read_buf_n16 address numberBytes dataBuffer) /\
  returns (read_reg_buf address registerAddress numberBytes dataBuffer) /\
  returns (read_reg_buf_n16 address registerAddress numberBytes dataBuffer) /\
  returns (read16_buf address registerAddress numberBytes dataBuffer).
Proof.
  split; [unfold write; returning|].
  split; [unfold write_u8; returning|].
  split; [unfold write_bytes; returning; apply send_loop_returns|].
  split; [unfold write16; returning|].
  split; [unfold write16_u8; returning|].
  split; [unfold write16_bytes; returning; apply send_loop_returns|].
  split; [unfold read; returning; apply receive_loop_returns|].
  split; [unfold read_reg; returning; apply receive_loop_returns|].
  split; [unfold read16; returning; apply receive_loop_returns|].
  split; [unfold read_buf; returning; apply receive_buf_loop_returns|].
  split; [unfold read_buf_n16; returning; apply receive_buf_loop_returns|].
  split; [unfold read_reg_buf; returning; apply receive_buf_loop_returns|].
  split; [unfold read_reg_buf_n16; returning; apply receive_buf_loop_returns|].
  unfold read16_buf; returning; apply receive_buf_loop_returns.
Qed.

(** X9: with the time-out disabled (0) and a peripheral that does not
    answer the start condition, no entry point ever returns. *)
Theorem entry_points_block_without_timeout (address registerAddress data numberBytes : Z)
    (bytes dataBuffer : list Z) (s : State) :
  timeOutDelay s = 0 -> unanswered s ->
  write address registerAddress s = None /\
  write_u8 address registerAddress data s = None /\
  write_bytes address registerAddress bytes numberBytes s = None /\
  write16 address registerAddress s = None /\
  write16_u8 address registerAddress data s = None /\
  write16_bytes address registerAddress bytes numberBytes s = None /\
  read address numberBytes s = None /\
  read_reg address registerAddress numberBytes s = None /\
  read16 address registerAddress numberBytes s = None /\
  read_buf address numberBytes dataBuffer s = None /\
  read_buf_n16 address numberBytes dataBuffer s = None /\
  read_reg_buf address registerAddress numberBytes dataBuffer s = None /\
  read_reg_buf_n16 address registerAddress numberBytes dataBuffer s = None /\
  read16_buf address registerAddress numberBytes dataBuffer s = None.
Proof.
  intros HT Hun.
  assert (Hreset : _start (set_bufferIndex 0 (set_bytesAvailable 0 s)) = None)
    by (apply _start_blocks; assumption).
  pose proof (_start_blocks s HT Hun) as Hstart.
  unfold write, write_u8, write_bytes, write16, write16_u8, write16_bytes,
    read, read_reg, read16, read_buf, read_buf_n16, read_reg_buf, read_reg_buf_n16,
    read16_buf.
  cbv zeta. unfold bind, modify. rewrite Hstart, Hreset.
  repeat split; reflexivity.
Qed.

End Returning.

(** ** What [scan] prints *)

Section Scan.
Context `{Header}.

Lemma scan_loop_report todo : forall a tempTime total s r total' s',
  scan_loop todo a tempTime total s = Some ((r, total'), s') ->
  0 <= a -> a + Z.of_nat todo <= 128 -> 0 <= total -> total + Z.of_nat todo <= 255 ->
  exists found,
    console s' = console s ++ map LnFound found
                 ++ (match r with Return _ => [LnBusProblem] | Next => [] end) /\
    total' = total + Z.of_nat (length found) /\
    found `sublist_of` map Z.of_nat (seq (Z.to_nat a) todo) /\
    bytesAvailable s' = bytesAvailable s /\ bufferIndex s' = bufferIndex s /\
    totalBytes s' = totalBytes s /\ data s' = data s.
Proof.
  induction todo as [|todo IH]; intros a tempTime total s r total' s' Hr Ha Hmax Ht Htot.
  { injection Hr as <- <- <-. exists []. cbn. rewrite app_nil_r.
    repeat split; first [lia | apply sublist_nil_l]. }
  cbn [scan_loop] in Hr.
  bind_step Hr c1 s1 H1. apply _start_spec in H1. destruct H1 as (Hf1 & _).
  bind_step Hr c2 s2 H2.
  assert (Hf2 : frame s1 s2).
  { destruct (negb (truthy c1)).
    - apply _sendAddress_spec in H2. apply H2.
    - injection H2 as _ <-. apply frame_refl. }
  pose proof (frame_trans _ _ _ Hf1 Hf2) as Hf. clear Hf1 Hf2 H2.
  assert (Hu : u8 (a + 1) = a + 1) by (unfold u8; apply Z.mod_small; lia).
  assert (Hseq : map Z.of_nat (seq (Z.to_nat a) (S todo))
                 = a :: map Z.of_nat (seq (Z.to_nat (a + 1)) todo)).
  { cbn [seq map]. rewrite Z2Nat.id by lia. do 3 f_equal. lia. }
  destruct (truthy c2).
  - destruct (c2 =? 1).
    + unfold bind, modify, ret in Hr. injection Hr as <- <- <-.
      exists []. cbn. destruct Hf as (Hb & Hbi & Htb & _ & Hd & Hc).
      rewrite Hc. repeat split; first [assumption | lia | apply sublist_nil_l].
    + bind_step Hr c3 s3 H3. apply _stop_spec in H3. destruct H3 as (Hf3 & _).
      pose proof (frame_trans _ _ _ Hf Hf3) as Hf'.
      rewrite Hu in Hr. apply IH in Hr; [|lia|lia|lia|lia].
      destruct Hr as (found & Hcon & Htotal & Hsub & Hb & Hbi & Htb & Hd).
      destruct Hf' as (Hb' & Hbi' & Htb' & _ & Hd' & Hc').
      exists found. rewrite Hseq.
      repeat split; first [congruence | lia | apply sublist_cons, Hsub].
  - unfold bind at 1, modify in Hr.
    bind_step Hr c3 s3 H3. apply _stop_spec in H3. destruct H3 as (Hf3 & _).
    assert (Hu' : u8 (total + 1) = total + 1) by (unfold u8; apply Z.mod_small; lia).
    rewrite Hu, Hu' in Hr. apply IH in Hr; [|lia|lia|lia|lia].
    destruct Hr as (found & Hcon & Htotal & Hsub & Hb & Hbi & Htb & Hd).
    destruct Hf as (Hb' & Hbi' & Htb' & _ & Hd' & Hc').
    destruct Hf3 as (Hb3 & Hbi3 & Htb3 & _ & Hd3 & Hc3).
    cbn in Hb3, Hbi3, Htb3, Hd3, Hc3.
    exists (a :: found). rewrite Hseq.
    split; [rewrite Hcon, Hc3, Hc', <- app_assoc; reflexivity|].
    split; [cbn [length]; lia|].
    split; [apply sublist_skip, Hsub|].
    repeat split; congruence.
Qed.

(** X10: [scan] prints the heading, then one line for each address it
    found, addresses of 0..127 in increasing order and none twice, and then
    either the bus-problem line of the early exit, or "No devices found"
    exactly when it went through all addresses and found none.  It leaves
    the receive buffer and its counters untouched. *)
Theorem scan_report (s s' : State) :
  scan s = Some (tt, s') ->
  exists found,
    found `sublist_of` map Z.of_nat (seq 0 128) /\
    (console s' = console s ++ [LnScanning; LnBlank] ++ map LnFound found
                  ++ [LnBusProblem] \/
     (found = [] /\ console s' = console s ++ [LnScanning; LnBlank; LnNoDevices]) \/
     (found <> [] /\
      console s' = console s ++ [LnScanning; LnBlank] ++ map LnFound found)) /\
    bytesAvailable s' = bytesAvailable s /\ bufferIndex s' = bufferIndex s /\
    totalBytes s' = totalBytes s /\ data s' = data s.
Proof.
  unfold scan, timeOut, gets, modify. unfold bind at 1 2 3 4 5. intros Hr.
  set (s0 := println LnBlank (println LnScanning (set_timeOutDelay (u16 80) s))) in Hr.
  bind_step Hr r s1 Hloop. destruct r as (r & total).
  apply scan_loop_report in Hloop; [|lia|cbn; lia|lia|cbn; lia].
  destruct Hloop as (found & Hcon & Htotal & Hsub & Hb & Hbi & Htb & Hd).
  change (console s0) with ((console s ++ [LnScanning]) ++ [LnBlank]) in Hcon.
  rewrite <- !app_assoc in Hcon. cbn [app] in Hcon.
  exists found. split; [exact Hsub|].
  destruct r as [[]|].
  - injection Hr as <-. split; [left; exact Hcon|]. auto.
  - rewrite app_nil_r in Hcon. unfold bind in Hr.
    destruct (negb (truthy total)) eqn:E; cbn in Hr; injection Hr as <-; cbn.
    + apply negb_true_iff, truthy_false in E.
      assert (Hnil : found = []) by (destruct found; [reflexivity | cbn in Htotal; lia]).
      subst found. split; [|auto]. right. left. split; [reflexivity|].
      rewrite Hcon, <- app_assoc. reflexivity.
    + apply negb_false_iff, truthy_true in E.
      assert (Hne : found <> []) by (intros ->; cbn in Htotal; lia).
      split; [|auto]. right. right. split; [exact Hne | exact Hcon].
Qed.

End Scan.

(** ** Text writes, overloads that agree, and the caller's buffer *)

Lemma strlen_terminated (str rest : list Z) :
  Forall (fun c => c <> 0) str ->
  strlen (str ++ 0 :: rest) = Z.of_nat (length str).
Proof.
  induction 1 as [|c str Hc _ IH]; [reflexivity|].
  cbn [app strlen length]. apply Z.eqb_neq in Hc. rewrite Hc, IH. lia.
Qed.

Section Overloads.
Context `{Header}.

Lemma receive_buf_loop_bounds todo : forall i nack (buf : list Z) s r buf' s',
  receive_buf_loop todo i nack buf s = Some ((r, buf'), s') ->
  0 <= i ->
  length buf' = length buf /\
  take (Z.to_nat i) buf' = take (Z.to_nat i) buf /\
  drop (Z.to_nat i + todo) buf' = drop (Z.to_nat i + todo) buf.
Proof.
  induction todo as [|todo IH]; intros i nack buf s r buf' s' Hr Hi.
  { injection Hr as _ <- _. auto. }
  cbn [receive_buf_loop] in Hr. bind_step Hr c s1 Hc. clear Hc.
  destruct (truthy c).
  { injection Hr as _ <- _. auto. }
  unfold bind at 1, gets in Hr.
  apply IH in Hr; [|lia]. destruct Hr as (Hlen & Htake & Hdrop).
  rewrite length_insert in Hlen.
  replace (Z.to_nat (i + 1)) with (S (Z.to_nat i)) in * by lia.
  split; [exact Hlen|]. split.
  - apply (f_equal (take (Z.to_nat i))) in Htake.
    rewrite !take_take in Htake.
    replace (Z.to_nat i `min` S (Z.to_nat i))%nat with (Z.to_nat i) in Htake by lia.
    rewrite take_insert_ge in Htake by lia. exact Htake.
  - replace (Z.to_nat i + S todo)%nat with (S (Z.to_nat i) + todo)%nat by lia.
    rewrite Hdrop. apply drop_insert_lt. lia.
Qed.


(** X11: the text overloads send the characters before the terminating
    NUL, and of a text of [L] characters only the first [L mod 256]: the
    length is kept in a [uint8_t]. *)
Theorem text_writes_send_strlen_mod_256 (address registerAddress : Z)
    (str rest : list Z) :
  Forall (fun c => c <> 0) str ->
  follows (write_str address registerAddress (str ++ 0 :: rest))
    ([EvStart; EvAddress (u8 (SLA_W address)); EvByte (u8 registerAddress)]
     ++ bytes_of (take (Z.to_nat (Z.of_nat (length str) mod 256)) str)) /\
  follows (write16_str address registerAddress (str ++ 0 :: rest))
    ([EvStart; EvAddress (u8 (SLA_W address));
      EvByte (u8 (Z.shiftr registerAddress 8)); EvByte (u8 (Z.land registerAddress 255))]
     ++ bytes_of (take (Z.to_nat (Z.of_nat (length str) mod 256)) str)).
Proof.
  intros Hstr.
  assert (Hle : (Z.to_nat (Z.of_nat (length str) mod 256) <= length str)%nat).
  { pose proof (Z.mod_le (Z.of_nat (length str)) 256 ltac:(lia) ltac:(lia)).
    pose proof (Z.mod_pos_bound (Z.of_nat (length str)) 256 ltac:(lia)). lia. }
  assert (Hsends : sends (str ++ 0 :: rest) (Z.to_nat (Z.of_nat (length str) mod 256))
                   = bytes_of (take (Z.to_nat (Z.of_nat (length str) mod 256)) str)).
  { rewrite sends_take by (rewrite length_app; lia).
    rewrite take_app_le by exact Hle. reflexivity. }
  split; intros s code s' Hr.
  - unfold write_str in Hr. cbv zeta in Hr. rewrite strlen_terminated in Hr by exact Hstr.
    apply write_bytes_summary in Hr.
    change (u8 (Z.of_nat (length str))) with (Z.of_nat (length str) mod 256) in Hr.
    rewrite Hsends in Hr. apply Hr.
  - unfold write16_str in Hr. cbv zeta in Hr. rewrite strlen_terminated in Hr by exact Hstr.
    apply write16_bytes_summary in Hr.
    change (u8 (Z.of_nat (length str))) with (Z.of_nat (length str) mod 256) in Hr.
    rewrite Hsends in Hr. apply Hr.
Qed.

Ltac run_both :=
  repeat match goal with
  | |- context [match ?m ?s with Some _ => _ | None => _ end] =>
      destruct (m s) as [[? ?]|]; [|reflexivity]
  | |- context [if truthy ?c then _ else _] => destruct (truthy c); [reflexivity|]
  end.

(** X12: overloads that do the same.  The write of a register address
    alone is the block write of no bytes, and the write of one byte the
    block write of that byte; a read into a caller's buffer with a 16-bit
    count is, for a count up to 255, the read with the 8-bit count. *)
Theorem overloads_agree (address registerAddress data numberBytes : Z)
    (bytes dataBuffer : list Z) (s : State) :
  write address registerAddress s = write_bytes address registerAddress bytes 0 s /\
  write_u8 address registerAddress data s
    = write_bytes address registerAddress [data] 1 s /\
  (0 <= numberBytes <= 255 ->
   read_buf_n16 address numberBytes dataBuffer s
     = read_buf address numberBytes dataBuffer s /\
   read_reg_buf_n16 address registerAddress numberBytes dataBuffer s
     = read_reg_buf address registerAddress numberBytes dataBuffer s).
Proof.
  split; [|split].
  - unfold write, write_bytes. cbv zeta. cbn [Z.to_nat send_loop].
    unfold bind, ret. run_both. reflexivity.
  - unfold write_u8, write_bytes. cbv zeta.
    change (Z.to_nat 1) with 1%nat. cbn [send_loop].
    change (default 0 ([data] !! Z.to_nat 0)) with data.
    unfold bind, ret. run_both. reflexivity.
  - intros Hn.
    assert (Hc : (if numberBytes =? 0 then u16 (numberBytes + 1) else numberBytes)
                 = (if numberBytes =? 0 then u8 (numberBytes + 1) else numberBytes)).
    { destruct (numberBytes =? 0) eqn:E; [|reflexivity].
      apply Z.eqb_eq in E. subst. reflexivity. }
    assert (Hk : u16 ((if numberBytes =? 0 then u8 (numberBytes + 1) else numberBytes) - 1)
                 = u8 ((if numberBytes =? 0 then u8 (numberBytes + 1) else numberBytes) - 1)).
    { destruct (numberBytes =? 0) eqn:E.
      - apply Z.eqb_eq in E. subst. reflexivity.
      - apply Z.eqb_neq in E. unfold u16, u8. rewrite !Z.mod_small by lia. reflexivity. }
    unfold read_buf_n16, read_buf, read_reg_buf_n16, read_reg_buf. cbv zeta.
    rewrite Hc, Hk. split; reflexivity.
Qed.

Ltac pass Hr :=
  let c := fresh "c" in let s1 := fresh "s" in let Hc := fresh "Hc" in
  bind_step Hr c s1 Hc; clear Hc;
  destruct (truthy c); [injection Hr as _ <- _; auto|].

Lemma receive_buf_tail_bounds n nack (buf : list Z) s code buf' s' :
  (r <- receive_buf_loop n 0 nack buf ;;
   match r with
   | (Return code, dataBuffer) => ret (code, dataBuffer)
   | (Next, dataBuffer) =>
       returnStatus <- _stop ;;
       if truthy returnStatus then ret (stop_error_handler returnStatus, dataBuffer) else
       ret (returnStatus, dataBuffer)
   end) s = Some ((code, buf'), s') ->
  length buf' = length buf /\ drop n buf' = drop n buf.
Proof.
  intros Hr. bind_step Hr r s1 Hloop. destruct r as (r & buf1).
  apply receive_buf_loop_bounds in Hloop; [|lia]. destruct Hloop as (Hlen & _ & Hdrop).
  change (Z.to_nat 0 + n)%nat with n in Hdrop.
  destruct r as [c|].
  - injection Hr as _ <- _. auto.
  - bind_step Hr c2 s2 Hstop. destruct (truthy c2); injection Hr as _ <- _; auto.
Qed.

(** X13: a read into a caller's buffer with room for max(n, 1) bytes
    stores at most that many, at the front: the buffer keeps its length,
    and every entry from index max(n, 1) on is what it was, whether the
    read succeeds or fails. *)
Theorem caller_buffer_bounds (address registerAddress numberBytes : Z)
    (dataBuffer : list Z) (s : State) (code : Z) (buf' : list Z) (s' : State) :
  0 <= numberBytes -> (Z.to_nat (Z.max numberBytes 1) <= length dataBuffer)%nat ->
  (read_buf address numberBytes dataBuffer s = Some ((code, buf'), s') \/
   read_buf_n16 address numberBytes dataBuffer s = Some ((code, buf'), s') \/
   read_reg_buf address registerAddress numberBytes dataBuffer s = Some ((code, buf'), s') \/
   read_reg_buf_n16 address registerAddress numberBytes dataBuffer s
     = Some ((code, buf'), s') \/
   read16_buf address registerAddress numberBytes dataBuffer s = Some ((code, buf'), s')) ->
  length buf' = length dataBuffer /\
  drop (Z.to_nat (Z.max numberBytes 1)) buf' = drop (Z.to_nat (Z.max numberBytes 1)) dataBuffer.
Proof.
  intros Hn _ Hrun.
  assert (H8 : Z.to_nat (if numberBytes =? 0 then u8 (numberBytes + 1) else numberBytes)
               = Z.to_nat (Z.max numberBytes 1)).
  { destruct (numberBytes =? 0) eqn:E.
    - apply Z.eqb_eq in E. subst. reflexivity.
    - apply Z.eqb_neq in E. f_equal. lia. }
  assert (H16 : Z.to_nat (if numberBytes =? 0 then u16 (numberBytes + 1) else numberBytes)
                = Z.to_nat (Z.max numberBytes 1)).
  { destruct (numberBytes =? 0) eqn:E.
    - apply Z.eqb_eq in E. subst. reflexivity.
    - apply Z.eqb_neq in E. f_equal. lia. }
  destruct Hrun as [Hr|[Hr|[Hr|[Hr|Hr]]]].
  - unfold read_buf in Hr. cbv zeta in Hr. rewrite H8 in Hr.
    pass Hr. pass Hr. apply receive_buf_tail_bounds in Hr. exact Hr.
  - unfold read_buf_n16 in Hr. cbv zeta in Hr. rewrite H16 in Hr.
    pass Hr. pass Hr. apply receive_buf_tail_bounds in Hr. exact Hr.
  - unfold read_reg_buf in Hr. cbv zeta in Hr. rewrite H8 in Hr.
    pass Hr. pass Hr. pass Hr. pass Hr. pass Hr.
    apply receive_buf_tail_bounds in Hr. exact Hr.
  - unfold read_reg_buf_n16 in Hr. cbv zeta in Hr. rewrite H16 in Hr.
    pass Hr. pass Hr. pass Hr. pass Hr. pass Hr.
    apply receive_buf_tail_bounds in Hr. exact Hr.
  - unfold read16_buf in Hr. cbv zeta in Hr. rewrite H8 in Hr.
    pass Hr. pass Hr. pass Hr. pass Hr. pass Hr. pass Hr.
    apply receive_buf_tail_bounds in Hr. exact Hr.
Qed.

End Overloads.

(** ** A peripheral that answers in time *)

Lemma spin_prompt fuel : forall k st s polls status dr,
  pending s = Ready polls status dr ->
  (timeOutDelay s = 0 \/
   (Z.of_nat polls <= timeOutDelay s < 4294967296 /\ u32 (clock s - st) = Z.of_nat k)) ->
  (k <= polls)%nat -> (polls - k < fuel)%nat ->
  exists s1, spin fuel k st s = Some (false, s1) /\
    TWSR s1 = u8 status /\
    TWDR s1 = match dr with Some b => u8 b | None => TWDR s end.
Proof.
  induction fuel as [|fuel IH]; intros k st s polls status dr Hp Hprompt Hk Hfuel; [lia|].
  cbn [spin]. rewrite Hp. cbn [flag_up].
  destruct (polls <=? k)%nat eqn:E.
  { eexists. split; [reflexivity|]. destruct dr; split; reflexivity. }
  apply Nat.leb_gt in E.
  assert (Hnext : exists s1, spin fuel (S k) st (tick s) = Some (false, s1) /\
            TWSR s1 = u8 status /\
            TWDR s1 = match dr with Some b => u8 b | None => TWDR s end).
  { apply (IH (S k) st (tick s) polls status dr); [exact Hp | | lia | lia].
    destruct Hprompt as [Hz|(Hb & Hel)]; [left; exact Hz|]. right.
    split; [exact Hb|].
    change (clock (tick s)) with (u32 (clock s + 1)).
    rewrite u32_tick_elapsed, Hel. unfold u32. rewrite Z.mod_small; lia. }
  destruct Hprompt as [Hz|(Hb & Hel)].
  - rewrite Hz. cbn. exact Hnext.
  - destruct (timeOutDelay s =? 0); [exact Hnext|].
    unfold millis. rewrite Hel.
    destruct (Z.of_nat k >=? timeOutDelay s) eqn:Hge; [|exact Hnext].
    rewrite Z.geb_leb in Hge. apply Z.leb_le in Hge. lia.
Qed.

(** The phase issued from [s] with answer [Ready polls status dr] in
    time: the loop ends with the registers of the answer. *)
Lemma wait_prompt e s polls status dr rest :
  script s = Ready polls status dr :: rest -> prompt s polls ->
  exists s1, wait (millis s) (issue e s) = Some (false, s1) /\
    frame s s1 /\ script s1 = rest /\
    trace s1 = trace s ++ [e] /\
    TWSR s1 = u8 status /\
    TWDR s1 = match dr with Some b => u8 b | None => TWDR s end.
Proof.
  intros Hsc Hpr.
  assert (Hp : pending (issue e s) = Ready polls status dr) by (cbn; rewrite Hsc; reflexivity).
  destruct (spin_prompt (S polls) 0 (millis s) (issue e s) polls status dr Hp) as (s1 & Hs & HS & HD).
  - destruct Hpr as [Hz|Hb]; [left; exact Hz|]. right. split; [exact Hb|].
    cbn. unfold millis, u32. rewrite Z.sub_diag. reflexivity.
  - lia.
  - lia.
  - exists s1. unfold wait, poll_budget. rewrite Hp.
    split; [exact Hs|]. apply spin_spec in Hs. destruct Hs as (Hf & Hscr & Htr).
    split; [eapply frame_trans; [apply frame_issue | exact Hf]|].
    split; [rewrite Hscr; cbn; rewrite Hsc; reflexivity|].
    split; [rewrite Htr, app_nil_r; reflexivity|].
    split; [exact HS | exact HD].
Qed.

Lemma raw_status c : raw c -> Z.land (u8 c) 248 = c.
Proof.
  intros Hr. pose proof (raw_range c Hr) as (Hb & _).
  unfold u8. rewrite Z.mod_small by lia. exact Hr.
Qed.

Section Answered.
Context `{Header}.

Lemma _start_answered s polls dr rest :
  raw START -> script s = Ready polls START dr :: rest -> prompt s polls ->
  exists s1, _start s = Some (0, s1) /\ frame s s1 /\ script s1 = rest.
Proof.
  intros Hraw Hsc Hpr.
  destruct (wait_prompt EvStart s polls START dr rest Hsc Hpr)
    as (s1 & Hw & Hf & Hscr & _ & HS & _).
  exists s1. unfold _start. rewrite Hw. unfold TWI_STATUS. rewrite HS, (raw_status _ Hraw).
  rewrite Z.eqb_refl. cbn. auto.
Qed.

Lemma _sendAddress_answered a s polls dr rest :
  raw MR_SLA_ACK -> script s = Ready polls MR_SLA_ACK dr :: rest -> prompt s polls ->
  exists s1, _sendAddress a s = Some (0, s1) /\ frame s s1 /\ script s1 = rest.
Proof.
  intros Hraw Hsc Hpr.
  destruct (wait_prompt (EvAddress (u8 a)) (set_TWDR (u8 a) s) polls MR_SLA_ACK dr rest
              Hsc Hpr) as (s1 & Hw & Hf & Hscr & _ & HS & _).
  exists s1. unfold _sendAddress. cbv zeta. rewrite Hw.
  unfold TWI_STATUS. rewrite HS, (raw_status _ Hraw).
  rewrite Z.eqb_refl, orb_true_r.
  split; [reflexivity|]. split; [|exact Hscr].
  eapply frame_trans; [|exact Hf]. repeat split.
Qed.

Lemma _receiveByte_answered ack s polls b rest :
  raw MR_DATA_ACK -> raw MR_DATA_NACK ->
  MR_DATA_ACK <> LOST_ARBTRTN -> MR_DATA_NACK <> LOST_ARBTRTN ->
  script s = Ready polls (if truthy ack then MR_DATA_ACK else MR_DATA_NACK) (Some b) :: rest ->
  prompt s polls ->
  exists s1, _receiveByte ack s = Some (0, s1) /\ frame s s1 /\ script s1 = rest /\
    TWDR s1 = u8 b.
Proof.
  intros Hra Hrn Hla Hln Hsc Hpr.
  destruct (wait_prompt (EvReceive ack) s polls _ (Some b) rest Hsc Hpr)
    as (s1 & Hw & Hf & Hscr & _ & HS & HD).
  exists s1. unfold _receiveByte. rewrite Hw. unfold TWI_STATUS. rewrite HS.
  destruct (truthy ack).
  - rewrite (raw_status _ Hra). apply Z.eqb_neq in Hla. rewrite Hla, Z.eqb_refl. auto.
  - rewrite (raw_status _ Hrn). apply Z.eqb_neq in Hln. rewrite Hln, Z.eqb_refl. auto.
Qed.

Lemma _stop_answered s polls status dr rest :
  script s = Ready polls status dr :: rest -> prompt s polls ->
  exists s1, _stop s = Some (0, s1) /\ frame s s1 /\ script s1 = rest.
Proof.
  intros Hsc Hpr.
  destruct (wait_prompt EvStop s polls status dr rest Hsc Hpr)
    as (s1 & Hw & Hf & Hscr & _).
  exists s1. unfold _stop. rewrite Hw. auto.
Qed.

Lemma prompt_frame s s' polls : frame s s' -> prompt s polls -> prompt s' polls.
Proof. intros (_ & _ & _ & HT & _). unfold prompt. rewrite HT. auto. Qed.

Lemma take_S_insert (buf : list Z) i x :
  (i < length buf)%nat -> take (S i) (<[i:=x]> buf) = take i buf ++ [x].
Proof.
  intros Hi. rewrite (take_S_r _ _ x).
  - rewrite take_insert_ge by lia. reflexivity.
  - apply list_lookup_insert_eq. exact Hi.
Qed.

(** The receive loop in front of a device that sends [bytes]: it runs to
    its end and has stored the bytes from index [i] on. *)
Lemma receive_buf_loop_delivers polls (bytes : list Z) : forall i nack (buf : list Z) s rest,
  receiving_header ->
  script s = receive_answers polls bytes ++ rest -> prompt s polls ->
  0 <= i -> nack = i + Z.of_nat (length bytes) - 1 ->
  (Z.to_nat i + length bytes <= length buf)%nat ->
  exists buf' s',
    receive_buf_loop (length bytes) i nack buf s = Some ((Next, buf'), s') /\
    take (Z.to_nat i + length bytes) buf' = take (Z.to_nat i) buf ++ map u8 bytes /\
    frame s s' /\ script s' = rest.
Proof.
  intros i nack buf s rest Hh. revert i nack buf s rest.
  destruct Hh as (_ & _ & Hra & Hrn & Hla & Hln).
  induction bytes as [|b tl IH]; intros i nack buf s rest Hsc Hpr Hi Hnack Hlen.
  { exists buf, s. cbn. rewrite Nat.add_0_r, app_nil_r.
    repeat split. exact Hsc. }
  cbn [length receive_buf_loop]. cbn [receive_answers app] in Hsc.
  assert (Hrx : exists s1,
            (if i =? nack then _receiveByte 0 else _receiveByte 1) s = Some (0, s1) /\
            frame s s1 /\ script s1 = receive_answers polls tl ++ rest /\ TWDR s1 = u8 b).
  { destruct tl as [|b2 tl'].
    - cbn [length] in Hnack. replace (i =? nack) with true by (symmetry; apply Z.eqb_eq; lia).
      apply (_receiveByte_answered 0 s polls b _ Hra Hrn Hla Hln Hsc Hpr).
    - cbn [length] in Hnack. replace (i =? nack) with false by (symmetry; apply Z.eqb_neq; lia).
      apply (_receiveByte_answered 1 s polls b _ Hra Hrn Hla Hln Hsc Hpr). }
  destruct Hrx as (s1 & Hrx & Hf1 & Hsc1 & HD).
  unfold bind at 1. rewrite Hrx. cbn [truthy Z.eqb negb].
  unfold bind at 1, gets. rewrite HD.
  destruct (IH (i + 1) nack (<[Z.to_nat i := u8 b]> buf) s1 rest Hsc1
              (prompt_frame _ _ _ Hf1 Hpr)) as (buf' & s' & Hloop & Htake & Hf & Hscr).
  { lia. }
  { cbn [length] in Hnack. lia. }
  { rewrite length_insert. cbn [length] in Hlen. lia. }
  exists buf', s'. split; [exact Hloop|]. split.
  - replace (Z.to_nat i + S (length tl))%nat with (Z.to_nat (i + 1) + length tl)%nat by lia.
    rewrite Htake. replace (Z.to_nat (i + 1)) with (S (Z.to_nat i)) by lia.
    rewrite take_S_insert by (cbn [length] in Hlen; lia).
    rewrite <- app_assoc. reflexivity.
  - split; [eapply frame_trans; eassumption | exact Hscr].
Qed.

Lemma receive_loop_delivers polls (bytes : list Z) : forall i nack s rest,
  receiving_header ->
  script s = receive_answers polls bytes ++ rest -> prompt s polls ->
  0 <= i -> nack = i + Z.of_nat (length bytes) - 1 ->
  (Z.to_nat i + length bytes <= length (data s))%nat ->
  exists s',
    receive_loop (length bytes) i nack s = Some (Next, s') /\
    take (Z.to_nat i + length bytes) (data s') = take (Z.to_nat i) (data s) ++ map u8 bytes /\
    script s' = rest /\ timeOutDelay s' = timeOutDelay s.
Proof.
  intros i nack s rest Hh. revert i nack s rest.
  destruct Hh as (_ & _ & Hra & Hrn & Hla & Hln).
  induction bytes as [|b tl IH]; intros i nack s rest Hsc Hpr Hi Hnack Hlen.
  { exists s. cbn. rewrite Nat.add_0_r, app_nil_r. repeat split. exact Hsc. }
  cbn [length receive_loop]. cbn [receive_answers app] in Hsc.
  assert (Hrx : exists s1,
            (if i =? nack then _receiveByte 0 else _receiveByte 1) s = Some (0, s1) /\
            frame s s1 /\ script s1 = receive_answers polls tl ++ rest /\ TWDR s1 = u8 b).
  { destruct tl as [|b2 tl'].
    - cbn [length] in Hnack. replace (i =? nack) with true by (symmetry; apply Z.eqb_eq; lia).
      apply (_receiveByte_answered 0 s polls b _ Hra Hrn Hla Hln Hsc Hpr).
    - cbn [length] in Hnack. replace (i =? nack) with false by (symmetry; apply Z.eqb_neq; lia).
      apply (_receiveByte_answered 1 s polls b _ Hra Hrn Hla Hln Hsc Hpr). }
  destruct Hrx as (s1 & Hrx & Hf1 & Hsc1 & HD).
  unfold bind at 1. rewrite Hrx. cbn [truthy Z.eqb negb].
  unfold bind at 1 2 3, modify. rewrite HD.
  pose proof Hf1 as (_ & _ & _ & HT1 & Hd1 & _).
  set (s2 := set_totalBytes (u8 (i + 1))
               (set_bytesAvailable (u8 (i + 1))
                  (set_data (<[Z.to_nat i := u8 b]> (data s1)) s1))).
  destruct (IH (i + 1) nack s2 rest) as (s' & Hloop & Htake & Hscr & HT).
  { exact Hsc1. }
  { apply (prompt_frame _ _ _ Hf1) in Hpr. exact Hpr. }
  { lia. }
  { cbn [length] in Hnack. lia. }
  { cbn. rewrite length_insert, Hd1. cbn [length] in Hlen. lia. }
  exists s'. split; [exact Hloop|]. split; [|split; [exact Hscr|]].
  - replace (Z.to_nat i + S (length tl))%nat with (Z.to_nat (i + 1) + length tl)%nat by lia.
    rewrite Htake. replace (Z.to_nat (i + 1)) with (S (Z.to_nat i)) by lia.
    cbn [data s2 set_totalBytes set_bytesAvailable set_data]. rewrite Hd1.
    rewrite take_S_insert by (cbn [length] in Hlen; lia).
    rewrite <- app_assoc. reflexivity.
  - rewrite HT. cbn. exact HT1.
Qed.

(** X14: a read from a device that acknowledges its address and sends
    [bytes] returns 0 and delivers exactly these bytes in the order sent:
    into the front of the caller's buffer, the rest of which stays as it
    was, or into the internal buffer, from which the same number of calls
    of [receive] hands them out. *)
Theorem reads_deliver (address : Z) (polls : nat) (bytes : list Z)
    (d0 d1 dz : option Z) (stz : Z) (rest : list Response) (s : State) :
  receiving_header ->
  bytes <> [] -> (length bytes <= 255)%nat ->
  prompt s polls ->
  script s = Ready polls START d0 :: Ready polls MR_SLA_ACK d1
             :: receive_answers polls bytes ++ Ready polls stz dz :: rest ->
  (forall dataBuffer, (length bytes <= length dataBuffer)%nat ->
     exists s',
       read_buf address (Z.of_nat (length bytes)) dataBuffer s
         = Some ((0, map u8 bytes ++ drop (length bytes) dataBuffer), s') /\
       script s' = rest) /\
  (Z.of_nat (length bytes) <= MAX_BUFFER_SIZE ->
   (length bytes <= length (data s))%nat ->
   exists s' s'',
     read address (Z.of_nat (length bytes)) s = Some (0, s') /\
     script s' = rest /\
     drain (length bytes) s' = Some (map u8 bytes, s'')).
Proof.
  intros Hh Hne Hmax Hpr Hsc. pose proof Hh as (Hrs & Hra & _).
  assert (Hlen1 : 1 <= Z.of_nat (length bytes) <= 255).
  { destruct bytes; [contradiction|]. cbn [length] in *. lia. }
  assert (Hzero : (Z.of_nat (length bytes) =? 0) = false) by (apply Z.eqb_neq; lia).
  assert (Hu : u8 (Z.of_nat (length bytes) - 1) = Z.of_nat (length bytes) - 1)
    by (unfold u8; apply Z.mod_small; lia).
  split.
  - intros dataBuffer Hbuf.
    destruct (_start_answered s polls d0 _ Hrs Hsc Hpr) as (s1 & H1 & Hf1 & Hsc1).
    pose proof (prompt_frame _ _ _ Hf1 Hpr) as Hpr1.
    destruct (_sendAddress_answered (SLA_R address) s1 polls d1 _ Hra Hsc1 Hpr1)
      as (s2 & H2 & Hf2 & Hsc2).
    pose proof (prompt_frame _ _ _ Hf2 Hpr1) as Hpr2.
    destruct (receive_buf_loop_delivers polls bytes 0 (Z.of_nat (length bytes) - 1)
                dataBuffer s2 _ Hh Hsc2 Hpr2) as (buf' & s3 & H3 & Htake & Hf3 & Hsc3);
      [lia | lia | exact Hbuf |].
    pose proof (prompt_frame _ _ _ Hf3 Hpr2) as Hpr3.
    destruct (_stop_answered s3 polls stz dz rest Hsc3 Hpr3) as (s4 & H4 & _ & Hsc4).
    exists s4. split; [|exact Hsc4].
    unfold read_buf. cbv zeta. rewrite Hzero, Hu, Nat2Z.id.
    unfold bind at 1. rewrite H1. cbn [truthy Z.eqb negb].
    unfold bind at 1. rewrite H2. cbn [truthy Z.eqb negb].
    unfold bind at 1. rewrite H3.
    unfold bind at 1. rewrite H4. cbn [truthy Z.eqb negb ret].
    do 3 f_equal.
    apply receive_buf_loop_bounds in H3; [|lia]. destruct H3 as (_ & _ & Hdrop).
    change (Z.to_nat 0) with 0%nat in Htake, Hdrop. cbn [Nat.add take app] in Htake, Hdrop.
    rewrite <- (take_drop (length bytes) buf'), Htake, Hdrop. reflexivity.
  - intros Hcap Hdata.
    assert (Hmin : u8 (Z.min (Z.of_nat (length bytes)) MAX_BUFFER_SIZE)
                   = Z.of_nat (length bytes)).
    { rewrite Z.min_l by lia. unfold u8. apply Z.mod_small. lia. }
    set (s0 := set_bufferIndex 0 (set_bytesAvailable 0 s)).
    assert (Hpr0 : prompt s0 polls) by exact Hpr.
    destruct (_start_answered s0 polls d0 _ Hrs Hsc Hpr0) as (s1 & H1 & Hf1 & Hsc1).
    pose proof (prompt_frame _ _ _ Hf1 Hpr0) as Hpr1.
    destruct (_sendAddress_answered (SLA_R address) s1 polls d1 _ Hra Hsc1 Hpr1)
      as (s2 & H2 & Hf2 & Hsc2).
    pose proof (prompt_frame _ _ _ Hf2 Hpr1) as Hpr2.
    pose proof (frame_trans _ _ _ Hf1 Hf2) as (_ & _ & _ & HT2 & Hd2 & _).
    destruct (receive_loop_delivers polls bytes 0 (Z.of_nat (length bytes) - 1)
                s2 _ Hh Hsc2 Hpr2) as (s3 & H3 & Htake & Hsc3 & HT3);
      [lia | lia | rewrite Hd2; exact Hdata |].
    assert (Hpr3 : prompt s3 polls) by (unfold prompt in *; rewrite HT3; exact Hpr2).
    destruct (_stop_answered s3 polls stz dz rest Hsc3 Hpr3) as (s4 & H4 & Hf4 & Hsc4).
    assert (Hread : read address (Z.of_nat (length bytes)) s = Some (0, s4)).
    { unfold read. cbv zeta. rewrite Hmin, Hzero, Hu, Nat2Z.id.
      unfold bind at 1 2, modify. fold s0.
      unfold bind at 1. rewrite H1. cbn [truthy Z.eqb negb].
      unfold bind at 1. rewrite H2. cbn [truthy Z.eqb negb].
      unfold bind at 1. rewrite H3.
      unfold bind at 1. rewrite H4. reflexivity. }
    assert (Hcap1 : 1 <= MAX_BUFFER_SIZE) by lia.
    destruct (internal_read_counters (Z.of_nat (length bytes)) ltac:(lia) Hcap1)
      as (Hcnt & _).
    destruct (Hcnt address s s4 Hread) as (Hb & Ht & Hl).
    assert (Hcc : capped_count (Z.of_nat (length bytes)) = Z.of_nat (length bytes))
      by (unfold capped_count; lia).
    rewrite Hcc in Hb, Ht.
    destruct (drain_spec (length bytes) s4) as (s5 & Hdrain & _);
      [lia | lia | rewrite Ht, Hl; lia |].
    exists s4, s5. split; [exact Hread|]. split; [exact Hsc4|].
    rewrite Hdrain. do 2 f_equal.
    rewrite Hb, Ht, Z.sub_diag. change (Z.to_nat 0) with 0%nat. cbn [drop].
    destruct Hf4 as (_ & _ & _ & _ & Hd4 & _). rewrite Hd4.
    change (Z.to_nat 0) with 0%nat in Htake. cbn [Nat.add take app] in Htake.
    exact Htake.
Qed.

Lemma _start_acked s polls dr rest :
  raw START -> script s = Ready polls START dr :: rest -> prompt s polls ->
  exists s1, _start s = Some (0, s1) /\ frame s s1 /\ script s1 = rest /\
    trace s1 = trace s ++ [EvStart].
Proof.
  intros Hraw Hsc Hpr.
  destruct (wait_prompt EvStart s polls START dr rest Hsc Hpr)
    as (s1 & Hw & Hf & Hscr & Htr & HS & _).
  exists s1. unfold _start. rewrite Hw. unfold TWI_STATUS. rewrite HS, (raw_status _ Hraw).
  rewrite Z.eqb_refl. cbn. auto.
Qed.

Lemma _sendAddress_acked a s polls dr rest :
  raw MT_SLA_ACK -> script s = Ready polls MT_SLA_ACK dr :: rest -> prompt s polls ->
  exists s1, _sendAddress a s = Some (0, s1) /\ frame s s1 /\ script s1 = rest /\
    trace s1 = trace s ++ [EvAddress (u8 a)].
Proof.
  intros Hraw Hsc Hpr.
  destruct (wait_prompt (EvAddress (u8 a)) (set_TWDR (u8 a) s) polls MT_SLA_ACK dr rest
              Hsc Hpr) as (s1 & Hw & Hf & Hscr & Htr & HS & _).
  exists s1. unfold _sendAddress. cbv zeta. rewrite Hw.
  unfold TWI_STATUS. rewrite HS, (raw_status _ Hraw). rewrite Z.eqb_refl. cbn [orb].
  split; [reflexivity|]. split; [|split; [exact Hscr | exact Htr]].
  eapply frame_trans; [|exact Hf]. repeat split.
Qed.

Lemma _sendByte_acked b s polls dr rest :
  raw MT_DATA_ACK -> script s = Ready polls MT_DATA_ACK dr :: rest -> prompt s polls ->
  exists s1, _sendByte b s = Some (0, s1) /\ frame s s1 /\ script s1 = rest /\
    trace s1 = trace s ++ [EvByte (u8 b)].
Proof.
  intros Hraw Hsc Hpr.
  destruct (wait_prompt (EvByte (u8 b)) (set_TWDR (u8 b) s) polls MT_DATA_ACK dr rest
              Hsc Hpr) as (s1 & Hw & Hf & Hscr & Htr & HS & _).
  exists s1. unfold _sendByte. cbv zeta. rewrite Hw.
  unfold TWI_STATUS. rewrite HS, (raw_status _ Hraw). rewrite Z.eqb_refl.
  split; [reflexivity|]. split; [|split; [exact Hscr | exact Htr]].
  eapply frame_trans; [|exact Hf]. repeat split.
Qed.

Lemma _stop_acked s polls status dr rest :
  script s = Ready polls status dr :: rest -> prompt s polls ->
  exists s1, _stop s = Some (0, s1) /\ frame s s1 /\ script s1 = rest /\
    trace s1 = trace s ++ [EvStop].
Proof.
  intros Hsc Hpr.
  destruct (wait_prompt EvStop s polls status dr rest Hsc Hpr)
    as (s1 & Hw & Hf & Hscr & Htr & _).
  exists s1. unfold _stop. rewrite Hw. auto.
Qed.

Lemma send_loop_acked polls dd todo : forall i data s rest,
  raw MT_DATA_ACK -> 0 <= i ->
  script s = repeat (Ready polls MT_DATA_ACK dd) todo ++ rest -> prompt s polls ->
  exists s',
    send_loop todo i data s = Some (Next, s') /\ frame s s' /\ script s' = rest /\
    trace s' = trace s
               ++ map (fun j => EvByte (u8 (default 0 (data !! j)))) (seq (Z.to_nat i) todo).
Proof.
  induction todo as [|todo IH]; intros i data s rest Hraw Hi Hsc Hpr.
  { exists s. cbn. rewrite app_nil_r. repeat split. exact Hsc. }
  cbn [repeat app] in Hsc. cbn [send_loop].
  destruct (_sendByte_acked (default 0 (data !! Z.to_nat i)) s polls dd _ Hraw Hsc Hpr)
    as (s1 & H1 & Hf1 & Hsc1 & Ht1).
  unfold bind at 1. rewrite H1. cbn [truthy Z.eqb negb].
  destruct (IH (i + 1) data s1 rest Hraw ltac:(lia) Hsc1 (prompt_frame _ _ _ Hf1 Hpr))
    as (s' & Hloop & Hf & Hscr & Htr).
  exists s'. split; [exact Hloop|]. split; [eapply frame_trans; eassumption|].
  split; [exact Hscr|].
  rewrite Htr, Ht1, <- app_assoc. cbn [seq map app].
  replace (Z.to_nat (i + 1)) with (S (Z.to_nat i)) by lia.
  reflexivity.
Qed.

Lemma write_bytes_acked address registerAddress numberBytes (data : list Z)
    polls d0 d1 dd dz stz rest s :
  sending_header -> prompt s polls ->
  0 <= numberBytes -> (Z.to_nat numberBytes <= length data)%nat ->
  script s = Ready polls START d0 :: Ready polls MT_SLA_ACK d1
             :: repeat (Ready polls MT_DATA_ACK dd) (1 + Z.to_nat numberBytes)
             ++ Ready polls stz dz :: rest ->
  exists s',
    write_bytes address registerAddress data numberBytes s = Some (0, s') /\
    script s' = rest /\
    trace s' = trace s
               ++ [EvStart; EvAddress (u8 (SLA_W address)); EvByte (u8 registerAddress)]
               ++ bytes_of (take (Z.to_nat numberBytes) data) ++ [EvStop].
Proof.
  intros (Hrs & Hra & Hrd) Hpr Hn Hlen. rewrite <- (sends_take data _ Hlen).
  intros Hsc.
  destruct (_start_acked s polls d0 _ Hrs Hsc Hpr) as (s1 & H1 & Hf1 & Hsc1 & Ht1).
  pose proof (prompt_frame _ _ _ Hf1 Hpr) as Hpr1.
  destruct (_sendAddress_acked (SLA_W address) s1 polls d1 _ Hra Hsc1 Hpr1)
    as (s2 & H2 & Hf2 & Hsc2 & Ht2).
  pose proof (prompt_frame _ _ _ Hf2 Hpr1) as Hpr2.
  cbn [Nat.add repeat app] in Hsc2.
  destruct (_sendByte_acked registerAddress s2 polls dd _ Hrd Hsc2 Hpr2)
    as (s3 & H3 & Hf3 & Hsc3 & Ht3).
  pose proof (prompt_frame _ _ _ Hf3 Hpr2) as Hpr3.
  destruct (send_loop_acked polls dd (Z.to_nat numberBytes) 0 data s3 _ Hrd ltac:(lia)
              Hsc3 Hpr3) as (s4 & H4 & Hf4 & Hsc4 & Ht4).
  pose proof (prompt_frame _ _ _ Hf4 Hpr3) as Hpr4.
  destruct (_stop_acked s4 polls stz dz rest Hsc4 Hpr4) as (s5 & H5 & _ & Hsc5 & Ht5).
  exists s5. split; [|split; [exact Hsc5|]].
  + unfold write_bytes. cbv zeta.
    unfold bind at 1. rewrite H1. cbn [truthy Z.eqb negb].
    unfold bind at 1. rewrite H2.
    unfold bind at 1. rewrite H3. cbn [truthy Z.eqb negb].
    unfold bind at 1. rewrite H4.
    unfold bind at 1. rewrite H5. reflexivity.
  + rewrite Ht5, Ht4, Ht3, Ht2, Ht1. rewrite <- !app_assoc. reflexivity.
Qed.

Lemma write16_bytes_acked address registerAddress numberBytes (data : list Z)
    polls d0 d1 dd dz stz rest s :
  sending_header -> prompt s polls ->
  0 <= numberBytes -> (Z.to_nat numberBytes <= length data)%nat ->
  script s = Ready polls START d0 :: Ready polls MT_SLA_ACK d1
             :: repeat (Ready polls MT_DATA_ACK dd) (2 + Z.to_nat numberBytes)
             ++ Ready polls stz dz :: rest ->
  exists s',
    write16_bytes address registerAddress data numberBytes s = Some (0, s') /\
    script s' = rest /\
    trace s' = trace s
               ++ [EvStart; EvAddress (u8 (SLA_W address));
                   EvByte (u8 (Z.shiftr registerAddress 8));
                   EvByte (u8 (Z.land registerAddress 255))]
               ++ bytes_of (take (Z.to_nat numberBytes) data) ++ [EvStop].
Proof.
  intros (Hrs & Hra & Hrd) Hpr Hn Hlen. rewrite <- (sends_take data _ Hlen).
  intros Hsc.
  destruct (_start_acked s polls d0 _ Hrs Hsc Hpr) as (s1 & H1 & Hf1 & Hsc1 & Ht1).
  pose proof (prompt_frame _ _ _ Hf1 Hpr) as Hpr1.
  destruct (_sendAddress_acked (SLA_W address) s1 polls d1 _ Hra Hsc1 Hpr1)
    as (s2 & H2 & Hf2 & Hsc2 & Ht2).
  pose proof (prompt_frame _ _ _ Hf2 Hpr1) as Hpr2.
  cbn [Nat.add repeat app] in Hsc2.
  destruct (_sendByte_acked (Z.shiftr registerAddress 8) s2 polls dd _ Hrd Hsc2 Hpr2)
    as (s3 & H3 & Hf3 & Hsc3 & Ht3).
  pose proof (prompt_frame _ _ _ Hf3 Hpr2) as Hpr3.
  destruct (_sendByte_acked (Z.land registerAddress 255) s3 polls dd _ Hrd Hsc3 Hpr3)
    as (s3' & H3' & Hf3' & Hsc3' & Ht3').
  pose proof (prompt_frame _ _ _ Hf3' Hpr3) as Hpr3'.
  destruct (send_loop_acked polls dd (Z.to_nat numberBytes) 0 data s3' _ Hrd ltac:(lia)
              Hsc3' Hpr3') as (s4 & H4 & Hf4 & Hsc4 & Ht4).
  pose proof (prompt_frame _ _ _ Hf4 Hpr3') as Hpr4.
  destruct (_stop_acked s4 polls stz dz rest Hsc4 Hpr4) as (s5 & H5 & _ & Hsc5 & Ht5).
  exists s5. split; [|split; [exact Hsc5|]].
  + unfold write16_bytes.
    unfold bind at 1. rewrite H1. cbn [truthy Z.eqb negb].
    unfold bind at 1. rewrite H2. cbn [truthy Z.eqb negb].
    unfold bind at 1. rewrite H3. cbn [truthy Z.eqb negb].
    unfold bind at 1. rewrite H3'. cbn [truthy Z.eqb negb].
    unfold bind at 1. rewrite H4.
    unfold bind at 1. rewrite H5. reflexivity.
  + rewrite Ht5, Ht4, Ht3', Ht3, Ht2, Ht1. rewrite <- !app_assoc. reflexivity.
Qed.

(** X15: a block write of the first [numberBytes] bytes of [data] to a
    device that acknowledges its address and every byte in time returns 0
    after exactly the phases start, address with the write bit, register
    address (high byte first when it has two), those bytes in order and
    stop; no recovery is run. *)
Theorem block_writes_succeed (address registerAddress numberBytes : Z) (data : list Z)
    (polls : nat) (d0 d1 dd dz : option Z) (stz : Z) (rest : list Response) (s : State) :
  sending_header -> prompt s polls ->
  0 <= numberBytes -> (Z.to_nat numberBytes <= length data)%nat ->
  (script s = Ready polls START d0 :: Ready polls MT_SLA_ACK d1
              :: repeat (Ready polls MT_DATA_ACK dd) (1 + Z.to_nat numberBytes)
              ++ Ready polls stz dz :: rest ->
   exists s',
     write_bytes address registerAddress data numberBytes s = Some (0, s') /\
     script s' = rest /\
     trace s' = trace s
                ++ [EvStart; EvAddress (u8 (SLA_W address)); EvByte (u8 registerAddress)]
                ++ bytes_of (take (Z.to_nat numberBytes) data) ++ [EvStop]) /\
  (script s = Ready polls START d0 :: Ready polls MT_SLA_ACK d1
              :: repeat (Ready polls MT_DATA_ACK dd) (2 + Z.to_nat numberBytes)
              ++ Ready polls stz dz :: rest ->
   exists s',
     write16_bytes address registerAddress data numberBytes s = Some (0, s') /\
     script s' = rest /\
     trace s' = trace s
                ++ [EvStart; EvAddress (u8 (SLA_W address));
                    EvByte (u8 (Z.shiftr registerAddress 8));
                    EvByte (u8 (Z.land registerAddress 255))]
                ++ bytes_of (take (Z.to_nat numberBytes) data) ++ [EvStop]).
Proof.
  intros Hh Hpr Hn Hlen. split; intros Hsc.
  - exact (write_bytes_acked address registerAddress numberBytes data
             polls d0 d1 dd dz stz rest s Hh Hpr Hn Hlen Hsc).
  - exact (write16_bytes_acked address registerAddress numberBytes data
             polls d0 d1 dd dz stz rest s Hh Hpr Hn Hlen Hsc).
Qed.






End Answered.

(** ** The phase behind a time-out code *)

Lemma located_at address s si s' c code k pre e :
  trace si = trace s ++ pre ->
  timed_out e si c s' ->
  (c <> 1 -> code = c) ->
  (c = 1 -> code = k) ->
  names address k pre e ->
  located address s s' code.
Proof.
  intros Hpre (Hpc & H1) Hraw Hk Hn Hcode.
  destruct (Z.eq_dec c 1) as [->|Hne].
  - destruct (H1 eq_refl) as (_ & _ & Ht).
    exists pre, e. rewrite (Hk eq_refl). split; [|exact Hn].
    rewrite Ht, Hpre, <- app_assoc. reflexivity.
  - rewrite (Hraw Hne) in Hcode.
    destruct Hpc as [Hr|(Hc & _)]; [|contradiction].
    apply raw_range in Hr. pose proof (Z.div_mod c 8 ltac:(lia)). lia.
Qed.

Lemma start_error_handler_raw c mode : c <> 1 -> start_error_handler c mode = c.
Proof.
  intros Hc. unfold start_error_handler.
  destruct (c =? 1) eqn:E; [apply Z.eqb_eq in E; contradiction | reflexivity].
Qed.

Lemma send_addr_error_handler_raw c mode : c <> 1 -> send_addr_error_handler c mode = c.
Proof.
  intros Hc. unfold send_addr_error_handler.
  destruct (c =? 1) eqn:E; [apply Z.eqb_eq in E; contradiction | reflexivity].
Qed.

Lemma send_error_handler_raw c : c <> 1 -> send_error_handler c = c.
Proof.
  intros Hc. unfold send_error_handler.
  destruct (c =? 1) eqn:E; [apply Z.eqb_eq in E; contradiction | reflexivity].
Qed.

Lemma receive_error_handler_raw c : c <> 1 -> receive_error_handler c = c.
Proof.
  intros Hc. unfold receive_error_handler.
  destruct (c =? 1) eqn:E; [apply Z.eqb_eq in E; contradiction | reflexivity].
Qed.

Lemma stop_error_handler_raw c : c <> 1 -> stop_error_handler c = c.
Proof.
  intros Hc. unfold stop_error_handler.
  destruct (c =? 1) eqn:E; [apply Z.eqb_eq in E; contradiction | reflexivity].
Qed.

(** The phases so far are not none. *)
Ltac nonempty :=
  let Hnil := fresh "Hnil" in
  intros Hnil; apply (f_equal (@length Event)) in Hnil;
  rewrite ?length_app in Hnil; cbn [length] in Hnil; lia.

(** The code [k] of a time-out names the phase at hand. *)
Ltac named :=
  unfold names;
  repeat match goal with |- _ /\ _ => split end;
  (let Hk := fresh "Hk" in
   intros Hk; vm_compute in Hk; try discriminate Hk;
   first [ reflexivity
         | eexists; reflexivity
         | split; [reflexivity | reflexivity]
         | split; [nonempty | reflexivity] ]).

(** The failure branch of a phase: the handler's code is located. *)
Ltac failed address Hpre TO Hc RAW n :=
  eapply (located_at address) with (k := n);
  [ exact Hpre
  | eapply TO; exact Hc
  | apply RAW
  | intros ->; reflexivity
  | named ].

(** One phase of a sequence with its handler and the code [n] of its
    time-out; [Hpre] follows the trace. *)
Ltac phase address Hr Hpre TO SP RAW n :=
  let c := fresh "c" in
  let s1 := fresh "s" in
  let Hc := fresh "Hc" in
  let E := fresh "E" in
  let evs := fresh "evs" in
  let Ht := fresh "Ht" in
  bind_step Hr c s1 Hc;
  destruct (truthy c) eqn:E;
  [ injection Hr; clear Hr; intros; subst; failed address Hpre TO Hc RAW n
  | apply SP in Hc; destruct Hc as (_ & evs & Ht & _);
    rewrite Hpre, <- app_assoc in Ht; clear Hpre; rename Ht into Hpre ].

Section Phases.
Context `{Header}.

Lemma receive_loop_located address s todo : forall i nack si r s' pre,
  trace si = trace s ++ pre ->
  receive_loop todo i nack si = Some (r, s') ->
  match r with
  | Return code => located address s s' code
  | Next => exists pre', trace s' = trace s ++ pre'
  end.
Proof.
  induction todo as [|todo IH]; intros i nack si r s' pre Hpre Hr.
  { injection Hr as <- <-. exists pre. exact Hpre. }
  cbn [receive_loop] in Hr.
  destruct (i =? nack).
  - phase address Hr Hpre _receiveByte_timed_out _receiveByte_spec receive_error_handler_raw 6.
    unfold bind at 1 2 3, modify in Hr.
    eapply IH; [|exact Hr]. exact Hpre.
  - phase address Hr Hpre _receiveByte_timed_out _receiveByte_spec receive_error_handler_raw 6.
    unfold bind at 1 2 3, modify in Hr.
    eapply IH; [|exact Hr]. exact Hpre.
Qed.

Lemma receive_buf_loop_located address s todo : forall i nack buf si r buf' s' pre,
  trace si = trace s ++ pre ->
  receive_buf_loop todo i nack buf si = Some ((r, buf'), s') ->
  match r with
  | Return code => located address s s' code
  | Next => exists pre', trace s' = trace s ++ pre'
  end.
Proof.
  induction todo as [|todo IH]; intros i nack buf si r buf' s' pre Hpre Hr.
  { injection Hr as <- <- <-. exists pre. exact Hpre. }
  cbn [receive_buf_loop] in Hr.
  destruct (i =? nack).
  - phase address Hr Hpre _receiveByte_timed_out _receiveByte_spec receive_error_handler_raw 6.
    unfold bind at 1, gets in Hr.
    eapply IH; [|exact Hr]. exact Hpre.
  - phase address Hr Hpre _receiveByte_timed_out _receiveByte_spec receive_error_handler_raw 6.
    unfold bind at 1, gets in Hr.
    eapply IH; [|exact Hr]. exact Hpre.
Qed.

(** The end of a sequence: the stop condition and its handler. *)
Ltac closing address Hr Hpre :=
  let c := fresh "c" in
  let s1 := fresh "s" in
  let Hc := fresh "Hc" in
  let E := fresh "E" in
  bind_step Hr c s1 Hc;
  destruct (truthy c) eqn:E;
  [ injection Hr; clear Hr; intros; subst;
    failed address Hpre _stop_timed_out Hc stop_error_handler_raw 7
  | apply truthy_false in E; injection Hr; clear Hr; intros; subst;
    let Hcode := fresh "Hcode" in intros Hcode; lia ].

(** X16: where the handlers are called as documented, a returned time-out
    code names the phase that timed out.  When [write16] with no or one
    data byte, [read] without register address (into the internal or a
    caller's buffer) or [read16] into the internal buffer returns a code
    of 1..7, the last thing on the bus is the recovery right after that
    phase: 1 the first start condition, 2 the address with the write bit,
    3 a byte sent, 4 a repeated start, 5 the address with the read bit, 6
    a byte being received, 7 the stop condition. *)
Theorem timeout_codes_name_the_phase (address registerAddress data numberBytes : Z)
    (dataBuffer : list Z) (s : State) (code : Z) (s' : State) :
  1 <= code <= 7 ->
  write16 address registerAddress s = Some (code, s') \/
  write16_u8 address registerAddress data s = Some (code, s') \/
  read address numberBytes s = Some (code, s') \/
  read16 address registerAddress numberBytes s = Some (code, s') \/
  (exists buf', read_buf address numberBytes dataBuffer s = Some ((code, buf'), s')) \/
  (exists buf', read_buf_n16 address numberBytes dataBuffer s = Some ((code, buf'), s')) ->
  exists before e,
    trace s' = trace s ++ before ++ [e; EvLockUp] /\ names address code before e.
Proof.
  intros Hcode Hrun. revert Hcode. fold (located address s s' code).
  assert (Hpre : trace s = trace s ++ []) by (symmetry; apply app_nil_r).
  destruct Hrun as [Hr|[Hr|[Hr|[Hr|[(buf' & Hr)|(buf' & Hr)]]]]].
  - unfold write16 in Hr.
    phase address Hr Hpre _start_timed_out _start_spec start_error_handler_raw 1.
    phase address Hr Hpre _sendAddress_timed_out _sendAddress_spec
      send_addr_error_handler_raw 2.
    phase address Hr Hpre _sendByte_timed_out _sendByte_spec send_error_handler_raw 3.
    phase address Hr Hpre _sendByte_timed_out _sendByte_spec send_error_handler_raw 3.
    closing address Hr Hpre.
  - unfold write16_u8 in Hr.
    phase address Hr Hpre _start_timed_out _start_spec start_error_handler_raw 1.
    phase address Hr Hpre _sendAddress_timed_out _sendAddress_spec
      send_addr_error_handler_raw 2.
    phase address Hr Hpre _sendByte_timed_out _sendByte_spec send_error_handler_raw 3.
    phase address Hr Hpre _sendByte_timed_out _sendByte_spec send_error_handler_raw 3.
    phase address Hr Hpre _sendByte_timed_out _sendByte_spec send_error_handler_raw 3.
    closing address Hr Hpre.
  - unfold read in Hr. cbv zeta in Hr. unfold bind at 1 2, modify in Hr.
    change (trace s) with (trace (set_bufferIndex 0 (set_bytesAvailable 0 s))) in Hpre at 1.
    phase address Hr Hpre _start_timed_out _start_spec start_error_handler_raw 1.
    phase address Hr Hpre _sendAddress_timed_out _sendAddress_spec
      send_addr_error_handler_raw 5.
    bind_step Hr r sl Hloop.
    apply (receive_loop_located address s _ _ _ _ _ _ _ Hpre) in Hloop.
    destruct r as [rc|].
    + injection Hr as <- <-. exact Hloop.
    + destruct Hloop as (pre' & Hpre'). closing address Hr Hpre'.
  - unfold read16 in Hr. cbv zeta in Hr. unfold bind at 1 2, modify in Hr.
    change (trace s) with (trace (set_bufferIndex 0 (set_bytesAvailable 0 s))) in Hpre at 1.
    phase address Hr Hpre _start_timed_out _start_spec start_error_handler_raw 1.
    phase address Hr Hpre _sendAddress_timed_out _sendAddress_spec
      send_addr_error_handler_raw 2.
    phase address Hr Hpre _sendByte_timed_out _sendByte_spec send_error_handler_raw 3.
    phase address Hr Hpre _sendByte_timed_out _sendByte_spec send_error_handler_raw 3.
    phase address Hr Hpre _start_timed_out _start_spec start_error_handler_raw 4.
    phase address Hr Hpre _sendAddress_timed_out _sendAddress_spec
      send_addr_error_handler_raw 5.
    bind_step Hr r sl Hloop.
    apply (receive_loop_located address s _ _ _ _ _ _ _ Hpre) in Hloop.
    destruct r as [rc|].
    + injection Hr as <- <-. exact Hloop.
    + destruct Hloop as (pre' & Hpre'). closing address Hr Hpre'.
  - unfold read_buf in Hr. cbv zeta in Hr.
    phase address Hr Hpre _start_timed_out _start_spec start_error_handler_raw 1.
    phase address Hr Hpre _sendAddress_timed_out _sendAddress_spec
      send_addr_error_handler_raw 5.
    bind_step Hr r sl Hloop. destruct r as (r & buf2).
    apply (receive_buf_loop_located address s _ _ _ _ _ _ _ _ _ Hpre) in Hloop.
    destruct r as [rc|].
    + injection Hr as <- <- <-. exact Hloop.
    + destruct Hloop as (pre' & Hpre'). closing address Hr Hpre'.
  - unfold read_buf_n16 in Hr. cbv zeta in Hr.
    phase address Hr Hpre _start_timed_out _start_spec start_error_handler_raw 1.
    phase address Hr Hpre _sendAddress_timed_out _sendAddress_spec
      send_addr_error_handler_raw 5.
    bind_step Hr r sl Hloop. destruct r as (r & buf2).
    apply (receive_buf_loop_located address s _ _ _ _ _ _ _ _ _ Hpre) in Hloop.
    destruct r as [rc|].
    + injection Hr as <- <- <-. exact Hloop.
    + destruct Hloop as (pre' & Hpre'). closing address Hr Hpre'.
Qed.

End Phases.

(** ** The further properties on the ATmega status codes *)

Lemma primitive_timeouts_witness :
  exists c s',
    _sendByte 7 (fresh 3 []) = Some (c, s') /\
    timed_out (EvByte (u8 7)) (fresh 3 []) c s'.
Proof.
  do 2 eexists. split; [vm_compute; reflexivity|].
  eapply (proj1 (proj2 (proj2 (primitive_timeouts (H := atmega)))) 7 (fresh 3 [])).
  vm_compute. reflexivity.
Defined.

Lemma entry_point_result_codes_witness :
  exists code s',
    read_reg 80 16 4 (fresh 5 [Ready 2 8 None; Ready 2 24 None]) = Some (code, s') /\
    result_code (fresh 5 [Ready 2 8 None; Ready 2 24 None]) code.
Proof.
  do 2 eexists. split; [vm_compute; reflexivity|].
  eapply (proj1 (proj2 (proj2 (proj2 (proj2 (proj2 (proj2 (proj2
           (entry_point_result_codes (H := atmega) 80 16 0 4 [] []))))))))
           (fresh 5 [Ready 2 8 None; Ready 2 24 None])).
  vm_compute. reflexivity.
Defined.

Lemma entry_points_keep_state_witness :
  exists code s',
    write_u8 80 16 7 (fresh 5 [Ready 2 8 None; Ready 2 24 None; Ready 2 48 None])
      = Some (code, s') /\
    frame (fresh 5 [Ready 2 8 None; Ready 2 24 None; Ready 2 48 None]) s'.
Proof.
  do 2 eexists. split; [vm_compute; reflexivity|].
  eapply (proj1 (proj2 (entry_points_keep_state (H := atmega) 80 16 7 0 [] []))
           (fresh 5 [Ready 2 8 None; Ready 2 24 None; Ready 2 48 None]) _).
  vm_compute. reflexivity.
Defined.

Lemma writes_follow_protocol_witness :
  (Z.to_nat 2 <= length [17; 18; 19])%nat /\
  exists s',
    write_bytes 80 16 [17; 18; 19] 2
      (fresh 0 [Ready 2 8 None; Ready 2 24 None; Ready 2 40 None; Ready 2 40 None;
                Ready 2 40 None; Ready 2 248 None]) = Some (0, s') /\
    transaction
      (fresh 0 [Ready 2 8 None; Ready 2 24 None; Ready 2 40 None; Ready 2 40 None;
                Ready 2 40 None; Ready 2 248 None]) s' 0
      ([EvStart; EvAddress (u8 (SLA_W 80)); EvByte (u8 16)]
       ++ bytes_of (take (Z.to_nat 2) [17; 18; 19])).
Proof.
  split; [cbn; lia|].
  eexists. split; [vm_compute; reflexivity|].
  eapply (proj1 (proj2 (proj2 (writes_follow_protocol (H := atmega) 80 16 0 2 [17; 18; 19])))
           ltac:(cbn; lia)).
  vm_compute. reflexivity.
Defined.

Lemma reads_follow_protocol_witness :
  0 <= 2 <= 255 /\ 1 <= MAX_BUFFER_SIZE (Header := atmega) /\
  exists s',
    read 80 2 (fresh 0 [Ready 2 8 None; Ready 2 64 None; Ready 1 80 (Some 7);
                        Ready 1 88 (Some 9); Ready 2 248 None]) = Some (0, s') /\
    transaction
      (fresh 0 [Ready 2 8 None; Ready 2 64 None; Ready 1 80 (Some 7);
                Ready 1 88 (Some 9); Ready 2 248 None]) s' 0
      ([EvStart; EvAddress (u8 (SLA_R 80))] ++ receives (capped_count 2)).
Proof.
  split; [lia|]. split; [vm_compute; discriminate|].
  eexists. split; [vm_compute; reflexivity|].
  eapply (proj1 (proj1 (reads_follow_protocol (H := atmega) 80 16 2 [])
                  ltac:(lia) ltac:(vm_compute; discriminate))).
  vm_compute. reflexivity.
Defined.

Lemma receive_is_fifo_witness :
  exists s',
    drain 2 (mkState 3 1 4 0 [17; 18; 19; 20] 0 248 0 Stalled [] [] [])
      = Some ([18; 19], s') /\
    available s' = Some (1, s').
Proof.
  destruct (receive_is_fifo 2
              (mkState 3 1 4 0 [17; 18; 19; 20] 0 248 0 Stalled [] [] []))
    as (s' & Hd & Ha & _); [cbn; lia | cbn; lia | cbn; lia |].
  exists s'. split; [exact Hd | exact Ha].
Defined.

Lemma read_then_receive_witness :
  exists s',
    read 80 2 (fresh 0 [Ready 2 8 None; Ready 2 64 None; Ready 1 80 (Some 7);
                        Ready 1 88 (Some 9); Ready 2 248 None]) = Some (0, s') /\
    available s' = Some (2, s') /\
    exists s'',
      drain 2 s' = Some ([7; 9], s'') /\
      available s'' = Some (0, s'') /\
      receive s'' = Some (0, set_bufferIndex 0 s'').
Proof.
  eexists. split; [vm_compute; reflexivity|].
  eapply (read_then_receive (H := atmega) 2
            (fresh 0 [Ready 2 8 None; Ready 2 64 None; Ready 1 80 (Some 7);
                      Ready 1 88 (Some 9); Ready 2 248 None])).
  - lia.
  - vm_compute. discriminate.
  - vm_compute. lia.
  - left. exists 80. vm_compute. reflexivity.
Defined.

Lemma entry_points_return_witness :
  exists code s',
    read16 80 4660 3 (fresh 5 [Ready 2 8 None]) = Some (code, s') /\
    timeOutDelay s' = timeOutDelay (fresh 5 [Ready 2 8 None]).
Proof.
  eapply (proj1 (proj2 (proj2 (proj2 (proj2 (proj2 (proj2 (proj2 (proj2
            (entry_points_return (H := atmega) 80 4660 0 3 [] [])))))))))
            (fresh 5 [Ready 2 8 None])).
  - vm_compute. discriminate.
  - vm_compute. reflexivity.
Defined.

Lemma entry_points_block_without_timeout_witness :
  timeOutDelay (fresh 0 []) = 0 /\ unanswered (fresh 0 []) /\
  write 80 16 (fresh 0 []) = None.
Proof.
  split; [reflexivity|]. split; [exact I|].
  apply (proj1 (entry_points_block_without_timeout (H := atmega) 80 16 0 0 [] []
                  (fresh 0 []) eq_refl I)).
Defined.

Lemma scan_report_witness :
  exists s',
    scan (fresh 0 [Ready 1 8 None; Ready 1 24 None; Ready 1 248 None]) = Some (tt, s') /\
    exists found,
      found `sublist_of` map Z.of_nat (seq 0 128) /\
      (console s' = [] ++ [LnScanning; LnBlank] ++ map LnFound found ++ [LnBusProblem] \/
       (found = [] /\ console s' = [] ++ [LnScanning; LnBlank; LnNoDevices]) \/
       (found <> [] /\ console s' = [] ++ [LnScanning; LnBlank] ++ map LnFound found)) /\
      bytesAvailable s' = 0 /\ bufferIndex s' = 0 /\
      totalBytes s' = 0 /\ data s' = repeat 0 32.
Proof.
  eexists. split; [vm_compute; reflexivity|].
  apply (scan_report (H := atmega)
           (fresh 0 [Ready 1 8 None; Ready 1 24 None; Ready 1 248 None])).
  vm_compute. reflexivity.
Defined.

Lemma text_writes_send_strlen_mod_256_witness :
  Forall (fun c => c <> 0) [72; 105] /\
  exists s',
    write_str 80 16 ([72; 105] ++ 0 :: [33])
      (fresh 0 [Ready 2 8 None; Ready 2 24 None; Ready 2 40 None; Ready 2 40 None;
                Ready 2 40 None; Ready 2 248 None]) = Some (0, s') /\
    transaction
      (fresh 0 [Ready 2 8 None; Ready 2 24 None; Ready 2 40 None; Ready 2 40 None;
                Ready 2 40 None; Ready 2 248 None]) s' 0
      ([EvStart; EvAddress (u8 (SLA_W 80)); EvByte (u8 16)]
       ++ bytes_of (take (Z.to_nat (Z.of_nat (length [72; 105]) mod 256)) [72; 105])).
Proof.
  assert (Hstr : Forall (fun c => c <> 0) [72; 105]) by (repeat constructor; lia).
  split; [exact Hstr|].
  eexists. split; [vm_compute; reflexivity|].
  eapply (proj1 (text_writes_send_strlen_mod_256 (H := atmega) 80 16 [72; 105] [33] Hstr)).
  vm_compute. reflexivity.
Defined.

Lemma overloads_agree_witness :
  0 <= 2 <= 255 /\
  read_buf_n16 80 2 [0; 0; 0] (fresh 5 [Ready 2 8 None; Ready 2 64 None])
    = read_buf 80 2 [0; 0; 0] (fresh 5 [Ready 2 8 None; Ready 2 64 None]).
Proof.
  split; [lia|].
  apply (proj1 (proj2 (proj2 (overloads_agree (H := atmega) 80 16 0 2 [] [0; 0; 0]
                                (fresh 5 [Ready 2 8 None; Ready 2 64 None])))
                  ltac:(lia))).
Defined.

Lemma caller_buffer_bounds_witness :
  exists code buf' s',
    read_reg_buf 80 16 2 [1; 2; 3; 4]
      (fresh 5 [Ready 2 8 None; Ready 2 24 None; Ready 2 40 None; Ready 2 16 None;
                Ready 2 64 None; Ready 1 80 (Some 7)]) = Some ((code, buf'), s') /\
    length buf' = length [1; 2; 3; 4] /\
    drop (Z.to_nat (Z.max 2 1)) buf' = drop (Z.to_nat (Z.max 2 1)) [1; 2; 3; 4].
Proof.
  do 3 eexists. split; [vm_compute; reflexivity|].
  eapply (caller_buffer_bounds (H := atmega) 80 16 2 [1; 2; 3; 4]
            (fresh 5 [Ready 2 8 None; Ready 2 24 None; Ready 2 40 None; Ready 2 16 None;
                      Ready 2 64 None; Ready 1 80 (Some 7)])).
  - lia.
  - vm_compute. lia.
  - right. right. left. vm_compute. reflexivity.
Defined.

Lemma reads_deliver_witness :
  exists s',
    read_buf 80 2 [1; 2; 3]
      (fresh 5 [Ready 2 8 None; Ready 2 64 None; Ready 2 80 (Some 7);
                Ready 2 88 (Some 9); Ready 2 248 None; Stalled])
      = Some ((0, [7; 9; 3]), s') /\
    script s' = [Stalled].
Proof.
  assert (Hh : receiving_header (H := atmega)).
  { split; [reflexivity|]. split; [reflexivity|]. split; [reflexivity|].
    split; [reflexivity|]. split; discriminate. }
  assert (Hp : prompt (fresh 5 [Ready 2 8 None; Ready 2 64 None; Ready 2 80 (Some 7);
                                Ready 2 88 (Some 9); Ready 2 248 None; Stalled]) 2).
  { right. cbn. lia. }
  apply (proj1 (reads_deliver (H := atmega) 80 2 [7; 9] None None None 248 [Stalled]
                  (fresh 5 [Ready 2 8 None; Ready 2 64 None; Ready 2 80 (Some 7);
                            Ready 2 88 (Some 9); Ready 2 248 None; Stalled])
                  Hh ltac:(discriminate) ltac:(cbn; lia) Hp eq_refl)
           [1; 2; 3] ltac:(cbn; lia)).
Defined.

Lemma block_writes_succeed_witness :
  exists s',
    write16_bytes 80 4660 [17; 18; 19] 2
      (fresh 5 [Ready 2 8 None; Ready 2 24 None; Ready 2 40 None; Ready 2 40 None;
                Ready 2 40 None; Ready 2 40 None; Ready 2 248 None]) = Some (0, s') /\
    script s' = [] /\
    trace s' = [EvStart; EvAddress 160; EvByte 18; EvByte 52; EvByte 17; EvByte 18; EvStop].
Proof.
  assert (Hh : sending_header (H := atmega)).
  { split; [reflexivity|]. split; reflexivity. }
  assert (Hp : prompt (fresh 5 [Ready 2 8 None; Ready 2 24 None; Ready 2 40 None;
                                Ready 2 40 None; Ready 2 40 None; Ready 2 40 None;
                                Ready 2 248 None]) 2).
  { right. cbn. lia. }
  apply (proj2 (block_writes_succeed (H := atmega) 80 4660 2 [17; 18; 19] 2
                  None None None None 248 []
                  (fresh 5 [Ready 2 8 None; Ready 2 24 None; Ready 2 40 None;
                            Ready 2 40 None; Ready 2 40 None; Ready 2 40 None;
                            Ready 2 248 None])
                  Hh Hp ltac:(lia) ltac:(cbn; lia)) eq_refl).
Defined.

Lemma timeout_codes_name_the_phase_witness :
  exists s',
    read16 80 4660 2
      (fresh 5 [Ready 2 8 None; Ready 2 24 None; Ready 2 40 None; Ready 2 40 None])
      = Some (4, s') /\
    exists before e,
      trace s' = trace (fresh 5 [Ready 2 8 None; Ready 2 24 None; Ready 2 40 None;
                                 Ready 2 40 None])
                 ++ before ++ [e; EvLockUp] /\
      names 80 4 before e.
Proof.
  eexists. split; [vm_compute; reflexivity|].
  eapply (timeout_codes_name_the_phase (H := atmega) 80 4660 0 2 []
            (fresh 5 [Ready 2 8 None; Ready 2 24 None; Ready 2 40 None; Ready 2 40 None])
            4 _ ltac:(lia)).
  right. right. right. left. vm_compute. reflexivity.
Defined.

